(** * countdown-scraper: reconciliation engine and URL categorisation

    A shallow embedding of the parts of the scraper that decide what is
    written to the product store:

    - [index.ts]:  [parseAndCategoriseURL], [validateProduct],
      [playwrightElementToProduct];
    - [mysql.ts]:  [upsertProductToMySQL], [buildUpdatedProduct], in the
      revision that passes its parameters through
      [replaceUndefinedWithNull];
    - [frappe.ts]: [upsertProductToFrappe];
    - [index.ts], further: the pages read from urls.txt,
      [handleArguments], the promise chain of the scrape loop with its
      counters, [uploadImageRestAPI], [routePlaywrightExclusions];
    - [utilities.ts]: [log], [getAlternatingRowColour], [logProductRow],
      [logTableHeader]; and [logPriceChange] of mysql.ts.

    JavaScript numbers are binary64 floats ([PrimFloat]); strings are
    sequences of code units ([string]); objects and arrays that the code
    mutates and shares live in an explicit store, and a call is a state
    transformer that either returns or throws. *)

From Stdlib Require Import ZArith Floats Ascii DecimalString.
From stdpp Require Import gmap strings list.

#[local] Set Warnings "-inexact-float".
#[local] Open Scope Z_scope.

(* ================================================================== *)
(** ** JavaScript strings *)

Module JsString.

(** [s.startsWith(p)] *)
Definition startsWith (s p : string) : bool := String.prefix p s.

(** [s.includes(sub)]: [sub] occurs at some position of [s]. *)
Fixpoint includes (s sub : string) : bool :=
  String.prefix sub s ||
  match s with
  | EmptyString => false
  | String _ t => includes t sub
  end.

(** [s.indexOf(sub)]: position of the first occurrence, or [-1]. *)
Fixpoint indexOf (s sub : string) : Z :=
  if String.prefix sub s then 0
  else match s with
       | EmptyString => -1
       | String _ t => let i := indexOf t sub in if i <? 0 then -1 else i + 1
       end.

Definition clamp (len i : Z) : Z := Z.max 0 (Z.min i len).

(** [s.substring(a, b)]: both ends are clamped to [0, length] and
    swapped when out of order. *)
Definition substring (s : string) (a b : Z) : string :=
  let len := Z.of_nat (String.length s) in
  let a' := clamp len a in
  let b' := clamp len b in
  let lo := Z.min a' b' in
  let hi := Z.max a' b' in
  String.substring (Z.to_nat lo) (Z.to_nat (hi - lo)) s.

(** [s.slice(0, n)] for a non-negative literal [n]. *)
Definition slice0 (s : string) (n : nat) : string := String.substring 0 n s.

(** [s.split(sep)] for a non-empty separator.  [skip] counts the code
    units of a matched separator that are still to be passed over;
    [cur] is the piece being collected. *)
Fixpoint split_go (sep : string) (skip : nat) (cur s : string) : list string :=
  match s with
  | EmptyString => [cur]
  | String c t =>
      match skip with
      | S k => split_go sep k cur t
      | O =>
          if String.prefix sep s
          then cur :: split_go sep (String.length sep - 1) EmptyString t
          else split_go sep 0 (cur +:+ String c EmptyString) t
      end
  end.

Definition split (s sep : string) : list string := split_go sep 0 EmptyString s.

Fixpoint drop (n : nat) (s : string) : string :=
  match n, s with
  | O, _ => s
  | S _, EmptyString => EmptyString
  | S k, String _ t => drop k t
  end.

(** [s.replace(pat, rep)] with a string pattern: only the first
    occurrence is replaced. *)
Fixpoint replace (s pat rep : string) : string :=
  if String.prefix pat s then rep +:+ drop (String.length pat) s
  else match s with
       | EmptyString => EmptyString
       | String c t => String c (replace t pat rep)
       end.

(** [s.endsWith(suffix)], as a proposition. *)
Definition endsWith (s suffix : string) : Prop := exists p, s = p +:+ suffix.

(** The code unit [c] occurs in [s]. *)
Fixpoint has_char (c : ascii) (s : string) : bool :=
  match s with
  | EmptyString => false
  | String d t => Ascii.eqb c d || has_char c t
  end.

End JsString.

(* ================================================================== *)
(** ** index.ts: [parseAndCategoriseURL] *)

Record CategorisedUrl := mkCategorisedUrl {
  url : string;
  categories : list string
}.

Definition siteMarker : string := "countdown.co.nz".
Definition optimisedQuery : string := "?page=1&size=48&inStockProductsOnly=true".

(** The body of the [forEach] over the sections of a line; [cu] is the
    [categorisedUrl] object the callback updates. *)
Definition parseSection (line : string) (cu : CategorisedUrl) (section : string)
  : CategorisedUrl :=
  if JsString.includes section siteMarker then
    let u := section in
    let u := if JsString.startsWith u "http" then u else "https://" +:+ u in
    let u := if JsString.includes u "?"
             then JsString.substring line 0 (JsString.indexOf line "?")
             else u in
    mkCategorisedUrl (u +:+ optimisedQuery) (categories cu)
  else if JsString.startsWith section "categories=" then
    let splitCategories := [JsString.replace section "categories=" ""] in
    let splitCategories :=
      if JsString.includes section ", "
      then JsString.split (JsString.replace section "categories=" "") ", "
      else splitCategories in
    mkCategorisedUrl (url cu) splitCategories
  else cu.

(** [None] is [undefined].  [split] never returns an empty array, so the
    two array reads of the fallback are always defined; the defaults of
    [hd] and [List.last] are never used. *)
Definition parseAndCategoriseURL (line : string) : option CategorisedUrl :=
  if negb (JsString.includes line siteMarker) then None
  else
    let cu := fold_left (parseSection line) (JsString.split line " ")
                        (mkCategorisedUrl "" []) in
    Some
      (if (length (categories cu) =? 0)%nat then
         let baseUrl := hd "" (JsString.split (url cu) "?") in
         let slashSections := JsString.split baseUrl "/" in
         mkCategorisedUrl (url cu) [List.last slashSections ""]
       else cu).

(* ================================================================== *)
(** ** JavaScript dates *)

Module JsDate.

(** A Date object holds a time value: milliseconds since the epoch in
    UTC, or NaN for an invalid date. *)
Inductive Date := ValidDate (tv : Z) | InvalidDate.

(** What the host environment contributes to local time: the offset of
    local time from UTC at an instant, in milliseconds, and the
    implementation-defined text that ends [toString]: nothing, or a
    space and the name of the time zone in parentheses. *)
Record Locale := mkLocale {
  LocalTZA : Z -> Z;
  tzName : Z -> string
}.

Definition msPerDay : Z := 86400000.
Definition Day (t : Z) : Z := t / msPerDay.
Definition WeekDay (t : Z) : Z := (Day t + 4) mod 7.
Definition HourFromTime (t : Z) : Z := (t / 3600000) mod 24.
Definition MinFromTime (t : Z) : Z := (t / 60000) mod 60.
Definition SecFromTime (t : Z) : Z := (t / 1000) mod 60.
Definition msFromTime (t : Z) : Z := t mod 1000.

(** Year, month (0 to 11) and day of the month (1 to 31) of a day
    number in the proleptic Gregorian calendar, counting years from
    March so that the leap day comes last. *)
Definition civil (days : Z) : Z * Z * Z :=
  let z := days + 719468 in
  let era := z / 146097 in
  let doe := z - era * 146097 in
  let yoe := (doe - doe / 1460 + doe / 36524 - doe / 146096) / 365 in
  let doy := doe - (365 * yoe + yoe / 4 - yoe / 100) in
  let mp := (5 * doy + 2) / 153 in
  let d := doy - (153 * mp + 2) / 5 + 1 in
  let m := if mp <? 10 then mp + 2 else mp - 10 in
  let y := yoe + era * 400 + (if m <=? 1 then 1 else 0) in
  (y, m, d).

Definition YearFromTime (t : Z) : Z := fst (fst (civil (Day t))).
Definition MonthFromTime (t : Z) : Z := snd (fst (civil (Day t))).
Definition DateFromTime (t : Z) : Z := snd (civil (Day t)).

Definition decimal (n : Z) : string :=
  NilZero.string_of_uint (N.to_uint (Z.to_N n)).

Fixpoint zeros (k : nat) : string :=
  match k with
  | O => EmptyString
  | S k' => String "0" (zeros k')
  end.

Definition ToZeroPaddedDecimalString (n : Z) (minLength : nat) : string :=
  let s := decimal n in
  zeros (minLength - String.length s) +:+ s.

Definition weekdayNames : list string :=
  ["Sun"; "Mon"; "Tue"; "Wed"; "Thu"; "Fri"; "Sat"].
Definition monthNames : list string :=
  ["Jan"; "Feb"; "Mar"; "Apr"; "May"; "Jun";
   "Jul"; "Aug"; "Sep"; "Oct"; "Nov"; "Dec"].

Definition DateString (t : Z) : string :=
  let yv := YearFromTime t in
  nth (Z.to_nat (WeekDay t)) weekdayNames "" +:+ " " +:+
  nth (Z.to_nat (MonthFromTime t)) monthNames "" +:+ " " +:+
  ToZeroPaddedDecimalString (DateFromTime t) 2 +:+ " " +:+
  (if 0 <=? yv then "" else "-") +:+
  ToZeroPaddedDecimalString (Z.abs yv) 4.

Definition TimeString (t : Z) : string :=
  ToZeroPaddedDecimalString (HourFromTime t) 2 +:+ ":" +:+
  ToZeroPaddedDecimalString (MinFromTime t) 2 +:+ ":" +:+
  ToZeroPaddedDecimalString (SecFromTime t) 2 +:+ " GMT".

Section LocalTime.
Variable env : Locale.

Definition TimeZoneString (tv : Z) : string :=
  let offset := LocalTZA env tv in
  (if 0 <=? offset then "+" else "-") +:+
  ToZeroPaddedDecimalString (HourFromTime (Z.abs offset)) 2 +:+
  ToZeroPaddedDecimalString (MinFromTime (Z.abs offset)) 2 +:+
  tzName env tv.

(** [Date.prototype.toString] *)
Definition toString (d : Date) : string :=
  match d with
  | InvalidDate => "Invalid Date"
  | ValidDate tv =>
      let t := tv + LocalTZA env tv in
      DateString t +:+ " " +:+ TimeString t +:+ TimeZoneString tv
  end.
End LocalTime.

(** [Date.prototype.toISOString]; [None] is the RangeError an invalid
    date raises. *)
Definition toISOString (d : Date) : option string :=
  match d with
  | InvalidDate => None
  | ValidDate tv =>
      let yv := YearFromTime tv in
      Some (
        (if (0 <=? yv) && (yv <=? 9999)
         then ToZeroPaddedDecimalString yv 4
         else (if 0 <=? yv then "+" else "-") +:+
              ToZeroPaddedDecimalString (Z.abs yv) 6) +:+ "-" +:+
        ToZeroPaddedDecimalString (MonthFromTime tv + 1) 2 +:+ "-" +:+
        ToZeroPaddedDecimalString (DateFromTime tv) 2 +:+ "T" +:+
        ToZeroPaddedDecimalString (HourFromTime tv) 2 +:+ ":" +:+
        ToZeroPaddedDecimalString (MinFromTime tv) 2 +:+ ":" +:+
        ToZeroPaddedDecimalString (SecFromTime tv) 2 +:+ "." +:+
        ToZeroPaddedDecimalString (msFromTime tv) 3 +:+ "Z")
  end.

End JsDate.

(* ================================================================== *)
(** ** typings.ts

    The declarations are read off their uses.  [rows[0] as Product] is an
    unchecked cast, so a field of a stored product holds whatever the
    driver delivered; the fields the reconciliation dereferences are
    modelled with the values they can have at run time. *)

Module typings.

(** The value of a date field: a [Date] object (what [new Date()] gives
    and what the declared type says), a string (a date read back from
    JSON text), or [null]. *)
Inductive DateValue :=
| DateNull
| DateObject (d : JsDate.Date)
| DateText (s : string).

Record DatedPrice := mkDatedPrice {
  date : DateValue;
  price : float
}.

(** References to objects and arrays of the store. *)
Abbreviation loc := positive.

(** Optional fields are [None] when [undefined] (or [null]);
    [priceHistory] is a reference to an array, shared by whoever holds
    the reference. *)
Record Product := mkProduct {
  id : option string;
  name : string;
  size : option string;
  sourceSite : string;
  category : option (list string);
  currentPrice : float;
  priceHistory : option loc;
  lastChecked : DateValue;
  lastUpdated : DateValue;
  unitPrice : option float;
  unitName : option string;
  originalUnitQuantity : option float
}.

(** The five members [index.ts] counts, and [Updated], the member
    [frappe.ts] returns. *)
Inductive UpsertResponse :=
| NewProduct
| PriceChanged
| InfoChanged
| AlreadyUpToDate
| Failed
| Updated.

Record ProductResponse := mkProductResponse {
  upsertType : UpsertResponse;
  product : loc
}.

Definition with_priceHistory (v : option loc) (p : Product) : Product :=
  mkProduct (id p) (name p) (size p) (sourceSite p) (category p) (currentPrice p)
            v (lastChecked p) (lastUpdated p)
            (unitPrice p) (unitName p) (originalUnitQuantity p).

Definition with_lastUpdated (v : DateValue) (p : Product) : Product :=
  mkProduct (id p) (name p) (size p) (sourceSite p) (category p) (currentPrice p)
            (priceHistory p) (lastChecked p) v
            (unitPrice p) (unitName p) (originalUnitQuantity p).

Definition with_lastChecked (v : DateValue) (p : Product) : Product :=
  mkProduct (id p) (name p) (size p) (sourceSite p) (category p) (currentPrice p)
            (priceHistory p) v (lastUpdated p)
            (unitPrice p) (unitName p) (originalUnitQuantity p).

End typings.

(* ================================================================== *)
(** ** The world the code runs in *)

Module Runtime.
Import typings.

(** An array element; [None] is [undefined]. *)
Abbreviation Elem := (option DatedPrice).

(** A row of the [products] table.  The columns hold the values the
    statements were given; the driver's conversions (JSON text, DATE
    columns) are not modelled. *)
Record Row := mkRow {
  r_id : string;
  r_name : string;
  r_category : option (list string);
  r_sourceSite : string;
  r_size : option string;
  r_unitPrice : option float;
  r_unitName : option string;
  r_originalUnitQuantity : option float;
  r_currentPrice : float;
  r_priceHistory : option (list Elem);
  r_lastUpdated : DateValue;
  r_lastChecked : DateValue
}.

(** How an axios request ends: the promise resolves, or it rejects with
    an error that carries the status of the response, if there was
    one. *)
Inductive AxiosOutcome :=
| Resolve
| Reject (status : option Z).

Inductive Method := GET | PUT | POST.

Inductive JsError :=
| TypeError
| RangeError
| DriverError
| AxiosError (status : option Z).

(** - [objs], [arrs]: the objects and arrays of the heap;
    - [table]: the MySQL [products] table, keyed by [id];
    - [faults]: for each coming [connection.execute], whether it fails;
    - [answers]: how each coming axios request ends;
    - [sent]: the axios requests made so far, latest first. *)
Record World := mkWorld {
  objs : gmap loc Product;
  arrs : gmap loc (list Elem);
  table : gmap string Row;
  faults : list bool;
  answers : list AxiosOutcome;
  sent : list (Method * option string)
}.

Definition with_objs (v : gmap loc Product) (w : World) : World :=
  mkWorld v (arrs w) (table w) (faults w) (answers w) (sent w).
Definition with_arrs (v : gmap loc (list Elem)) (w : World) : World :=
  mkWorld (objs w) v (table w) (faults w) (answers w) (sent w).
Definition with_table (v : gmap string Row) (w : World) : World :=
  mkWorld (objs w) (arrs w) v (faults w) (answers w) (sent w).
Definition with_faults (v : list bool) (w : World) : World :=
  mkWorld (objs w) (arrs w) (table w) v (answers w) (sent w).
Definition with_answers (v : list AxiosOutcome) (w : World) : World :=
  mkWorld (objs w) (arrs w) (table w) (faults w) v (sent w).
Definition with_sent (v : list (Method * option string)) (w : World) : World :=
  mkWorld (objs w) (arrs w) (table w) (faults w) (answers w) v.

(** A call either completes normally or throws; either way it leaves a
    world behind. *)
Inductive Completion (A : Type) :=
| Normal (a : A)
| Throw (e : JsError).
Arguments Normal {A} a.
Arguments Throw {A} e.

Definition Js (A : Type) : Type := World -> Completion A * World.

#[global] Instance Js_ret : MRet Js := fun A a w => (Normal a, w).

#[global] Instance Js_bind : MBind Js := fun A B f m w =>
  match m w with
  | (Normal a, w') => f a w'
  | (Throw e, w') => (Throw e, w')
  end.

Definition throw {A : Type} (e : JsError) : Js A := fun w => (Throw e, w).

(** [try { body } catch (e) { handler }] *)
Definition try_catch {A : Type} (body : Js A) (handler : JsError -> Js A) : Js A :=
  fun w =>
    match body w with
    | (Normal a, w') => (Normal a, w')
    | (Throw e, w') => handler e w'
    end.

(** A computation that does not touch the world. *)
Definition lift {A : Type} (c : Completion A) : Js A := fun w => (c, w).

(** Reading through [null] or [undefined] is a TypeError. *)
Definition deref {A : Type} (v : option A) : Js A :=
  lift (match v with
        | Some a => Normal a
        | None => Throw TypeError
        end).

Definition readObj (l : loc) : Js Product := fun w => deref (objs w !! l) w.

Definition modify (f : World -> World) : Js unit := fun w => (Normal tt, f w).

Definition writeObj (l : loc) (p : Product) : Js unit :=
  modify (fun w => with_objs (<[l := p]> (objs w)) w).

Definition readArr (a : option loc) : Js (list Elem) :=
  fun w => deref (a ≫= fun l => arrs w !! l) w.

(** [a[i]]: [undefined] past the end. *)
Definition arrayGet (a : option loc) (i : nat) : Js Elem :=
  l ← readArr a; mret (mjoin (l !! i)).

(** [a.push(x)] grows the array in place. *)
Definition arrayPush (a : option loc) (x : Elem) : Js unit :=
  r ← deref a;
  l ← readArr a;
  modify (fun w => with_arrs (<[r := l ++ [x]]> (arrs w)) w).

Definition newObj (p : Product) : Js loc := fun w =>
  let l := fresh (dom (objs w)) in
  (Normal l, with_objs (<[l := p]> (objs w)) w).

Definition newArr (xs : list Elem) : Js loc := fun w =>
  let l := fresh (dom (arrs w)) in
  (Normal l, with_arrs (<[l := xs]> (arrs w)) w).

(** [v.toString()] of a date field. *)
Definition dateToString (env : JsDate.Locale) (v : DateValue) : Completion string :=
  match v with
  | DateNull => Throw TypeError
  | DateObject d => Normal (JsDate.toString env d)
  | DateText s => Normal s
  end.

(** [v.toISOString()] of a date field: strings have no such method. *)
Definition dateToISOString (v : DateValue) : Completion string :=
  match v with
  | DateNull => Throw TypeError
  | DateObject d =>
      match JsDate.toISOString d with
      | Some s => Normal s
      | None => Throw RangeError
      end
  | DateText _ => Throw TypeError
  end.

End Runtime.

(* ================================================================== *)
(** ** mysql.ts *)

Module mysql.
Import typings Runtime.

Section Env.
(** The host's time zone, used by [Date.prototype.toString]. *)
Variable env : JsDate.Locale.
(** [validCategories] of utilities.ts. *)
Variable validCategories : list string.

(** [validCategories.includes(category)] *)
Definition isValidCategory (category : string) : bool :=
  existsb (String.eqb category) validCategories.

(** [o.priceHistory = v], [o.lastUpdated = v], [o.lastChecked = v] *)
Definition setPriceHistory (o : loc) (v : option loc) : Js unit :=
  p ← readObj o; writeObj o (with_priceHistory v p).
Definition setLastUpdated (o : loc) (v : DateValue) : Js unit :=
  p ← readObj o; writeObj o (with_lastUpdated v p).
Definition setLastChecked (o : loc) (v : DateValue) : Js unit :=
  p ← readObj o; writeObj o (with_lastChecked v p).

(** [Math.abs(dbProduct.currentPrice - scrapedProduct.currentPrice)] *)
Definition priceDifference (db scraped : Product) : float :=
  PrimFloat.abs (currentPrice db - currentPrice scraped).

(** [priceDifference > 0.05 && dbDay !== scrapedDay] *)
Definition priceChangeDetected (db scraped : Product) (dbDay scrapedDay : string)
  : bool :=
  (0.05 <? priceDifference db scraped)%float
  && negb (String.eqb dbDay scrapedDay).

(** [logPriceChange] and the message of the second branch only read
    fields; [join] on the scraped categories is the one read of theirs
    that can fail. *)
Definition buildUpdatedProduct (scrapedProduct dbProduct : loc)
  : Js ProductResponse :=
  db ← readObj dbProduct;
  dbDay ← lift (dateToString env (lastUpdated db));
  let dbDay := JsString.slice0 dbDay 10 in
  scraped ← readObj scrapedProduct;
  scrapedIso ← lift (dateToISOString (lastUpdated scraped));
  let scrapedDay := JsString.slice0 scrapedIso 10 in
  if priceChangeDetected db scraped dbDay scrapedDay then
    _ ← readArr (priceHistory db);
    first ← arrayGet (priceHistory scraped) 0;
    _ ← arrayPush (priceHistory db) first;
    _ ← setPriceHistory scrapedProduct (priceHistory db);
    mret (mkProductResponse PriceChanged scrapedProduct)
  else
    dbCategory ← deref (category db);
    if negb (forallb isValidCategory dbCategory)
       || bool_decide (category db = None)
    then
      _ ← deref (category scraped);
      _ ← setPriceHistory scrapedProduct (priceHistory db);
      _ ← setLastUpdated scrapedProduct (lastUpdated db);
      mret (mkProductResponse InfoChanged scrapedProduct)
    else
      _ ← setLastChecked dbProduct (lastChecked scraped);
      mret (mkProductResponse AlreadyUpToDate dbProduct).

(** [connection.execute]: takes the next entry of [faults], fails
    when it says so, and runs the statement otherwise (also when no
    entry is left). *)
Definition execute {A : Type} (statement : Js A) : Js A := fun w =>
  let w' := with_faults (tail (faults w)) w in
  match head (faults w) with
  | Some true => (Throw DriverError, w')
  | _ => statement w'
  end.

(** [SELECT * FROM products WHERE id = ?] *)
Definition selectById (i : string) : Js (option Row) :=
  execute (fun w => (Normal (table w !! i), w)).

(** [UPDATE products SET ... WHERE id = ?]: ten columns are set;
    [id] and [lastChecked] are not among them. *)
Definition updateById (i : string) (p : Product) (history : option (list Elem))
  : Js unit :=
  execute (modify (fun w =>
    with_table
      (alter (fun old =>
                mkRow (r_id old) (name p) (category p) (sourceSite p) (size p)
                      (unitPrice p) (unitName p) (originalUnitQuantity p)
                      (currentPrice p) history (lastUpdated p)
                      (r_lastChecked old))
             i (table w))
      w)).

(** [INSERT INTO products (...) VALUES (...)]: all twelve columns; a
    second row with the same primary key is refused. *)
Definition insertRow (i : string) (p : Product) (history : option (list Elem))
  : Js unit :=
  execute (fun w =>
    match table w !! i with
    | Some _ => (Throw DriverError, w)
    | None =>
        (Normal tt,
         with_table
           (<[i := mkRow i (name p) (category p) (sourceSite p) (size p)
                         (unitPrice p) (unitName p) (originalUnitQuantity p)
                         (currentPrice p) history (lastUpdated p)
                         (lastChecked p)]> (table w))
           w)
    end).

(** [p.priceHistory ? JSON.stringify(p.priceHistory) : null] *)
Definition historyParam (p : Product) : Js (option (list Elem)) :=
  match priceHistory p with
  | Some r => l ← readArr (Some r); mret (Some l)
  | None => mret None
  end.

(** [rows[0] as Product]: the row becomes a fresh object with its own
    price-history array. *)
Definition rowToProduct (row : Row) : Js loc :=
  history ← match r_priceHistory row with
            | Some l => r ← newArr l; mret (Some r)
            | None => mret None
            end;
  newObj (mkProduct (Some (r_id row)) (r_name row) (r_size row)
                    (r_sourceSite row) (r_category row) (r_currentPrice row)
                    history (r_lastChecked row) (r_lastUpdated row)
                    (r_unitPrice row) (r_unitName row)
                    (r_originalUnitQuantity row)).

(** [execute] refuses an [undefined] parameter, so the SELECT throws
    for a product without id; the primary key selects at most one row,
    and [rows.length > 0] says whether there is one. *)
Definition upsertProductToMySQL (scrapedProduct : loc) : Js UpsertResponse :=
  try_catch
    (scraped ← readObj scrapedProduct;
     i ← deref (id scraped);
     rows ← selectById i;
     match rows with
     | Some row =>
         dbProduct ← rowToProduct row;
         response ← buildUpdatedProduct scrapedProduct dbProduct;
         p ← readObj (product response);
         history ← historyParam p;
         scraped' ← readObj scrapedProduct;
         i' ← deref (id scraped');
         _ ← updateById i' p history;
         mret (upsertType response)
     | None =>
         history ← historyParam scraped;
         _ ← insertRow i scraped history;
         mret NewProduct
     end)
    (fun e => mret Failed).

End Env.
End mysql.

(* ================================================================== *)
(** ** frappe.ts *)

Module frappe.
Import typings Runtime.

(** An axios request: it is recorded in [sent], and ends the way the
    next entry of [answers] says (it resolves when there is none). *)
Definition axios (m : Method) (i : option string) : Js unit := fun w =>
  let w1 := with_sent ((m, i) :: sent w) w in
  match answers w with
  | Reject status :: rest => (Throw (AxiosError status), with_answers rest w1)
  | Resolve :: rest => (Normal tt, with_answers rest w1)
  | [] => (Normal tt, w1)
  end.

(** [error.response && error.response.status === 404] *)
Definition isNotFound (e : JsError) : bool :=
  match e with
  | AxiosError (Some status) => status =? 404
  | _ => false
  end.

(** The [catch] block issues the POST itself; nothing encloses it. *)
Definition upsertProductToFrappe (scrapedProduct : loc) : Js UpsertResponse :=
  try_catch
    (scraped ← readObj scrapedProduct;
     _ ← axios GET (id scraped);
     _ ← axios PUT (id scraped);
     mret Updated)
    (fun error =>
       if isNotFound error then
         scraped ← readObj scrapedProduct;
         _ ← axios POST (id scraped);
         mret NewProduct
       else mret Failed).

End frappe.

(* ================================================================== *)
(** ** index.ts: building and validating a scraped product *)

Module index.
Import typings Runtime.

(** What the cheerio queries on one [a.product-entry] return, each
    text already trimmed: the [id] attribute of the first [h3] (absent
    when there is none), its text, the size, and the two parts of the
    price. *)
Record Element := mkElement {
  h3_id : option string;
  h3_text : string;
  size_text : string;
  dollarString : string;
  centString : string
}.

Definition isDigit (c : ascii) : bool :=
  let n := N_of_ascii c in ((48 <=? n) && (n <=? 57))%N.

(** [s.replace(/\D/g, '')] *)
Fixpoint digitsOnly (s : string) : string :=
  match s with
  | EmptyString => EmptyString
  | String c t => if isDigit c then String c (digitsOnly t) else digitsOnly t
  end.

(** [validateProduct]: reading [length] of an absent id throws, and the
    [catch] answers [false]. *)
Definition validateProduct (p : Product) : bool :=
  if (String.length (name p) <? 4)%nat || (100 <? String.length (name p))%nat
  then false
  else
    match id p with
    | None => false
    | Some i =>
        if (String.length i <? 2)%nat || (20 <? String.length i)%nat then false
        else if (currentPrice p <=? 0)%float
                || PrimFloat.is_nan (currentPrice p)
                || (999 <? currentPrice p)%float
        then false
        else true
    end.

Section Host.
(** lodash's [_.startCase] and the [Number] constructor on strings. *)
Variable startCase : string -> string.
Variable Number : string -> float.

(** [checked], [updated] and [priced] are the instants the three
    [new Date()] calls return.  The empty array of the object
    literal is dropped without ever being shared, and is not
    allocated here. *)
Definition playwrightElementToProduct
    (element : Element) (categories : list string)
    (checked updated priced : Z) : Js (option loc) :=
  let currentPrice :=
    Number (dollarString element +:+ "." +:+ digitsOnly (centString element)) in
  let todaysDatedPrice :=
    mkDatedPrice (DateObject (JsDate.ValidDate priced)) currentPrice in
  history ← newArr [Some todaysDatedPrice];
  let product :=
    mkProduct (digitsOnly <$> h3_id element)
              (startCase (h3_text element))
              (Some (size_text element))
              "countdown.co.nz"
              (Some categories)
              currentPrice
              (Some history)
              (DateObject (JsDate.ValidDate checked))
              (DateObject (JsDate.ValidDate updated))
              None None None in
  o ← newObj product;
  if validateProduct product then mret (Some o) else mret None.
End Host.

(** The counters of one page and the [switch] that updates them. *)
Record Counters := mkCounters {
  alreadyUpToDateCount : nat;
  priceChangedCount : nat;
  infoUpdatedCount : nat;
  newProductsCount : nat;
  failedCount : nat
}.

Definition count (response : UpsertResponse) (c : Counters) : Counters :=
  match response with
  | AlreadyUpToDate =>
      mkCounters (S (alreadyUpToDateCount c)) (priceChangedCount c)
                 (infoUpdatedCount c) (newProductsCount c) (failedCount c)
  | InfoChanged =>
      mkCounters (alreadyUpToDateCount c) (priceChangedCount c)
                 (S (infoUpdatedCount c)) (newProductsCount c) (failedCount c)
  | NewProduct =>
      mkCounters (alreadyUpToDateCount c) (priceChangedCount c)
                 (infoUpdatedCount c) (S (newProductsCount c)) (failedCount c)
  | PriceChanged =>
      mkCounters (alreadyUpToDateCount c) (S (priceChangedCount c))
                 (infoUpdatedCount c) (newProductsCount c) (failedCount c)
  | _ =>
      mkCounters (alreadyUpToDateCount c) (priceChangedCount c)
                 (infoUpdatedCount c) (newProductsCount c) (S (failedCount c))
  end.

End index.

(* ================================================================== *)
(** ** Vocabulary of the properties *)

Module Vocabulary.
Import typings Runtime.

(** The array a product's [priceHistory] refers to, if there is one. *)
Definition historyOf (w : World) (p : Product) : option (list Elem) :=
  priceHistory p ≫= fun r => arrs w !! r.

(** The price of the last entry of a ledger. *)
Definition lastPrice (hist : list Elem) : option float :=
  price <$> mjoin (last hist).

(** The object at [l] has a ledger, and its [currentPrice] is the price
    of the ledger's last entry. *)
Definition priceIsLast (w : World) (l : loc) : Prop :=
  exists p hist,
    objs w !! l = Some p /\
    historyOf w p = Some hist /\
    lastPrice hist = Some (currentPrice p).

(** The object at [l] is a scraped product as [playwrightElementToProduct]
    leaves it: the first entry of its own history is the observation
    [e], which carries the product's [currentPrice]. *)
Definition observes (w : World) (l : loc) (e : DatedPrice) : Prop :=
  exists p sh,
    objs w !! l = Some p /\
    historyOf w p = Some sh /\
    sh !! 0%nat = Some (Some e) /\
    price e = currentPrice p.

(** The five decisions. *)
Definition decisions : list UpsertResponse :=
  [NewProduct; PriceChanged; InfoChanged; AlreadyUpToDate; Failed].

(** None of the next [n] statements fails. *)
Definition healthy (n : nat) (fs : list bool) : Prop :=
  forall k, (k < n)%nat -> fs !! k <> Some true.

(** First code unit of a string, and two classes of it. *)
Definition firstUnit (s : string) : option ascii :=
  match s with
  | EmptyString => None
  | String c _ => Some c
  end.

Definition isUpper (c : ascii) : bool :=
  let n := N_of_ascii c in ((65 <=? n) && (n <=? 90))%N.

Definition startsUpper (s : string) : bool :=
  match firstUnit s with
  | Some c => isUpper c
  | None => false
  end.

Definition startsDigitOrSign (s : string) : bool :=
  match firstUnit s with
  | Some c => index.isDigit c || Ascii.eqb c "+" || Ascii.eqb c "-"
  | None => false
  end.

End Vocabulary.

(* ================================================================== *)
(** ** Concrete worlds *)

Module Scenario.
Import JsDate typings Runtime index.

(** A host in New Zealand daylight time. *)
Definition nzdt : Locale :=
  mkLocale (fun _ => 13 * 3600000) (fun _ => " (New Zealand Daylight Time)"%string).

(** A set of valid categories that contains [frozen] but not [tubs]. *)
Definition someCategories : list string := ["frozen"; "pantry"; "fruit-veg"].

(** 2024-01-10T09:00:00.000Z and 2024-01-15T09:00:00.000Z *)
Definition jan10 : Z := 1704877200000.
Definition jan15 : Z := 1705309200000.

Definition at_ (t : Z) : DateValue := DateObject (ValidDate t).

Definition iceCream (cats : option (list string)) (p : float) (history : loc)
    (checked updated : DateValue) : Product :=
  mkProduct (Some "282750"%string) "Vanilla Ice Cream Tub" (Some "2L"%string)
            "countdown.co.nz" cats p (Some history) checked updated
            None None None.

(** A heap with the scraped product at 1, the stored one at 2 and a
    second copy of the scraped one at 3, each with its own array. *)
Definition heap (scraped stored : Product) (stored_history : list Elem) : World :=
  let observation := [Some (mkDatedPrice (at_ jan15) (currentPrice scraped))] in
  mkWorld {[ 1%positive := with_priceHistory (Some 1%positive) scraped;
             2%positive := with_priceHistory (Some 2%positive) stored;
             3%positive := with_priceHistory (Some 3%positive) scraped ]}
          {[ 1%positive := observation;
             2%positive := stored_history;
             3%positive := observation ]}
          ∅ [] [] [].

(** Same instant, prices 4.00 and 5.00, stored date a [Date] object. *)
Definition sameInstant : World :=
  heap (iceCream (Some ["frozen"%string]) 5 1 (at_ jan15) (at_ jan15))
       (iceCream (Some ["frozen"%string]) 4 2 (at_ jan15) (at_ jan15))
       [Some (mkDatedPrice (at_ jan15) 4)].

(** Three cents apart; the stored categories hold an unknown tag. *)
Definition categoryDrift : World :=
  heap (iceCream (Some ["frozen"%string]) 4.03 1 (at_ jan15) (at_ jan15))
       (iceCream (Some ["bogus"%string]) 4 2 (at_ jan10) (DateText "2024-01-10T09:00:00.000Z"))
       [Some (mkDatedPrice (DateText "2024-01-10T09:00:00.000Z") 4)].

(** The stored categories are [null]. *)
Definition absentCategories : World :=
  heap (iceCream (Some ["frozen"%string]) 4 1 (at_ jan15) (at_ jan15))
       (iceCream None 4 2 (at_ jan10) (DateText "2024-01-10T09:00:00.000Z"))
       [Some (mkDatedPrice (DateText "2024-01-10T09:00:00.000Z") 4)].

(** The scraped category is the last section of the url, [tubs]. *)
Definition unknownScrapedCategory : World :=
  heap (iceCream (Some ["tubs"%string]) 4.5 1 (at_ jan15) (at_ jan15))
       (iceCream (Some ["frozen"%string]) 4 2 (at_ jan10) (DateText "2024-01-10T09:00:00.000Z"))
       [Some (mkDatedPrice (DateText "2024-01-10T09:00:00.000Z") 4)].

(** A price change five days later, everything else in order. *)
Definition laterPriceChange : World :=
  heap (iceCream (Some ["frozen"%string]) 4.5 1 (at_ jan15) (at_ jan15))
       (iceCream (Some ["frozen"%string]) 4 2 (at_ jan10) (DateText "2024-01-10T09:00:00.000Z"))
       [Some (mkDatedPrice (DateText "2024-01-10T09:00:00.000Z") 4)].

(** The stored row of the product, last checked and updated on the 10th. *)
Definition storedRow : Row :=
  mkRow "282750" "Vanilla Ice Cream Tub" (Some ["frozen"%string]) "countdown.co.nz"
        (Some "2L"%string) None None None 4
        (Some [Some (mkDatedPrice (at_ jan10) 4)]) (at_ jan10) (at_ jan10).

(** The scraped product alone on the heap, and the table with its row. *)
Definition withStoredRow : World :=
  mkWorld {[ 1%positive := iceCream (Some ["frozen"%string]) 4 1 (at_ jan15) (at_ jan15) ]}
          {[ 1%positive := [Some (mkDatedPrice (at_ jan15) 4)] ]}
          {[ "282750"%string := storedRow ]} [] [] [].

(** Frappe answers 404 to the GET and 500 to the POST. *)
Definition frappeDown : World :=
  mkWorld {[ 1%positive := iceCream (Some ["frozen"%string]) 4 1 (at_ jan15) (at_ jan15) ]}
          {[ 1%positive := [Some (mkDatedPrice (at_ jan15) 4)] ]}
          ∅ [] [Reject (Some 404); Reject (Some 500)] [].

(** Frappe accepts the GET and the PUT. *)
Definition frappeUp : World :=
  mkWorld {[ 1%positive := iceCream (Some ["frozen"%string]) 4 1 (at_ jan15) (at_ jan15) ]}
          {[ 1%positive := [Some (mkDatedPrice (at_ jan15) 4)] ]}
          ∅ [] [Resolve; Resolve] [].

(** One listing of a category page. *)
Definition listing : Element :=
  mkElement (Some "product-282750-title"%string) "vanilla ice cream tub"
            "2L" "4" "50".

(** Stand-ins for lodash's [startCase] and for [Number]: the first
    leaves the text alone, the second knows the price of [listing]. *)
Definition keepCase (s : string) : string := s.
Definition numberOf (s : string) : float :=
  if String.eqb s "4.50" then 4.5%float
  else if String.eqb s "5.50" then 5.5%float
  else PrimFloat.nan.

(** The same listing an hour later, a dollar dearer. *)
Definition listingDearer : Element :=
  mkElement (Some "product-282750-title"%string) "vanilla ice cream tub"
            "2L" "5" "50".

(** The product [playwrightElementToProduct] makes of [listing] when the
    clock reads [jan15] and the page is in category [frozen]. *)
Definition scrapedListing : Product :=
  mkProduct (Some "282750"%string) "vanilla ice cream tub" (Some "2L"%string)
            "countdown.co.nz" (Some ["frozen"%string]) 4.5 (Some 1%positive)
            (at_ jan15) (at_ jan15) None None None.

Definition emptyWorld : World := mkWorld ∅ ∅ ∅ [] [] [].

(** The table holds the product with a [NULL] date, or with [NULL]
    categories. *)
Definition withUndatedRow : World :=
  with_table
    {[ "282750"%string :=
         mkRow "282750" "Vanilla Ice Cream Tub" (Some ["frozen"%string])
               "countdown.co.nz" (Some "2L"%string) None None None 4
               (Some [Some (mkDatedPrice (at_ jan10) 4)]) DateNull (at_ jan10) ]}
    withStoredRow.

Definition withUncategorisedRow : World :=
  with_table
    {[ "282750"%string :=
         mkRow "282750" "Vanilla Ice Cream Tub" None
               "countdown.co.nz" (Some "2L"%string) None None None 4
               (Some [Some (mkDatedPrice (at_ jan10) 4)])
               (DateText "2024-01-10") (at_ jan10) ]}
    withStoredRow.

(** What [parseAndCategoriseURL] makes of a line without categories. *)
Definition tubsUrl : CategorisedUrl :=
  mkCategorisedUrl
    "https://countdown.co.nz/shop/browse/frozen/ice-cream-sorbet/tubs?page=1&size=48&inStockProductsOnly=true"
    ["tubs"%string].
End Scenario.

(* ================================================================== *)
(** ** JavaScript strings: padding, joining, template literals *)

Module JsText.

Fixpoint filler (c : ascii) (n : nat) : string :=
  match n with
  | O => EmptyString
  | S k => String c (filler c k)
  end.

(** [s.padEnd(n, c)] and [s.padStart(n, c)] with a filler of one code
    unit; the filler is a space when the call gives none. *)
Definition padEnd (s : string) (n : nat) (c : ascii) : string :=
  s +:+ filler c (n - String.length s).
Definition padStart (s : string) (n : nat) (c : ascii) : string :=
  filler c (n - String.length s) +:+ s.

(** [a.join(sep)] *)
Fixpoint join (sep : string) (a : list string) : string :=
  match a with
  | [] => EmptyString
  | [x] => x
  | x :: rest => x +:+ sep +:+ join sep rest
  end.

(** An optional string inside a template literal or next to [+]. *)
Definition show (v : option string) : string := default "undefined"%string v.

End JsText.

(* ================================================================== *)
(** ** utilities.ts: the console *)

Module utilities.
Import typings Runtime JsText.

(** The members of the [colour] table. *)
Inductive Colour :=
| red | green | yellow | blue | magenta | cyan | white | crimson | grey | orange.

Definition esc : ascii := "027"%char.

Definition code (c : Colour) : string :=
  String esc
    match c with
    | red => "[31m"
    | green => "[32m"
    | yellow => "[33m"
    | blue => "[34m"
    | magenta => "[35m"
    | cyan => "[36m"
    | white => "[37m"
    | crimson => "[38m"
    | grey => "[90m"
    | orange => "[38;5;214m"
    end.

Definition clear : string := String esc "[0m".

(** The lines written so far, oldest first, and the module variable
    [alternatingRowColour]. *)
Record Terminal := mkTerminal {
  printed : list string;
  alternatingRowColour : bool
}.

(** [console.log(line)] *)
Definition console_log (line : string) (t : Terminal) : Terminal :=
  mkTerminal (printed t ++ [line]) (alternatingRowColour t).

(** [log]: the format [`${colour}%s${clear}`] has one [%s], which
    takes [text] as it is. *)
Definition log (colour : Colour) (text : string) (t : Terminal) : Terminal :=
  console_log (code colour +:+ text +:+ clear) t.

Definition getAlternatingRowColour (colourA colourB : Colour) (t : Terminal)
  : Colour * Terminal :=
  let flag :=
    if alternatingRowColour t then false
    else if negb (alternatingRowColour t) then true
    else alternatingRowColour t in
  (if flag then colourA else colourB, mkTerminal (printed t) flag).

Section Numbers.
(** [Number.prototype.toString], which template literals and [+] use
    as well. *)
Variable numberToString : float -> string.

(** The text of a table row; [padStart] on an absent id is a TypeError. *)
Definition productRow (product : Product) : Completion string :=
  let categories :=
    match category product with
    | Some c => join ", " c
    | None => EmptyString
    end in
  match id product with
  | None => Throw TypeError
  | Some i =>
      Normal
        (padStart i 6 " " +:+ " | " +:+
         padEnd (JsString.slice0 (name product) 50) 50 " " +:+ " | " +:+
         show ((fun z => padEnd (JsString.slice0 z 16) 16 " ") <$> size product)
         +:+ " | " +:+
         "$ " +:+
         padEnd (padStart (numberToString (currentPrice product)) 4 " ") 4 " "
         +:+ " | " +:+ categories)
  end.

(** [logProductRow]: the colour is taken, and the flag flipped, before
    the text is built. *)
Definition logProductRow (product : Product) (t : Terminal)
  : Completion unit * Terminal :=
  let (colour, t1) := getAlternatingRowColour cyan white t in
  match productRow product with
  | Normal text => (Normal tt, log colour text t1)
  | Throw e => (Throw e, t1)
  end.

Definition tableHeader : string :=
  padEnd "ID" 6 " " +:+ " | " +:+ padEnd "Name" 50 " " +:+ " | " +:+
  padEnd "Size" 16 " " +:+ " | " +:+ padEnd "Price" 6 " " +:+ " | Categories".

Definition logTableHeader (t : Terminal) : Terminal :=
  console_log (padEnd "" 120 "-") (console_log tableHeader t).

End Numbers.
End utilities.

(* ================================================================== *)
(** ** mysql.ts: [logPriceChange] *)

Module mysql_log.
Import typings Runtime JsText utilities.

Section Numbers.
Variable numberToString : float -> string.


End Numbers.
End mysql_log.

(* ================================================================== *)
(** ** index.ts: arguments, the page loop, images, routing *)

Module scraper.
Import typings Runtime JsText utilities index.

(** The two module variables [handleArguments] assigns. *)
Record Settings := mkSettings {
  dryRunMode : bool;
  categorisedUrls : list CategorisedUrl
}.

(** What a [throw] carries: a string, an [Error] with a message, or
    whatever the host raised. *)
Inductive Raised :=
| RaisedText (s : string)
| RaisedError (message : string)
| RaisedByHost.

Inductive Outcome (A : Type) :=
| Done (a : A)
| Raise (r : Raised).
Arguments Done {A} a.
Arguments Raise {A} r.

(** The lines of urls.txt, parsed in order; a line that does not parse
    is passed over. *)
Definition loadUrls (rawLinesFromFile : list string) : list CategorisedUrl :=
  fold_left
    (fun urls line =>
       match parseAndCategoriseURL line with
       | Some categorisedUrl => urls ++ [categorisedUrl]
       | None => urls
       end)
    rawLinesFromFile [].

(** The body of the [forEach] over the user's arguments. *)
Definition handleArgument (s : Settings) (arg : string) : Outcome Settings :=
  if String.eqb arg "dry-run-mode" then
    Done (mkSettings true (categorisedUrls s))
  else if JsString.includes arg ".co.nz" then
    match parseAndCategoriseURL arg with
    | Some parsedUrl => Done (mkSettings (dryRunMode s) [parsedUrl])
    | None => Raise (RaisedText ("URL invalid: " +:+ arg))
    end
  else if String.eqb arg "reverse" then
    Done (mkSettings (dryRunMode s) (rev (categorisedUrls s)))
  else Done s.

(** [forEach] stops at the first callback that throws. *)
Fixpoint forEachArgument (userArgs : list string) (s : Settings)
  : Outcome Settings :=
  match userArgs with
  | [] => Done s
  | arg :: rest =>
      match handleArgument s arg with
      | Done s' => forEachArgument rest s'
      | Raise r => Raise r
      end
  end.

(** [argv] is [process.argv]. *)
Definition handleArguments (argv : list string) (s : Settings) : Outcome Settings :=
  if (2 <? length argv)%nat
  then forEachArgument (List.skipn 2 argv) s
  else Done s.

(** The shortened url of the progress line. *)
Definition scrapingLabel (u : string) : string :=
  JsString.replace (JsString.replace u "https://www." "")
                   "?page=1&size=48&inStockProductsOnly=true" "".

(** How the part of a page's callback ends that lies between the
    progress line and the test of [pagesScrapedCount]: the page was
    scraped, the [try] caught a timeout, or something outside the
    [try] threw. *)
Inductive PageResult := Scraped | TimedOut | Crashed.

Inductive Event :=
| Scraping (n total : nat) (label : string)
| PageTimeout
| CloseBrowser
| Wait (ms : Z).

(** The promise chain: the counter, what has happened so far, and
    whether the chain has been rejected. *)
Record Chain := mkChain {
  pagesScrapedCount : nat;
  events : list Event;
  rejected : bool
}.

Definition secondsDelayBetweenPageScrapes : Z := 11.

Section Pages.
(** The result of the page that is scraped as number [n]. *)
Variable page : nat -> PageResult.

(** The callback given to [promise.then] for one url; [then] passes a
    rejected promise on without calling it. *)
Definition scrapePage (total : nat) (c : Chain) (categorisedUrl : CategorisedUrl)
  : Chain :=
  if rejected c then c
  else
    let n := pagesScrapedCount c in
    let started :=
      events c ++ [Scraping n total (scrapingLabel (url categorisedUrl))] in
    match page n with
    | Crashed => mkChain n started true
    | result =>
        let loaded :=
          match result with
          | TimedOut => started ++ [PageTimeout]
          | _ => started
          end in
        if (n =? total)%nat
        then mkChain (S n) (loaded ++ [CloseBrowser]) false
        else mkChain (S n)
                     (loaded ++ [Wait (secondsDelayBetweenPageScrapes * 1000)])
                     false
    end.

Definition scrapeAll (urls : list CategorisedUrl) : Chain :=
  fold_left (scrapePage (length urls)) urls (mkChain 1 [] false).

End Pages.

(** The counters of a page after the given responses, in the order in
    which the upserts completed. *)
Definition tally (responses : list UpsertResponse) (c : Counters) : Counters :=
  fold_left (fun c response => count response c) responses c.

(** The image url the loop makes up for a product. *)
Definition imageUrl (product : Product) : string :=
  "https://assets.woolworths.com.au/images/2010/" +:+ show (id product) +:+
  ".jpg?impolicy=wowcdxwbjbx&w=900&h=900".

Definition newline : string := String "010"%char EmptyString.

Definition invalidFuncUrl : string :=
  newline +:+ "AZURE_FUNC_URL in .env is invalid. Should be in .env :" +:+
  newline +:+ newline +:+
  "AZURE_FUNC_URL=https://<func-app>.azurewebsites.net/api/ImageToS3?code=<auth-code>"
  +:+ newline +:+ newline.

Section Upload.
(** [process.env.AZURE_FUNC_URL] and [process.env.CDN_CHECK_URL_BASE];
    [fetch u] is the text of the response to a GET of [u], or [None]
    when [new URL], [fetch] or the reading of the body throws. *)
Variable funcUrl : option string.
Variable cdnCheckUrlBase : option string.
Variable fetch : string -> option string.

Definition restUrl (f : string) (imgUrl : string) (product : Product) : string :=
  f +:+ "&destination=s3://supermarketimages/product-images/" +:+
  show (id product) +:+ "&source=" +:+ imgUrl.

Definition uploadImageRestAPI (imgUrl : option string) (product : Product)
    (t : Terminal) : Outcome bool * Terminal :=
  match imgUrl with
  | Some u =>
      if negb (JsString.includes u "http") then
        (Done false,
         log grey ("   Image " +:+ show (id product) +:+ " has invalid url: " +:+ u) t)
      else
        match funcUrl with
        | Some f =>
            if negb (JsString.includes f "http")
            then (Raise (RaisedError invalidFuncUrl), t)
            else
              match fetch (restUrl f u product) with
              | None => (Raise RaisedByHost, t)
              | Some responseMsg =>
                  (Done true,
                   if JsString.includes responseMsg "S3 Upload of Full-Size" then
                     log grey
                       ("  New Image  : " +:+ show cdnCheckUrlBase +:+
                        padEnd (show (id product) +:+ ".webp") 8 " " +:+ " | " +:+
                        JsString.slice0 (padEnd (name product) 25 " ") 25)
                       t
                   else if JsString.includes responseMsg "already exists" then t
                   else if JsString.includes responseMsg "Unable to download:" then
                     log grey ("  Image " +:+ show (id product) +:+
                               " unavailable to be downloaded") t
                   else if JsString.includes responseMsg "unable to be processed" then
                     log grey ("  Image " +:+ show (id product) +:+
                               " unable to be processed") t
                   else console_log responseMsg t)
              end
        | None => (Raise (RaisedError invalidFuncUrl), t)
        end
  | None =>
      (Done false,
       log grey ("   Image " +:+ show (id product) +:+ " has invalid url: undefined") t)
  end.

End Upload.

(** [routePlaywrightExclusions]: the handler installed for every
    request. *)
Definition typeExclusions : list string :=
  ["image"; "stylesheet"; "media"; "font"; "other"].

Definition urlExclusions : list string :=
  ["googleoptimize.com"; "gtm.js"; "visitoridentification.js";
   "js-agent.newrelic.com"; "cquotient.com"; "googletagmanager.com";
   "cloudflareinsights.com"; "dwanalytics"; "edge.adobedc.net"].

Inductive Routing := Abort | Continue.

Definition route (requestUrl resourceType : string) : Routing :=
  let excludeThisRequest := false in
  let excludeThisRequest :=
    fold_left (fun flag excludedURL =>
                 if JsString.includes requestUrl excludedURL then true else flag)
              urlExclusions excludeThisRequest in
  let excludeThisRequest :=
    fold_left (fun flag excludedType =>
                 if String.eqb resourceType excludedType then true else flag)
              typeExclusions excludeThisRequest in
  if excludeThisRequest then Abort else Continue.

End scraper.
(* ================================================================== *)
(** ** Vocabulary of the further properties *)

Module StoreVocabulary.
Import typings Runtime.

(** The object [rows[0]] is for a row, given its price-history array. *)
Definition storedProduct (row : Row) (history : option loc) : Product :=
  mkProduct (Some (r_id row)) (r_name row) (r_size row) (r_sourceSite row)
            (r_category row) (r_currentPrice row) history
            (r_lastChecked row) (r_lastUpdated row)
            (r_unitPrice row) (r_unitName row) (r_originalUnitQuantity row).

(** The row the UPDATE statement makes of [old] for the product [p]. *)
Definition updatedRow (old : Row) (p : Product) (history : option (list Elem)) : Row :=
  mkRow (r_id old) (name p) (category p) (sourceSite p) (size p)
        (unitPrice p) (unitName p) (originalUnitQuantity p)
        (currentPrice p) history (lastUpdated p) (r_lastChecked old).

(** The row the INSERT statement writes for the product [p]. *)
Definition insertedRow (i : string) (p : Product) (history : option (list Elem)) : Row :=
  mkRow i (name p) (category p) (sourceSite p) (size p)
        (unitPrice p) (unitName p) (originalUnitQuantity p)
        (currentPrice p) history (lastUpdated p) (lastChecked p).

(** One ledger continues another: it is the same, or it has one more
    entry at the end. *)
Definition continues (old new : option (list Elem)) : Prop :=
  new = old \/ exists h e, old = Some h /\ new = Some (h ++ [e]).

(** Every row is stored under its own id. *)
Definition keyed (t : gmap string Row) : Prop :=
  forall k row, t !! k = Some row -> r_id row = k.

End StoreVocabulary.

Module UrlVocabulary.
Import JsString.

(** The code units of [s] before the first [c]; all of [s] when there
    is none. *)
Fixpoint upTo (c : ascii) (s : string) : string :=
  match s with
  | EmptyString => EmptyString
  | String d t => if Ascii.eqb c d then EmptyString else String d (upTo c t)
  end.

(** A url that ends with the optimised query and has no other [?]. *)
Definition queried (u : string) : Prop :=
  exists base, u = base +:+ optimisedQuery /\ has_char "?" base = false.

End UrlVocabulary.

Module LoopVocabulary.
Import scraper.

(** What the callback of a page that is not the last one adds to the
    events when it is scraped as number [S i] of [total]. *)
Definition visit (page : nat -> PageResult) (total i : nat) (cu : CategorisedUrl)
  : list Event :=
  [Scraping (S i) total (scrapingLabel (url cu))] ++
  match page (S i) with
  | TimedOut => [PageTimeout]
  | _ => []
  end ++
  [Wait 11000].

Definition visits (page : nat -> PageResult) (total : nat)
    (urls : list CategorisedUrl) : list Event :=
  concat (imap (visit page total) urls).

End LoopVocabulary.

Module PageVocabulary.
Import typings index.

#[global] Instance UpsertResponse_eq_dec : EqDecision UpsertResponse.
Proof. solve_decision. Defined.

(** How often the response [r] occurs among [responses]. *)
Definition occurrences (r : UpsertResponse) (responses : list UpsertResponse) : nat :=
  length (filter (fun x => x = r) responses).

Definition total (c : Counters) : nat :=
  (alreadyUpToDateCount c + priceChangedCount c + infoUpdatedCount c +
   newProductsCount c + failedCount c)%nat.

End PageVocabulary.

Module ProductVocabulary.
Import index.


End ProductVocabulary.
(* ================================================================== *)
(** ** Further concrete inputs *)

Module MoreScenarios.
Import JsDate typings Runtime index Scenario scraper utilities.

(** The listing now costs 4.50; its row still says 4.00. *)
Definition priceRose : World :=
  mkWorld {[ 1%positive := iceCream (Some ["frozen"%string]) 4.5 1 (at_ jan15) (at_ jan15) ]}
          {[ 1%positive := [Some (mkDatedPrice (at_ jan15) 4.5)] ]}
          {[ "282750"%string := storedRow ]} [] [] [].

(** The row carries a category that is not a valid one. *)
Definition driftedRow : Row :=
  mkRow "282750" "Vanilla Ice Cream Tub" (Some ["bogus"%string]) "countdown.co.nz"
        (Some "2L"%string) None None None 4
        (Some [Some (mkDatedPrice (at_ jan10) 4)]) (at_ jan10) (at_ jan10).

Definition withDriftedRow : World := with_table {[ "282750"%string := driftedRow ]} withStoredRow.

(** The stored date is the text of the day of the scrape; the prices
    are half a dollar apart. *)
Definition sameDayText : World :=
  heap (iceCream (Some ["frozen"%string]) 4.5 1 (at_ jan15) (at_ jan15))
       (iceCream (Some ["frozen"%string]) 4 2 (at_ jan10) (DateText "2024-01-15"))
       [Some (mkDatedPrice (DateText "2024-01-15") 4)].

(** The first statement fails. *)
Definition selectFails : World := with_faults [true] withStoredRow.

(** Lines of a urls.txt. *)
Definition eggsLine : string := "countdown.co.nz/shop/browse/pantry/eggs?page=3".
Definition tubsLine : string :=
  "https://www.countdown.co.nz/shop/browse/frozen/ice-cream-sorbet/tubs categories=ice-cream".

Definition eggsUrl : CategorisedUrl :=
  mkCategorisedUrl
    "countdown.co.nz/shop/browse/pantry/eggs?page=1&size=48&inStockProductsOnly=true"
    ["eggs"%string].

Definition iceCreamUrl : CategorisedUrl :=
  mkCategorisedUrl
    "https://www.countdown.co.nz/shop/browse/frozen/ice-cream-sorbet/tubs?page=1&size=48&inStockProductsOnly=true"
    ["ice-cream"%string].

(** Two categories, written the way the code means to split them. *)
Definition pantryLine : string :=
  "countdown.co.nz/shop/browse/pantry categories=pantry, eggs".

Definition pantryUrl : CategorisedUrl :=
  mkCategorisedUrl
    "https://countdown.co.nz/shop/browse/pantry?page=1&size=48&inStockProductsOnly=true"
    ["pantry,"%string].

(** Every page loads; the second page crashes. *)
Definition allScraped (n : nat) : PageResult := Scraped.
Definition secondCrashes (n : nat) : PageResult :=
  if (n =? 2)%nat then Crashed else Scraped.

(** A stand-in for [Number.prototype.toString] that knows 4 and 4.5. *)
Definition showNumber (x : float) : string :=
  if (x =? 4.5)%float then "4.5"%string else "4"%string.

Definition freshTerminal : Terminal := mkTerminal [] false.

(** The ice cream as scraped and as stored, for the console. *)
Definition scrapedIceCream : Product :=
  iceCream (Some ["frozen"%string]) 4.5 1 (at_ jan15) (at_ jan15).
Definition storedIceCream : Product :=
  iceCream (Some ["frozen"%string]) 4 2 (at_ jan10) (at_ jan10).

End MoreScenarios.
(* ================================================================== *)
(** * Properties *)

Ltac world_simpl :=
  cbn [Runtime.objs Runtime.arrs Runtime.table Runtime.faults Runtime.answers
       Runtime.sent Runtime.with_objs Runtime.with_arrs Runtime.with_table
       Runtime.with_faults Runtime.with_answers Runtime.with_sent
       option_bind typings.upsertType typings.product negb orb andb] in *.

Ltac js_unfold :=
  unfold mysql.buildUpdatedProduct, mysql.setPriceHistory, mysql.setLastUpdated,
    mysql.setLastChecked, Runtime.arrayPush, Runtime.arrayGet, Runtime.readArr,
    Runtime.readObj, Runtime.writeObj, Runtime.modify, Runtime.deref,
    Runtime.lift, Runtime.throw, mbind, Runtime.Js_bind, mret, Runtime.Js_ret in *.

(** Case analysis along a run that is known to have ended. *)
Ltac js_inv :=
  js_unfold;
  repeat (first [ rewrite lookup_insert_eq in * | case_match ];
          simplify_eq; world_simpl).

(** Running forward with what the hypotheses say about the lookups. *)
Ltac js_run :=
  js_unfold; world_simpl;
  repeat (match goal with
          | H : ?x = _ |- context [?x] => rewrite H
          | |- context [<[?l := _]> _ !! ?l] => rewrite lookup_insert_eq
          | |- context [bool_decide (Some _ = None)] =>
              rewrite bool_decide_eq_false_2 by discriminate
          end; world_simpl).

Ltac upsert_unfold :=
  unfold mysql.upsertProductToMySQL, Runtime.try_catch, mysql.selectById,
    mysql.updateById, mysql.insertRow, mysql.execute, mysql.historyParam,
    mysql.rowToProduct, Runtime.newArr, Runtime.newObj, Runtime.arrayPush,
    Runtime.arrayGet, Runtime.readArr, Runtime.readObj, Runtime.writeObj,
    Runtime.modify, Runtime.deref, Runtime.lift, Runtime.throw,
    mbind, Runtime.Js_bind, mret, Runtime.Js_ret in *.

Example parse_tubs :
  parseAndCategoriseURL
    "countdown.co.nz/shop/browse/frozen/ice-cream-sorbet/tubs categories=ice-cream"
  = Some (mkCategorisedUrl
      "https://countdown.co.nz/shop/browse/frozen/ice-cream-sorbet/tubs?page=1&size=48&inStockProductsOnly=true"
      ["ice-cream"]).
Proof. vm_compute. reflexivity. Qed.

Example parse_fallback :
  parseAndCategoriseURL "https://www.countdown.co.nz/shop/browse/pantry/eggs?page=3"
  = Some (mkCategorisedUrl
      "https://www.countdown.co.nz/shop/browse/pantry/eggs?page=1&size=48&inStockProductsOnly=true"
      ["eggs"]).
Proof. vm_compute. reflexivity. Qed.

(* ------------------------------------------------------------------ *)
(** ** Facts about the string operations *)

Section StringFacts.
Import JsString.

Lemma append_nil_l (s : string) : "" +:+ s = s.
Proof. reflexivity. Qed.

Lemma append_cons (c : ascii) (a b : string) :
  String c a +:+ b = String c (a +:+ b).
Proof. reflexivity. Qed.

Lemma append_empty_r (s : string) : s +:+ "" = s.
Proof.
  induction s as [|c s IH]; [reflexivity |].
  now rewrite append_cons, IH.
Qed.

Lemma append_assoc (a b c : string) : (a +:+ b) +:+ c = a +:+ (b +:+ c).
Proof.
  induction a as [|x a IH]; [reflexivity |].
  now rewrite !append_cons, IH.
Qed.

Lemma prefix_empty (s : string) : String.prefix "" s = true.
Proof. destruct s; reflexivity. Qed.

Lemma prefix_cons (x y : ascii) (w s : string) :
  String.prefix (String x w) (String y s) = true <-> x = y /\ String.prefix w s = true.
Proof.
  simpl. destruct (ascii_dec x y) as [->|Hne].
  - tauto.
  - split; [discriminate | intros [? _]; contradiction].
Qed.

Lemma split_go_nonempty (sep : string) (skip : nat) (cur s : string) :
  split_go sep skip cur s <> [].
Proof.
  revert skip cur. induction s as [|c t IH]; intros skip cur; cbn [split_go].
  - discriminate.
  - destruct skip as [|k]; [|apply IH].
    destruct (String.prefix sep (String c t)); [discriminate | apply IH].
Qed.

Lemma split_nonempty (s sep : string) : split s sep <> [].
Proof. apply split_go_nonempty. Qed.

(** A match of [w] that starts inside [a] cannot run across a code
    unit that [w] does not contain. *)
Lemma prefix_stops_at (ch : ascii) (w a b : string) :
  has_char ch w = false ->
  String.prefix w (a +:+ String ch b) = true ->
  String.prefix w a = true.
Proof.
  revert a. induction w as [|x w IH]; intros a Hch Hp.
  - apply prefix_empty.
  - simpl in Hch. apply orb_false_iff in Hch as [Hx Hw].
    destruct a as [|y a];
      rewrite ?append_nil_l, ?append_cons in Hp; apply prefix_cons in Hp as [-> Hp].
    + rewrite Ascii.eqb_refl in Hx. discriminate.
    + apply prefix_cons. split; [reflexivity | now apply IH].
Qed.

Lemma includes_cons (c : ascii) (s w : string) :
  includes s w = true -> includes (String c s) w = true.
Proof. intros H. cbn [includes]. rewrite H. apply orb_true_r. Qed.

Lemma includes_across (ch : ascii) (w a b : string) :
  has_char ch w = false ->
  includes (a +:+ String ch b) w = true ->
  includes a w = true \/ includes b w = true.
Proof.
  intros Hch. induction a as [|y a IH];
    rewrite ?append_nil_l, ?append_cons; cbn [includes]; intros H;
    apply orb_true_iff in H as [H|H].
  - left. apply (prefix_stops_at ch w "" b Hch) in H. now rewrite H.
  - now right.
  - left. apply (prefix_stops_at ch w (String y a) b Hch) in H. now rewrite H.
  - destruct (IH H) as [Ha|Hb]; [left | now right].
    rewrite Ha. apply orb_true_r.
Qed.

(** A space-free word that occurs in a line occurs in one of the
    sections [line.split(' ')] yields. *)
Lemma includes_split_go_space (w s cur : string) :
  has_char " " w = false ->
  includes (cur +:+ s) w = true ->
  exists sec, In sec (split_go " " 0 cur s) /\ includes sec w = true.
Proof.
  intros Hch. revert cur. induction s as [|c t IH]; intros cur H.
  - rewrite append_empty_r in H. exists cur. split; [now left | exact H].
  - cbn [split_go]. destruct (String.prefix " " (String c t)) eqn:Hp.
    + assert (c = " "%char) as ->.
      { destruct t; cbn [String.prefix] in Hp;
          destruct (ascii_dec " " c); congruence. }
      destruct (includes_across _ _ _ _ Hch H) as [Hc|Ht].
      * exists cur. split; [now left | exact Hc].
      * destruct (IH "" Ht) as (sec & Hin & Hsec).
        exists sec. split; [now right | exact Hsec].
    + apply IH. rewrite append_assoc. exact H.
Qed.

Lemma includes_split_space (w line : string) :
  has_char " " w = false ->
  includes line w = true ->
  exists sec, In sec (split line " ") /\ includes sec w = true.
Proof. intros Hch H. now apply (includes_split_go_space w line ""). Qed.

End StringFacts.

(* ------------------------------------------------------------------ *)
(** ** [parseAndCategoriseURL] *)

Section ParseFacts.
Import JsString.
Variable line : string.

Lemma parseSection_site_url (cu : CategorisedUrl) (sec : string) :
  includes sec siteMarker = true ->
  endsWith (url (parseSection line cu sec)) optimisedQuery.
Proof. intros H. unfold parseSection. rewrite H. cbn [url]. eexists. reflexivity. Qed.

Lemma parseSection_other_url (cu : CategorisedUrl) (sec : string) :
  includes sec siteMarker = false ->
  url (parseSection line cu sec) = url cu.
Proof.
  intros H. unfold parseSection. rewrite H.
  destruct (startsWith sec "categories="); reflexivity.
Qed.

Lemma parseSection_keeps_categories (cu : CategorisedUrl) (sec : string) :
  startsWith sec "categories=" = false ->
  categories (parseSection line cu sec) = categories cu.
Proof.
  intros H. unfold parseSection. rewrite H.
  destruct (includes sec siteMarker); reflexivity.
Qed.

Lemma fold_parseSection_url (l : list string) (cu : CategorisedUrl) :
  endsWith (url cu) optimisedQuery \/
    (exists sec, In sec l /\ includes sec siteMarker = true) ->
  endsWith (url (fold_left (parseSection line) l cu)) optimisedQuery.
Proof.
  revert cu. induction l as [|sec l IH]; intros cu H; cbn [fold_left].
  - destruct H as [H|(sec & [] & _)]. exact H.
  - apply IH. destruct (includes sec siteMarker) eqn:Hs.
    + left. now apply parseSection_site_url.
    + destruct H as [H|(sec' & [<-|Hin] & Hsec')].
      * left. now rewrite parseSection_other_url.
      * congruence.
      * right. eauto.
Qed.

Lemma fold_parseSection_categories (l : list string) (cu : CategorisedUrl) :
  (forall sec, In sec l -> startsWith sec "categories=" = false) ->
  categories (fold_left (parseSection line) l cu) = categories cu.
Proof.
  revert cu. induction l as [|sec l IH]; intros cu H; cbn [fold_left].
  - reflexivity.
  - rewrite IH by (intros; apply H; now right).
    apply parseSection_keeps_categories, H. now left.
Qed.

End ParseFacts.

(** C10.  [parseAndCategoriseURL line] is [undefined] exactly when
    [line] does not contain ['countdown.co.nz'].  Every defined result
    has a non-empty list of categories and a url that ends with
    ['?page=1&size=48&inStockProductsOnly=true']; when no section of
    the line starts with ['categories='], the single category is the
    last ['/']-section of the url before its ['?']. *)
Theorem parseAndCategoriseURL_defined_shape (line : string) :
  (parseAndCategoriseURL line = None <-> JsString.includes line siteMarker = false) /\
  (forall cu, parseAndCategoriseURL line = Some cu ->
     categories cu <> [] /\
     JsString.endsWith (url cu) optimisedQuery /\
     ((forall sec, In sec (JsString.split line " ") ->
                   JsString.startsWith sec "categories=" = false) ->
      categories cu =
        [List.last (JsString.split (hd "" (JsString.split (url cu) "?")) "/") ""])).
Proof.
  unfold parseAndCategoriseURL.
  destruct (JsString.includes line siteMarker) eqn:Hinc; cbn [negb].
  2: { split; [tauto | discriminate]. }
  split; [split; discriminate |].
  intros cu [= <-].
  set (cu0 := fold_left (parseSection line) (JsString.split line " ") _).
  assert (Hurl : JsString.endsWith (url cu0) optimisedQuery).
  { apply fold_parseSection_url. right.
    now apply includes_split_space. }
  destruct (Nat.eqb_spec (length (categories cu0)) 0) as [Hlen|Hlen]; cbn [url categories].
  - split; [discriminate | split; [exact Hurl | reflexivity]].
  - split; [| split; [exact Hurl |]].
    + intros E. rewrite E in Hlen. now apply Hlen.
    + intros Hno. exfalso. apply Hlen. subst cu0.
      now rewrite fold_parseSection_categories.
Qed.

Lemma parseAndCategoriseURL_defined_shape_witness :
  parseAndCategoriseURL "countdown.co.nz/shop/browse/frozen/ice-cream-sorbet/tubs"
    = Some Scenario.tubsUrl /\
  categories Scenario.tubsUrl <> [] /\
  JsString.endsWith (url Scenario.tubsUrl) optimisedQuery /\
  categories Scenario.tubsUrl = ["tubs"].
Proof.
  assert (E : parseAndCategoriseURL
                "countdown.co.nz/shop/browse/frozen/ice-cream-sorbet/tubs"
              = Some Scenario.tubsUrl) by (vm_compute; reflexivity).
  destruct (proj2 (parseAndCategoriseURL_defined_shape _) _ E) as (H1 & H2 & H3).
  split; [exact E | split; [exact H1 | split; [exact H2 |]]].
  rewrite H3; [vm_compute; reflexivity |].
  intros sec Hin. vm_compute in Hin.
  destruct Hin as [<-|[]]. vm_compute. reflexivity.
Defined.

(* ------------------------------------------------------------------ *)
(** ** Numbers *)

Section FloatFacts.

(** [x - x] is zero or NaN, and neither exceeds 0.05. *)
Lemma sub_diag_small (x : float) :
  (0.05 <? PrimFloat.abs (x - x))%float = false.
Proof.
  rewrite ltb_spec, abs_spec, sub_spec.
  destruct (Prim2SF x) as [s|s| |s m e].
  1-3: try destruct s; vm_compute; reflexivity.
  unfold SF64sub, SFsub. rewrite Z.sub_diag. vm_compute. reflexivity.
Qed.

Lemma SFleb_not_SFltb (x y : spec_float) :
  SFleb x y = true -> SFltb y x = false.
Proof.
  unfold SFleb, SFltb.
  destruct x as [sx|sx| |sx mx ex], y as [sy|sy| |sy my ey]; cbn [SFcompare];
    try (destruct sx); try (destruct sy); try reflexivity; try discriminate.
  all: rewrite (Z.compare_antisym ey ex); destruct (ey ?= ex)%Z; cbn [CompOpp];
    try discriminate; try reflexivity.
  all: change (Pos.compare_cont Eq mx my) with (mx ?= my)%positive;
    change (Pos.compare_cont Eq my mx) with (my ?= mx)%positive;
    rewrite (Pos.compare_antisym my mx); destruct (my ?= mx)%positive;
    cbn [CompOpp]; try discriminate; reflexivity.
Qed.

(** [d <= c] excludes [c < d], NaN included. *)
Lemma leb_not_ltb (d c : float) :
  (d <=? c)%float = true -> (c <? d)%float = false.
Proof. rewrite leb_spec, ltb_spec. apply SFleb_not_SFltb. Qed.

(** The comparison is made on the rounded difference of two doubles:
    1.05 and 1 are more than 0.05 apart, 4.05 and 4 are not. *)
Example priceDifference_of_five_cents :
  (0.05 <? PrimFloat.abs (1 - 1.05))%float = true /\
  (0.05 <? PrimFloat.abs (4 - 4.05))%float = false.
Proof. split; vm_compute; reflexivity. Qed.

End FloatFacts.

(* ------------------------------------------------------------------ *)
(** ** Dates *)

Section DateFacts.
Import JsDate Vocabulary.

Example toISOString_epoch :
  toISOString (ValidDate 0) = Some "1970-01-01T00:00:00.000Z".
Proof. vm_compute. reflexivity. Qed.

Example toISOString_leap_day :
  toISOString (ValidDate 1709164800000) = Some "2024-02-29T00:00:00.000Z".
Proof. vm_compute. reflexivity. Qed.

Example toISOString_before_epoch :
  toISOString (ValidDate (-1)) = Some "1969-12-31T23:59:59.999Z".
Proof. vm_compute. reflexivity. Qed.

Example toISOString_expanded_year :
  toISOString (ValidDate 8640000000000000) = Some "+275760-09-13T00:00:00.000Z".
Proof. vm_compute. reflexivity. Qed.

Example toString_in_Auckland :
  toString Scenario.nzdt (ValidDate Scenario.jan15)
    = "Mon Jan 15 2024 22:00:00 GMT+1300 (New Zealand Daylight Time)".
Proof. vm_compute. reflexivity. Qed.

Example the_two_days_of_one_instant :
  JsString.slice0 (toString Scenario.nzdt (ValidDate Scenario.jan15)) 10
    = "Mon Jan 15" /\
  (fun iso => JsString.slice0 iso 10) <$> toISOString (ValidDate Scenario.jan15)
    = Some "2024-01-15".
Proof. split; vm_compute; reflexivity. Qed.

Lemma firstUnit_append (a b : string) :
  firstUnit (a +:+ b) =
    match firstUnit a with
    | Some c => Some c
    | None => firstUnit b
    end.
Proof. destruct a; reflexivity. Qed.

Lemma decimal_starts_digit (n : Z) :
  exists c, firstUnit (decimal n) = Some c /\ index.isDigit c = true.
Proof.
  unfold decimal. destruct (N.to_uint (Z.to_N n)); cbn; eauto.
Qed.

Lemma padded_starts_digit (n : Z) (k : nat) :
  exists c,
    firstUnit (ToZeroPaddedDecimalString n k) = Some c /\ index.isDigit c = true.
Proof.
  unfold ToZeroPaddedDecimalString. rewrite firstUnit_append.
  destruct (k - String.length (decimal n))%nat; cbn [zeros firstUnit].
  - apply decimal_starts_digit.
  - eexists. split; reflexivity.
Qed.

Lemma WeekDay_range (t : Z) : 0 <= WeekDay t < 7.
Proof. unfold WeekDay. apply Z.mod_pos_bound. lia. Qed.

(** [toString] starts with the name of a weekday, or with [Invalid]. *)
Lemma toString_starts_upper (env : Locale) (d : Date) :
  startsUpper (toString env d) = true.
Proof.
  destruct d as [tv|]; [|reflexivity].
  unfold toString, DateString, startsUpper.
  set (t := tv + LocalTZA env tv).
  pose proof (WeekDay_range t) as Hw.
  rewrite !firstUnit_append.
  assert (Hn : (Z.to_nat (WeekDay t) < 7)%nat) by lia.
  destruct (Z.to_nat (WeekDay t)) as [|[|[|[|[|[|[|n]]]]]]];
    try reflexivity; lia.
Qed.

(** [toISOString] starts with the year: a digit, or the sign of an
    expanded year. *)
Lemma toISOString_starts_digit_or_sign (d : Date) (iso : string) :
  toISOString d = Some iso -> startsDigitOrSign iso = true.
Proof.
  destruct d as [tv|]; [|discriminate]. intros [= <-].
  unfold startsDigitOrSign. rewrite firstUnit_append.
  destruct ((0 <=? YearFromTime tv) && (YearFromTime tv <=? 9999)).
  - destruct (padded_starts_digit (YearFromTime tv) 4) as (c & -> & Hc).
    now rewrite Hc.
  - destruct (0 <=? YearFromTime tv); reflexivity.
Qed.

Lemma upper_differs_from_digit_or_sign (a b : string) :
  startsUpper a = true -> startsDigitOrSign b = true ->
  JsString.slice0 a 10 <> JsString.slice0 b 10.
Proof.
  unfold startsUpper, startsDigitOrSign, JsString.slice0.
  destruct a as [|x a], b as [|y b]; cbn [firstUnit]; try discriminate.
  intros Hx Hy. cbn [String.substring]. intros [= -> _].
  unfold isUpper, index.isDigit in *.
  destruct y as [[] [] [] [] [] [] [] []]; vm_compute in Hx, Hy; discriminate.
Qed.

(** The first ten code units of the [toString] of a [Date] object are
    never those of a [toISOString]. *)
Lemma toString_day_never_iso_day (env : Locale) (d d' : Date) (iso : string) :
  toISOString d' = Some iso ->
  String.eqb (JsString.slice0 (toString env d) 10) (JsString.slice0 iso 10) = false.
Proof.
  intros H. apply String.eqb_neq, upper_differs_from_digit_or_sign.
  - apply toString_starts_upper.
  - now apply toISOString_starts_digit_or_sign with d'.
Qed.

End DateFacts.

(* ------------------------------------------------------------------ *)
(** ** mysql.ts: [buildUpdatedProduct]

    frappe.ts holds a copy of the function, which nothing calls. *)

Section Reconciliation.
Import typings Runtime mysql Vocabulary.
Variable env : JsDate.Locale.
Variable validCategories : list string.

(** Every normal completion of [buildUpdatedProduct] is one of its three
    [return]s, with the world it leaves behind. *)
Lemma buildUpdatedProduct_cases sp dp w resp w' :
  buildUpdatedProduct env validCategories sp dp w = (Normal resp, w') ->
  exists d s dbDay scrapedIso,
    objs w !! dp = Some d /\ objs w !! sp = Some s /\
    dateToString env (lastUpdated d) = Normal dbDay /\
    dateToISOString (lastUpdated s) = Normal scrapedIso /\
    let detected := priceChangeDetected d s (JsString.slice0 dbDay 10)
                                        (JsString.slice0 scrapedIso 10) in
    ((detected = true /\
      exists r hist sh,
        priceHistory d = Some r /\ arrs w !! r = Some hist /\
        historyOf w s = Some sh /\
        resp = mkProductResponse PriceChanged sp /\
        w' = with_objs (<[sp := with_priceHistory (Some r) s]> (objs w))
               (with_arrs (<[r := hist ++ [mjoin (sh !! 0%nat)]]> (arrs w)) w))
     \/
     (detected = false /\
      exists cats,
        category d = Some cats /\
        forallb (isValidCategory validCategories) cats = false /\
        is_Some (category s) /\
        resp = mkProductResponse InfoChanged sp /\
        w' = with_objs (<[sp := with_lastUpdated (lastUpdated d)
                                  (with_priceHistory (priceHistory d) s)]> (objs w)) w)
     \/
     (detected = false /\
      exists cats,
        category d = Some cats /\
        forallb (isValidCategory validCategories) cats = true /\
        resp = mkProductResponse AlreadyUpToDate dp /\
        w' = with_objs (<[dp := with_lastChecked (lastChecked s) d]> (objs w)) w)).
Proof.
  intros H. js_inv.
  all: do 4 eexists; repeat (split; [eassumption || reflexivity|]); cbn zeta.
  - left. split; [assumption|]. unfold historyOf. eauto 10.
  - right; left. split; [assumption|].
    match goal with
    | H : _ || _ = true |- _ =>
        rewrite orb_true_iff, negb_true_iff in H; destruct H as [H|H];
        [| apply bool_decide_eq_true in H; congruence]
    end.
    eexists. repeat (split; [eassumption || eauto|]).
    unfold with_objs; cbn. now rewrite insert_insert_eq.
  - right; right. split; [assumption|].
    match goal with
    | H : _ || _ = false |- _ =>
        rewrite orb_false_iff, negb_false_iff in H; destruct H as [H _]
    end.
    eauto 10.
Qed.

(** The three [return]s, run forward. *)
Lemma run_PriceChanged sp dp w s d dbDay scrapedIso r hist sh :
  objs w !! dp = Some d -> objs w !! sp = Some s ->
  dateToString env (lastUpdated d) = Normal dbDay ->
  dateToISOString (lastUpdated s) = Normal scrapedIso ->
  priceChangeDetected d s (JsString.slice0 dbDay 10)
                      (JsString.slice0 scrapedIso 10) = true ->
  priceHistory d = Some r -> arrs w !! r = Some hist ->
  historyOf w s = Some sh ->
  buildUpdatedProduct env validCategories sp dp w =
    (Normal (mkProductResponse PriceChanged sp),
     with_objs (<[sp := with_priceHistory (Some r) s]> (objs w))
       (with_arrs (<[r := hist ++ [mjoin (sh !! 0%nat)]]> (arrs w)) w)).
Proof.
  unfold historyOf. intros Hd Hs Hday Hiso Hgate Hr Hhist Hsh.
  js_run. reflexivity.
Qed.

Lemma run_InfoChanged sp dp w s d dbDay scrapedIso cats scats :
  objs w !! dp = Some d -> objs w !! sp = Some s ->
  dateToString env (lastUpdated d) = Normal dbDay ->
  dateToISOString (lastUpdated s) = Normal scrapedIso ->
  priceChangeDetected d s (JsString.slice0 dbDay 10)
                      (JsString.slice0 scrapedIso 10) = false ->
  category d = Some cats ->
  forallb (isValidCategory validCategories) cats = false ->
  category s = Some scats ->
  buildUpdatedProduct env validCategories sp dp w =
    (Normal (mkProductResponse InfoChanged sp),
     with_objs (<[sp := with_lastUpdated (lastUpdated d)
                          (with_priceHistory (priceHistory d) s)]> (objs w)) w).
Proof.
  intros Hd Hs Hday Hiso Hgate Hc Hv Hsc.
  js_run. unfold with_objs; cbn. now rewrite insert_insert_eq.
Qed.

Lemma run_AlreadyUpToDate sp dp w s d dbDay scrapedIso cats :
  objs w !! dp = Some d -> objs w !! sp = Some s ->
  dateToString env (lastUpdated d) = Normal dbDay ->
  dateToISOString (lastUpdated s) = Normal scrapedIso ->
  priceChangeDetected d s (JsString.slice0 dbDay 10)
                      (JsString.slice0 scrapedIso 10) = false ->
  category d = Some cats ->
  forallb (isValidCategory validCategories) cats = true ->
  buildUpdatedProduct env validCategories sp dp w =
    (Normal (mkProductResponse AlreadyUpToDate dp),
     with_objs (<[dp := with_lastChecked (lastChecked s) d]> (objs w)) w).
Proof.
  intros Hd Hs Hday Hiso Hgate Hc Hv.
  js_run. reflexivity.
Qed.

(** A reconciliation touches the heap only. *)
Lemma buildUpdatedProduct_frame sp dp w c w' :
  buildUpdatedProduct env validCategories sp dp w = (c, w') ->
  table w' = table w /\ faults w' = faults w.
Proof. intros H. js_inv; split; reflexivity. Qed.

Lemma buildUpdatedProduct_decisions sp dp w resp w' :
  buildUpdatedProduct env validCategories sp dp w = (Normal resp, w') ->
  upsertType resp = PriceChanged \/ upsertType resp = InfoChanged \/
  upsertType resp = AlreadyUpToDate.
Proof.
  intros H. apply buildUpdatedProduct_cases in H as (?&?&?&?&_&_&_&_&H).
  cbn zeta in H.
  destruct H as [(_&?&?&?&_&_&_&->&_)|[(_&?&_&_&_&->&_)|(_&?&_&_&->&_)]];
    cbn; auto.
Qed.

Lemma lastPrice_snoc (hist : list Elem) (e : DatedPrice) :
  lastPrice (hist ++ [Some e]) = Some (price e).
Proof. unfold lastPrice. now rewrite last_snoc. Qed.

Lemma dateToISOString_is_Date (v : DateValue) (iso : string) :
  dateToISOString v = Normal iso ->
  exists d, v = DateObject d /\ JsDate.toISOString d = Some iso.
Proof.
  destruct v as [|d|]; cbn [dateToISOString]; try discriminate.
  destruct (JsDate.toISOString d) eqn:E; [|discriminate].
  intros [= <-]. eauto.
Qed.

Lemma priceChangeDetected_same_price (a b : Product) (x y : string) :
  currentPrice a = currentPrice b -> priceChangeDetected a b x y = false.
Proof.
  intros E. unfold priceChangeDetected, priceDifference. rewrite E.
  now rewrite sub_diag_small.
Qed.

Lemma priceChangeDetected_ext (a a' b b' : Product) (x y : string) :
  currentPrice a' = currentPrice a -> currentPrice b' = currentPrice b ->
  priceChangeDetected a' b' x y = priceChangeDetected a b x y.
Proof.
  intros Ea Eb. unfold priceChangeDetected, priceDifference. now rewrite Ea, Eb.
Qed.

(** C1, as amended.  Let the scraped product carry its own observation
    and let the existing record satisfy the invariant.  The product
    returned with [PriceChanged] or [AlreadyUpToDate] satisfies it:
    its [currentPrice] is the price of the last entry of its
    [priceHistory].  The product returned with [InfoChanged] has the
    scraped [currentPrice] and the existing ledger, and satisfies it
    exactly when the scraped price is the existing price. *)
Theorem reconciled_price_is_last sp dp w resp w' e s d :
  objs w !! sp = Some s -> objs w !! dp = Some d ->
  observes w sp e -> priceIsLast w dp ->
  buildUpdatedProduct env validCategories sp dp w = (Normal resp, w') ->
  (upsertType resp <> InfoChanged -> priceIsLast w' (product resp)) /\
  (upsertType resp = InfoChanged ->
     (priceIsLast w' (product resp) <-> currentPrice s = currentPrice d)).
Proof.
  intros Hs Hd (s0 & sh & Hs0 & Hsh & Hfirst & Hprice)
         (d0 & hist & Hd0 & Hhist & Hlast) Hrun.
  assert (s0 = s) as -> by congruence. assert (d0 = d) as -> by congruence.
  apply buildUpdatedProduct_cases in Hrun
    as (d1 & s1 & dbDay & iso & Hd1 & Hs1 & _ & _ & Hcases).
  assert (s1 = s) as -> by congruence. assert (d1 = d) as -> by congruence.
  cbn zeta in Hcases.
  destruct Hcases as [(_ & r & hist' & sh' & Hr & Harr & Hsh' & -> & ->)
                     |[(_ & cats & _ & _ & _ & -> & ->)
                      |(_ & cats & _ & _ & -> & ->)]];
    cbn [upsertType product]; (split; [intros Hne | intros Heq]);
    try congruence.
  - assert (sh' = sh) as -> by congruence.
    exists (with_priceHistory (Some r) s), (hist' ++ [Some e]).
    cbn [objs with_objs]. rewrite lookup_insert_eq.
    split; [reflexivity|]. split.
    + unfold historyOf.
      cbn [priceHistory with_priceHistory mbind option_bind arrs with_objs with_arrs].
      rewrite lookup_insert_eq, Hfirst. reflexivity.
    + rewrite lastPrice_snoc. cbn [currentPrice with_priceHistory]. now f_equal.
  - set (s' := with_lastUpdated (lastUpdated d)
                 (with_priceHistory (priceHistory d) s)).
    assert (Hobj : objs (with_objs (<[sp:=s']> (objs w)) w) !! sp = Some s')
      by (cbn [objs with_objs]; apply lookup_insert_eq).
    assert (Hh : historyOf (with_objs (<[sp:=s']> (objs w)) w) s' = Some hist)
      by exact Hhist.
    split.
    + intros (p & h & Hp & Hph & Hl).
      assert (p = s') as -> by congruence. assert (h = hist) as -> by congruence.
      cbn [currentPrice s' with_lastUpdated with_priceHistory] in Hl. congruence.
    + intros E. exists s', hist. repeat split; try assumption.
      cbn [currentPrice s' with_lastUpdated with_priceHistory]. congruence.
  - exists (with_lastChecked (lastChecked s) d), hist.
    cbn [objs with_objs]. rewrite lookup_insert_eq.
    repeat split; assumption.
Qed.

(** [PriceChanged] is returned only through the test of the [if]: the
    difference exceeds 0.05 and the two ten-unit strings differ. *)
Lemma PriceChanged_only_through_gate sp dp w resp w' :
  buildUpdatedProduct env validCategories sp dp w = (Normal resp, w') ->
  upsertType resp = PriceChanged ->
  exists d s dbDay scrapedIso,
    objs w !! dp = Some d /\ objs w !! sp = Some s /\
    dateToString env (lastUpdated d) = Normal dbDay /\
    dateToISOString (lastUpdated s) = Normal scrapedIso /\
    (0.05 <? priceDifference d s)%float = true /\
    JsString.slice0 dbDay 10 <> JsString.slice0 scrapedIso 10.
Proof.
  intros Hrun Hpc.
  apply buildUpdatedProduct_cases in Hrun
    as (d & s & dbDay & iso & Hd & Hs & Hday & Hiso & Hcases).
  exists d, s, dbDay, iso. repeat (split; [assumption|]).
  cbn zeta in Hcases.
  destruct Hcases as [(Hg & _)
                     |[(_ & cats & _ & _ & _ & -> & _)
                      |(_ & cats & _ & _ & -> & _)]];
    cbn [upsertType] in Hpc; try discriminate.
  unfold priceChangeDetected in Hg. apply andb_true_iff in Hg as [Hgt Hne].
  split; [exact Hgt|]. now apply String.eqb_neq, negb_true_iff.
Qed.

(** X28.  A difference of at most 0.05 between the stored and the
    scraped price is never reported as [PriceChanged], whatever the
    dates are. *)
Lemma small_difference_never_PriceChanged sp dp w resp w' s d :
  objs w !! sp = Some s -> objs w !! dp = Some d ->
  (priceDifference d s <=? 0.05)%float = true ->
  buildUpdatedProduct env validCategories sp dp w = (Normal resp, w') ->
  upsertType resp <> PriceChanged.
Proof.
  intros Hs Hd Hle Hrun Hpc.
  destruct (PriceChanged_only_through_gate _ _ _ _ _ Hrun Hpc)
    as (d' & s' & _ & _ & Hd' & Hs' & _ & _ & Hgt & _).
  assert (s' = s) as -> by congruence. assert (d' = d) as -> by congruence.
  apply leb_not_ltb in Hle. congruence.
Qed.

(** X29.  When the stored [lastUpdated] is a string that starts with
    the ISO day of the scrape, the change is not reported as
    [PriceChanged], however far apart the prices are. *)
Lemma same_day_text_never_PriceChanged sp dp w resp w' s d text iso :
  objs w !! sp = Some s -> objs w !! dp = Some d ->
  lastUpdated d = DateText text ->
  dateToISOString (lastUpdated s) = Normal iso ->
  JsString.slice0 text 10 = JsString.slice0 iso 10 ->
  buildUpdatedProduct env validCategories sp dp w = (Normal resp, w') ->
  upsertType resp <> PriceChanged.
Proof.
  intros Hs Hd Htext Hiso Hday Hrun Hpc.
  destruct (PriceChanged_only_through_gate _ _ _ _ _ Hrun Hpc)
    as (d' & s' & dbDay & iso' & Hd' & Hs' & Hdb & Hiso' & _ & Hne).
  assert (s' = s) as -> by congruence. assert (d' = d) as -> by congruence.
  rewrite Htext in Hdb. cbn in Hdb. congruence.
Qed.

(** C2, on the code.  When the stored [lastUpdated] is a [Date] object,
    every price difference above 0.05 is reported as [PriceChanged],
    whatever the two days are, the same day included: [toString] of a
    [Date] never starts like a [toISOString]. *)
Theorem stored_Date_never_blocks sp dp w s d stored t r hist sh :
  objs w !! sp = Some s -> objs w !! dp = Some d ->
  lastUpdated d = DateObject stored ->
  lastUpdated s = DateObject (JsDate.ValidDate t) ->
  (0.05 <? priceDifference d s)%float = true ->
  priceHistory d = Some r -> arrs w !! r = Some hist ->
  historyOf w s = Some sh ->
  exists w',
    buildUpdatedProduct env validCategories sp dp w =
      (Normal (mkProductResponse PriceChanged sp), w').
Proof.
  intros Hs Hd Hstored Hscraped Hgt Hr Hhist Hsh.
  eexists. eapply run_PriceChanged; try eassumption.
  - rewrite Hstored. reflexivity.
  - rewrite Hscraped. reflexivity.
  - unfold priceChangeDetected. rewrite Hgt. cbn [andb].
    apply negb_true_iff.
    now apply toString_day_never_iso_day with (JsDate.ValidDate t).
Qed.

(** C4.  When the decision is [PriceChanged], the returned product
    refers to the array of the existing record, which has grown by one
    entry: the existing entries are its first entries, and the last one
    is the scraped observation, which carries the scraped price. *)
Theorem price_change_extends_ledger sp dp w resp w' s d r hist e :
  objs w !! sp = Some s -> objs w !! dp = Some d ->
  priceHistory d = Some r -> arrs w !! r = Some hist ->
  observes w sp e ->
  buildUpdatedProduct env validCategories sp dp w = (Normal resp, w') ->
  upsertType resp = PriceChanged ->
  exists p hist',
    objs w' !! product resp = Some p /\
    priceHistory p = Some r /\
    arrs w' !! r = Some hist' /\
    length hist' = S (length hist) /\
    last hist' = Some (Some e) /\
    take (length hist) hist' = hist /\
    price e = currentPrice s /\
    currentPrice p = currentPrice s.
Proof.
  intros Hs Hd Hr Hhist (s0 & sh & Hs0 & Hsh & Hfirst & Hprice) Hrun Hpc.
  assert (s0 = s) as -> by congruence.
  apply buildUpdatedProduct_cases in Hrun
    as (d1 & s1 & dbDay & iso & Hd1 & Hs1 & _ & _ & Hcases).
  assert (s1 = s) as -> by congruence. assert (d1 = d) as -> by congruence.
  cbn zeta in Hcases.
  destruct Hcases as [(_ & r' & hist' & sh' & Hr' & Harr & Hsh' & -> & ->)
                     |[(_ & cats & _ & _ & _ & -> & _)
                      |(_ & cats & _ & _ & -> & _)]];
    cbn [upsertType product] in *; try discriminate.
  assert (r' = r) as -> by congruence.
  assert (hist' = hist) as -> by congruence.
  assert (sh' = sh) as -> by congruence.
  exists (with_priceHistory (Some r) s), (hist ++ [Some e]).
  cbn [objs arrs with_objs with_arrs]. rewrite !lookup_insert_eq, Hfirst.
  repeat split; try reflexivity.
  - rewrite length_app. cbn. lia.
  - apply last_snoc.
  - now rewrite take_app_length.
  - exact Hprice.
Qed.

(** C5, on the code.  Without a price change to report, absent stored
    categories end the reconciliation with a TypeError: [every] is
    called on them before they are compared with [null].  Nothing is
    returned, [InfoChanged] included, and the world is left as it was. *)
Theorem absent_categories_throw sp dp w s d dbDay scrapedIso :
  objs w !! dp = Some d -> objs w !! sp = Some s ->
  dateToString env (lastUpdated d) = Normal dbDay ->
  dateToISOString (lastUpdated s) = Normal scrapedIso ->
  priceChangeDetected d s (JsString.slice0 dbDay 10)
                      (JsString.slice0 scrapedIso 10) = false ->
  category d = None ->
  buildUpdatedProduct env validCategories sp dp w = (Throw TypeError, w).
Proof.
  intros Hd Hs Hday Hiso Hgate Hc. js_run. reflexivity.
Qed.

(** What C5 says of stored categories with an unknown tag holds: the
    decision is [InfoChanged], and the returned product is the scraped
    one with the ledger and [lastUpdated] of the existing record. *)
Lemma invalid_category_InfoChanged sp dp w s d dbDay scrapedIso cats scats :
  objs w !! dp = Some d -> objs w !! sp = Some s ->
  dateToString env (lastUpdated d) = Normal dbDay ->
  dateToISOString (lastUpdated s) = Normal scrapedIso ->
  priceChangeDetected d s (JsString.slice0 dbDay 10)
                      (JsString.slice0 scrapedIso 10) = false ->
  category d = Some cats ->
  forallb (isValidCategory validCategories) cats = false ->
  category s = Some scats ->
  exists w' p,
    buildUpdatedProduct env validCategories sp dp w =
      (Normal (mkProductResponse InfoChanged sp), w') /\
    objs w' !! sp = Some p /\
    category p = category s /\ id p = id s /\ name p = name s /\
    size p = size s /\ sourceSite p = sourceSite s /\
    priceHistory p = priceHistory d /\ lastUpdated p = lastUpdated d /\
    arrs w' = arrs w.
Proof.
  intros Hd Hs Hday Hiso Hgate Hc Hv Hsc.
  do 2 eexists. split; [eapply run_InfoChanged; eassumption|].
  cbn [objs arrs with_objs]. rewrite lookup_insert_eq.
  repeat split; reflexivity.
Qed.

(** C6, as amended.  After a reconciliation that returned a product,
    reconciling a scraped product with the same price and [lastUpdated]
    against the returned product gives [AlreadyUpToDate], provided the
    first decision was [AlreadyUpToDate] or the scraped categories are
    all valid. *)
Theorem second_reconciliation_up_to_date sp dp w resp w' s sp2 s2 :
  objs w !! sp = Some s ->
  buildUpdatedProduct env validCategories sp dp w = (Normal resp, w') ->
  (upsertType resp = AlreadyUpToDate \/
   exists cats, category s = Some cats /\
                forallb (isValidCategory validCategories) cats = true) ->
  objs w' !! sp2 = Some s2 ->
  currentPrice s2 = currentPrice s ->
  lastUpdated s2 = lastUpdated s ->
  exists w'',
    buildUpdatedProduct env validCategories sp2 (product resp) w' =
      (Normal (mkProductResponse AlreadyUpToDate (product resp)), w'').
Proof.
  intros Hs Hrun Hok Hs2 Hprice Hupd.
  apply buildUpdatedProduct_cases in Hrun
    as (d & s1 & dbDay & iso & Hd & Hs1 & Hday & Hiso & Hcases).
  assert (s1 = s) as -> by congruence.
  destruct (dateToISOString_is_Date _ _ Hiso) as (sd & Hsd & Hsd').
  cbn zeta in Hcases.
  destruct Hcases as [(_ & r & hist & sh & Hr & Harr & Hsh & -> & ->)
                     |[(_ & cats & _ & _ & _ & -> & ->)
                      |(Hg & cats & Hc & Hv & -> & ->)]];
    cbn [upsertType product] in *.
  - destruct Hok as [|(cats & Hc & Hv)]; [discriminate|].
    eexists. eapply run_AlreadyUpToDate with (cats := cats).
    + cbn [objs with_objs]. apply lookup_insert_eq.
    + exact Hs2.
    + cbn [lastUpdated with_priceHistory]. rewrite Hsd. reflexivity.
    + rewrite Hupd. exact Hiso.
    + apply priceChangeDetected_same_price. now rewrite Hprice.
    + exact Hc.
    + exact Hv.
  - destruct Hok as [|(cats' & Hc & Hv)]; [discriminate|].
    eexists. eapply run_AlreadyUpToDate with (cats := cats').
    + cbn [objs with_objs]. apply lookup_insert_eq.
    + exact Hs2.
    + cbn [lastUpdated with_lastUpdated]. exact Hday.
    + rewrite Hupd. exact Hiso.
    + apply priceChangeDetected_same_price. now rewrite Hprice.
    + exact Hc.
    + exact Hv.
  - eexists. eapply run_AlreadyUpToDate with (cats := cats).
    + cbn [objs with_objs]. apply lookup_insert_eq.
    + exact Hs2.
    + cbn [lastUpdated with_lastChecked]. exact Hday.
    + rewrite Hupd. exact Hiso.
    + rewrite <- Hg. now apply priceChangeDetected_ext.
    + exact Hc.
    + exact Hv.
Qed.

(** The proviso of C6 is needed: when the first decision was not
    [AlreadyUpToDate] and a scraped category is not a valid one, the
    second reconciliation reports [InfoChanged] once more. *)
Lemma second_reconciliation_InfoChanged sp dp w resp w' s sp2 s2 cats :
  objs w !! sp = Some s ->
  buildUpdatedProduct env validCategories sp dp w = (Normal resp, w') ->
  upsertType resp <> AlreadyUpToDate ->
  category s = Some cats ->
  forallb (isValidCategory validCategories) cats = false ->
  objs w' !! sp2 = Some s2 ->
  currentPrice s2 = currentPrice s ->
  lastUpdated s2 = lastUpdated s ->
  category s2 = category s ->
  exists w'',
    buildUpdatedProduct env validCategories sp2 (product resp) w' =
      (Normal (mkProductResponse InfoChanged sp2), w'').
Proof.
  intros Hs Hrun Hne Hc Hv Hs2 Hprice Hupd Hcat.
  apply buildUpdatedProduct_cases in Hrun
    as (d & s1 & dbDay & iso & Hd & Hs1 & Hday & Hiso & Hcases).
  assert (s1 = s) as -> by congruence.
  destruct (dateToISOString_is_Date _ _ Hiso) as (sd & Hsd & Hsd').
  cbn zeta in Hcases.
  destruct Hcases as [(_ & r & hist & sh & Hr & Harr & Hsh & -> & ->)
                     |[(_ & cats' & _ & _ & _ & -> & ->)
                      |(_ & cats' & _ & _ & -> & _)]];
    cbn [upsertType product] in *; try congruence.
  - eexists. eapply run_InfoChanged with (cats := cats) (scats := cats).
    + cbn [objs with_objs]. apply lookup_insert_eq.
    + exact Hs2.
    + cbn [lastUpdated with_priceHistory]. rewrite Hsd. reflexivity.
    + rewrite Hupd. exact Hiso.
    + apply priceChangeDetected_same_price. now rewrite Hprice.
    + exact Hc.
    + exact Hv.
    + congruence.
  - eexists. eapply run_InfoChanged with (cats := cats) (scats := cats).
    + cbn [objs with_objs]. apply lookup_insert_eq.
    + exact Hs2.
    + cbn [lastUpdated with_lastUpdated]. exact Hday.
    + rewrite Hupd. exact Hiso.
    + apply priceChangeDetected_same_price. now rewrite Hprice.
    + exact Hc.
    + exact Hv.
    + congruence.
Qed.

End Reconciliation.

(* ------------------------------------------------------------------ *)
(** ** mysql.ts: [upsertProductToMySQL] *)

Section Upsert.
Import typings Runtime mysql Vocabulary.
Variable env : JsDate.Locale.
Variable validCategories : list string.

(** The [try]/[catch] of [upsertProductToMySQL] encloses the whole body,
    and its handler only returns: the call never throws. *)
Lemma upsertProductToMySQL_returns sp w :
  exists r w', upsertProductToMySQL env validCategories sp w = (Normal r, w').
Proof.
  unfold upsertProductToMySQL, try_catch.
  match goal with
  | |- context [match ?b with _ => _ end] => destruct b as [[r|e] w1]
  end; cbn; eauto.
Qed.

(** Its decision is one of the five. *)
Lemma upsertProductToMySQL_decisions sp w c w' :
  upsertProductToMySQL env validCategories sp w = (c, w') ->
  exists r, c = Normal r /\ In r decisions.
Proof.
  intros H. upsert_unfold.
  repeat (case_match; simplify_eq; world_simpl).
  all: try (eexists; split; [reflexivity|]; cbn; tauto).
  all: match goal with
       | H : buildUpdatedProduct _ _ _ _ _ = (Normal ?resp, _) |- _ =>
           apply buildUpdatedProduct_decisions in H;
           exists (upsertType resp); split; [reflexivity|];
           cbn; destruct H as [->|[->| ->]]; tauto
       end.
Qed.

(** C8, on the code.  Whatever an upsert decides, a row that was in the
    table keeps the [lastChecked] it had: the UPDATE statement does not
    set that column, and the scraped [lastChecked] reaches the table
    only through the INSERT of a new product. *)
Theorem upsert_keeps_stored_lastChecked sp w c w' i row :
  upsertProductToMySQL env validCategories sp w = (c, w') ->
  table w !! i = Some row ->
  exists row',
    table w' !! i = Some row' /\ r_lastChecked row' = r_lastChecked row.
Proof.
  intros H Hrow. upsert_unfold.
  repeat (case_match; simplify_eq; world_simpl).
  all: repeat match goal with
       | H : buildUpdatedProduct _ _ _ _ _ = _ |- _ =>
           apply buildUpdatedProduct_frame in H; world_simpl;
           destruct H as [H _]; try rewrite H in *; clear H
       end.
  all: try (exists row; split; [assumption | reflexivity]).
  all: try (rewrite lookup_alter; case_decide; simplify_eq;
            [ match goal with
              | H : table _ !! _ = Some _ |- _ => rewrite H
              end;
              cbn; eexists; split; reflexivity
            | exists row; split; [assumption | reflexivity] ]).
  all: try (rewrite lookup_insert_ne by congruence;
            exists row; split; [assumption | reflexivity]).
Qed.

Lemma healthy_head n fs : healthy (S n) fs -> head fs <> Some true.
Proof. intros H. destruct fs; [discriminate|]. apply (H 0%nat). lia. Qed.

Lemma healthy_tail n fs : healthy (S n) fs -> healthy n (tail fs).
Proof.
  intros H k Hk. destruct fs as [|b fs]; [destruct k; discriminate|].
  apply (H (S k)). lia.
Qed.

Lemma execute_healthy {A : Type} (statement : Js A) n w :
  healthy (S n) (faults w) ->
  execute statement w = statement (with_faults (tail (faults w)) w).
Proof.
  intros H. apply healthy_head in H. unfold execute.
  destruct (head (faults w)) as [[]|]; congruence.
Qed.

(** The [else] branch of [upsertProductToMySQL], run forward. *)
Lemma upsert_inserts sp w s i h :
  objs w !! sp = Some s -> id s = Some i ->
  historyOf w s = Some h ->
  table w !! i = None ->
  healthy 2 (faults w) ->
  upsertProductToMySQL env validCategories sp w =
    (Normal NewProduct,
     with_table
       (<[i := mkRow i (name s) (category s) (sourceSite s) (size s)
                     (unitPrice s) (unitName s) (originalUnitQuantity s)
                     (currentPrice s) (Some h) (lastUpdated s) (lastChecked s)]>
          (table w))
       (with_faults (tail (tail (faults w))) w)).
Proof.
  intros Hs Hid Hh Hnone Hhealthy.
  unfold historyOf in Hh.
  destruct (priceHistory s) as [r|] eqn:Hr; [|discriminate].
  cbn in Hh.
  unfold upsertProductToMySQL, try_catch, selectById, insertRow, historyParam.
  unfold mbind at 1, Js_bind at 1. unfold readObj at 1. rewrite Hs.
  cbn [deref lift].
  unfold mbind at 1, Js_bind at 1. rewrite Hid. cbn [deref lift].
  unfold mbind at 1, Js_bind at 1.
  rewrite (execute_healthy _ 1) by assumption.
  world_simpl. rewrite Hnone.
  rewrite Hr. unfold mbind, Js_bind, readArr, mret, Js_ret. world_simpl.
  unfold mbind. world_simpl. rewrite Hh. cbn [deref lift].
  rewrite (execute_healthy _ 0) by (cbn; now apply healthy_tail).
  world_simpl. rewrite Hnone. reflexivity.
Qed.

End Upsert.

(* ------------------------------------------------------------------ *)
(** ** index.ts: [playwrightElementToProduct] *)

Section Scrape.
Import typings Runtime mysql index Vocabulary.
Variable env : JsDate.Locale.
Variable validCategories : list string.
Variable startCase : string -> string.
Variable Number : string -> float.

(** What [playwrightElementToProduct] hands over when it returns a
    product: a validated object whose history is one observation with
    the product's price. *)
Lemma playwrightElementToProduct_shape
    element categories checked updated priced w sp w' :
  playwrightElementToProduct startCase Number element categories
                             checked updated priced w = (Normal (Some sp), w') ->
  exists s i,
    objs w' !! sp = Some s /\
    validateProduct s = true /\
    id s = Some i /\
    category s = Some categories /\
    lastChecked s = DateObject (JsDate.ValidDate checked) /\
    lastUpdated s = DateObject (JsDate.ValidDate updated) /\
    historyOf w' s =
      Some [Some (mkDatedPrice (DateObject (JsDate.ValidDate priced))
                               (currentPrice s))] /\
    table w' = table w /\ faults w' = faults w.
Proof.
  unfold playwrightElementToProduct, newArr, newObj, mbind, Js_bind, mret, Js_ret.
  world_simpl.
  set (p := mkProduct _ _ _ _ _ _ _ _ _ _ _ _).
  destruct (validateProduct p) eqn:Hv; intros [= <- <-].
  assert (Hid : exists i, id p = Some i).
  { unfold validateProduct in Hv. destruct (id p); [eauto|].
    destruct (_ || _); discriminate. }
  destruct Hid as (i & Hid).
  exists p, i. world_simpl. rewrite lookup_insert_eq.
  repeat split; try assumption; try reflexivity.
  unfold historyOf.
  cbn [priceHistory p mbind option_bind arrs with_objs with_arrs].
  now rewrite lookup_insert_eq.
Qed.


(** C3.  A product that [playwrightElementToProduct] returned, whose id
    has no row in the table, is upserted with the decision [NewProduct]
    when the two statements succeed; the row written for its id holds
    the scraped fields as they are, with a price history of exactly one
    entry whose price is the scraped [currentPrice]. *)
Theorem new_product_is_inserted
    element categories checked updated priced w0 sp w1 s i :
  playwrightElementToProduct startCase Number element categories
                             checked updated priced w0 = (Normal (Some sp), w1) ->
  objs w1 !! sp = Some s ->
  id s = Some i ->
  table w1 !! i = None ->
  healthy 2 (faults w1) ->
  exists w2,
    upsertProductToMySQL env validCategories sp w1 = (Normal NewProduct, w2) /\
    table w2 !! i =
      Some (mkRow i (name s) (category s) (sourceSite s) (size s)
                  (unitPrice s) (unitName s) (originalUnitQuantity s)
                  (currentPrice s)
                  (Some [Some (mkDatedPrice (DateObject (JsDate.ValidDate priced))
                                            (currentPrice s))])
                  (lastUpdated s) (lastChecked s)).
Proof.
  intros Hscrape Hs Hid Hnone Hhealthy.
  apply playwrightElementToProduct_shape in Hscrape
    as (s' & i' & Hs' & _ & _ & _ & _ & _ & Hhist & _ & _).
  assert (s' = s) as -> by congruence.
  eexists. split.
  - eapply upsert_inserts; eassumption.
  - cbn [table with_table]. apply lookup_insert_eq.
Qed.

End Scrape.

(* ------------------------------------------------------------------ *)
(** ** frappe.ts: [upsertProductToFrappe] *)

Section Frappe.
Import typings Runtime frappe Vocabulary.

(** C7, on the code.  When the GET is answered with 404 and the POST of
    the [catch] block is rejected, [upsertProductToFrappe] throws the
    error of the POST: no [Failed] is returned. *)
Theorem frappe_failed_POST_propagates sp w s status rest :
  objs w !! sp = Some s ->
  answers w = Reject (Some 404) :: Reject status :: rest ->
  exists w', upsertProductToFrappe sp w = (Throw (AxiosError status), w').
Proof.
  intros Hs Ha. eexists.
  unfold upsertProductToFrappe, try_catch, axios, readObj, deref, lift,
    mbind, Js_bind, mret, Js_ret.
  rewrite Hs, Ha.
  cbn [isNotFound Z.eqb Pos.eqb answers with_answers with_sent objs].
  rewrite Hs. reflexivity.
Qed.

(** C9, on the code.  When the GET and the PUT are accepted,
    [upsertProductToFrappe] returns [Updated], which is none of the
    five decisions; the [switch] of index.ts counts it as a failure. *)
Theorem frappe_returns_Updated sp w s rest :
  objs w !! sp = Some s ->
  answers w = Resolve :: Resolve :: rest ->
  exists w',
    upsertProductToFrappe sp w = (Normal Updated, w') /\
    ~ In Updated decisions /\
    forall c, index.failedCount (index.count Updated c) = S (index.failedCount c).
Proof.
  intros Hs Ha. eexists. split; [|split].
  - unfold upsertProductToFrappe, try_catch, axios, readObj, deref, lift,
      mbind, Js_bind, mret, Js_ret.
    rewrite Hs, Ha. cbn [answers with_answers with_sent objs]. reflexivity.
  - cbn. intuition discriminate.
  - reflexivity.
Qed.

End Frappe.

(* ------------------------------------------------------------------ *)
(** ** The properties at concrete worlds *)

Section Instances.
Import typings Runtime mysql frappe index Vocabulary Scenario.

(** C1 fails as stated: three cents apart and with an unknown stored
    tag, the decision is [InfoChanged] and the returned product has
    price 4.03 over a ledger that ends at 4. *)
Lemma InfoChanged_price_not_last :
  observes categoryDrift 1 (mkDatedPrice (at_ jan15) 4.03) /\
  priceIsLast categoryDrift 2 /\
  fst (buildUpdatedProduct nzdt someCategories 1 2 categoryDrift)
    = Normal (mkProductResponse InfoChanged 1) /\
  ~ priceIsLast (snd (buildUpdatedProduct nzdt someCategories 1 2 categoryDrift)) 1.
Proof.
  split; [|split; [|split]].
  - do 2 eexists. repeat split; reflexivity.
  - do 2 eexists. repeat split; reflexivity.
  - vm_compute. reflexivity.
  - intros (p & hist & Hp & Hh & Hl).
    vm_compute in Hp. injection Hp as <-.
    vm_compute in Hh. injection Hh as <-.
    apply (f_equal (fun o => match o with
                             | Some x => PrimFloat.eqb x 4
                             | None => false
                             end)) in Hl.
    vm_compute in Hl. discriminate.
Qed.

Lemma reconciled_price_is_last_witness :
  priceIsLast (snd (buildUpdatedProduct nzdt someCategories 1 2 laterPriceChange)) 1.
Proof.
  destruct (reconciled_price_is_last nzdt someCategories 1 2 laterPriceChange
              (mkProductResponse PriceChanged 1)
              (snd (buildUpdatedProduct nzdt someCategories 1 2 laterPriceChange))
              (mkDatedPrice (at_ jan15) 4.5)
              (iceCream (Some ["frozen"%string]) 4.5 1 (at_ jan15) (at_ jan15))
              (iceCream (Some ["frozen"%string]) 4 2 (at_ jan10)
                        (DateText "2024-01-10T09:00:00.000Z")))
    as [H _].
  - reflexivity.
  - reflexivity.
  - do 2 eexists. repeat split; reflexivity.
  - do 2 eexists. repeat split; reflexivity.
  - vm_compute. reflexivity.
  - apply H. discriminate.
Defined.

Lemma stored_Date_never_blocks_witness :
  lastUpdated (iceCream (Some ["frozen"%string]) 4 2 (at_ jan15) (at_ jan15))
    = lastUpdated (iceCream (Some ["frozen"%string]) 5 1 (at_ jan15) (at_ jan15)) /\
  exists w',
    buildUpdatedProduct nzdt someCategories 1 2 sameInstant =
      (Normal (mkProductResponse PriceChanged 1), w').
Proof.
  split; [reflexivity|].
  apply (stored_Date_never_blocks nzdt someCategories 1 2 sameInstant
           (iceCream (Some ["frozen"%string]) 5 1 (at_ jan15) (at_ jan15))
           (iceCream (Some ["frozen"%string]) 4 2 (at_ jan15) (at_ jan15))
           (JsDate.ValidDate jan15) jan15 2
           [Some (mkDatedPrice (at_ jan15) 4)]
           [Some (mkDatedPrice (at_ jan15) 5)]).
  all: vm_compute; reflexivity.
Defined.

(** The same through the table: a product is scraped and inserted, and
    scraped again an hour later at another price. *)
Example same_day_rescrape_is_PriceChanged :
  let w1 := snd (playwrightElementToProduct keepCase numberOf listing
                   ["frozen"%string] jan15 jan15 jan15 emptyWorld) in
  let w2 := snd (upsertProductToMySQL nzdt someCategories 1 w1) in
  let later := (jan15 + 3600000)%Z in
  let again := playwrightElementToProduct keepCase numberOf listingDearer
                 ["frozen"%string] later later later w2 in
  fst (upsertProductToMySQL nzdt someCategories 1 w1) = Normal NewProduct /\
  match fst again with
  | Normal (Some sp) =>
      fst (upsertProductToMySQL nzdt someCategories sp (snd again))
  | _ => Throw TypeError
  end = Normal PriceChanged.
Proof. vm_compute. split; reflexivity. Qed.

Lemma new_product_is_inserted_witness :
  exists w2,
    upsertProductToMySQL nzdt someCategories 1
      (snd (playwrightElementToProduct keepCase numberOf listing
              ["frozen"%string] jan15 jan15 jan15 emptyWorld))
      = (Normal NewProduct, w2) /\
    table w2 !! "282750"%string =
      Some (mkRow "282750" "vanilla ice cream tub" (Some ["frozen"%string])
                  "countdown.co.nz" (Some "2L"%string) None None None 4.5
                  (Some [Some (mkDatedPrice (at_ jan15) 4.5)])
                  (at_ jan15) (at_ jan15)).
Proof.
  apply (new_product_is_inserted nzdt someCategories keepCase numberOf listing
           ["frozen"%string] jan15 jan15 jan15 emptyWorld 1%positive
           (snd (playwrightElementToProduct keepCase numberOf listing
                   ["frozen"%string] jan15 jan15 jan15 emptyWorld))
           scrapedListing "282750"%string).
  - vm_compute. reflexivity.
  - vm_compute. reflexivity.
  - reflexivity.
  - vm_compute. reflexivity.
  - intros k _. vm_compute. destruct k; discriminate.
Defined.

Lemma price_change_extends_ledger_witness :
  exists p hist',
    objs (snd (buildUpdatedProduct nzdt someCategories 1 2 laterPriceChange))
      !! 1%positive = Some p /\
    priceHistory p = Some 2%positive /\
    arrs (snd (buildUpdatedProduct nzdt someCategories 1 2 laterPriceChange))
      !! 2%positive = Some hist' /\
    length hist' = 2%nat /\
    last hist' = Some (Some (mkDatedPrice (at_ jan15) 4.5)) /\
    take 1 hist' = [Some (mkDatedPrice (DateText "2024-01-10T09:00:00.000Z") 4)] /\
    price (mkDatedPrice (at_ jan15) 4.5) = 4.5%float /\
    currentPrice p = 4.5%float.
Proof.
  apply (price_change_extends_ledger nzdt someCategories 1 2 laterPriceChange
           (mkProductResponse PriceChanged 1)
           (snd (buildUpdatedProduct nzdt someCategories 1 2 laterPriceChange))
           (iceCream (Some ["frozen"%string]) 4.5 1 (at_ jan15) (at_ jan15))
           (iceCream (Some ["frozen"%string]) 4 2 (at_ jan10)
                     (DateText "2024-01-10T09:00:00.000Z"))
           2%positive
           [Some (mkDatedPrice (DateText "2024-01-10T09:00:00.000Z") 4)]
           (mkDatedPrice (at_ jan15) 4.5)).
  - reflexivity.
  - reflexivity.
  - reflexivity.
  - reflexivity.
  - do 2 eexists. repeat split; reflexivity.
  - vm_compute. reflexivity.
  - reflexivity.
Defined.

Lemma absent_categories_throw_witness :
  category (iceCream None 4 2 (at_ jan10) (DateText "2024-01-10T09:00:00.000Z"))
    = None /\
  buildUpdatedProduct nzdt someCategories 1 2 absentCategories
    = (Throw TypeError, absentCategories).
Proof.
  split; [reflexivity|].
  apply (absent_categories_throw nzdt someCategories 1 2 absentCategories
           (iceCream (Some ["frozen"%string]) 4 1 (at_ jan15) (at_ jan15))
           (iceCream None 4 2 (at_ jan10) (DateText "2024-01-10T09:00:00.000Z"))
           "2024-01-10T09:00:00.000Z" "2024-01-15T09:00:00.000Z").
  all: vm_compute; reflexivity.
Defined.

(** C6 fails as stated: the scraped category [tubs] is not a valid one.
    The first reconciliation reports the price change; the second one,
    of an identical scraped product against the returned product,
    reports [InfoChanged]. *)
Lemma second_reconciliation_InfoChanged_again :
  objs unknownScrapedCategory !! 1%positive
    = Some (iceCream (Some ["tubs"%string]) 4.5 1 (at_ jan15) (at_ jan15)) /\
  fst (buildUpdatedProduct nzdt someCategories 1 2 unknownScrapedCategory)
    = Normal (mkProductResponse PriceChanged 1) /\
  objs (snd (buildUpdatedProduct nzdt someCategories 1 2 unknownScrapedCategory))
    !! 3%positive
    = Some (iceCream (Some ["tubs"%string]) 4.5 3 (at_ jan15) (at_ jan15)) /\
  arrs (snd (buildUpdatedProduct nzdt someCategories 1 2 unknownScrapedCategory))
    !! 3%positive
    = arrs unknownScrapedCategory !! 1%positive /\
  fst (buildUpdatedProduct nzdt someCategories 3 1
         (snd (buildUpdatedProduct nzdt someCategories 1 2 unknownScrapedCategory)))
    = Normal (mkProductResponse InfoChanged 3).
Proof. repeat split; vm_compute; reflexivity. Qed.

Lemma second_reconciliation_up_to_date_witness :
  exists w'',
    buildUpdatedProduct nzdt someCategories 3 1
      (snd (buildUpdatedProduct nzdt someCategories 1 2 laterPriceChange))
    = (Normal (mkProductResponse AlreadyUpToDate 1), w'').
Proof.
  apply (second_reconciliation_up_to_date nzdt someCategories 1 2 laterPriceChange
           (mkProductResponse PriceChanged 1)
           (snd (buildUpdatedProduct nzdt someCategories 1 2 laterPriceChange))
           (iceCream (Some ["frozen"%string]) 4.5 1 (at_ jan15) (at_ jan15))
           3%positive
           (iceCream (Some ["frozen"%string]) 4.5 3 (at_ jan15) (at_ jan15))).
  - reflexivity.
  - vm_compute. reflexivity.
  - right. exists ["frozen"%string]. split; reflexivity.
  - vm_compute. reflexivity.
  - reflexivity.
  - reflexivity.
Defined.

(** In [upsertProductToMySQL] the failures C7 names are reported as
    [Failed]: a stored date that is [null], stored categories that are
    [null], a statement that fails. *)
Example null_stored_date_is_Failed :
  fst (upsertProductToMySQL nzdt someCategories 1 withUndatedRow) = Normal Failed.
Proof. vm_compute. reflexivity. Qed.

Example null_stored_categories_are_Failed :
  fst (upsertProductToMySQL nzdt someCategories 1 withUncategorisedRow)
    = Normal Failed.
Proof. vm_compute. reflexivity. Qed.

Example failing_statement_is_Failed :
  fst (upsertProductToMySQL nzdt someCategories 1
         (with_faults [true] withStoredRow)) = Normal Failed /\
  fst (upsertProductToMySQL nzdt someCategories 1
         (with_faults [false; true] withStoredRow)) = Normal Failed.
Proof. split; vm_compute; reflexivity. Qed.

Lemma frappe_failed_POST_propagates_witness :
  exists w',
    upsertProductToFrappe 1 frappeDown = (Throw (AxiosError (Some 500)), w').
Proof.
  apply (frappe_failed_POST_propagates 1 frappeDown
           (iceCream (Some ["frozen"%string]) 4 1 (at_ jan15) (at_ jan15))
           (Some 500) []).
  - reflexivity.
  - reflexivity.
Defined.

Lemma upsert_keeps_stored_lastChecked_witness :
  fst (upsertProductToMySQL nzdt someCategories 1 withStoredRow)
    = Normal AlreadyUpToDate /\
  lastChecked (iceCream (Some ["frozen"%string]) 4 1 (at_ jan15) (at_ jan15))
    = at_ jan15 /\
  exists row',
    table (snd (upsertProductToMySQL nzdt someCategories 1 withStoredRow))
      !! "282750"%string = Some row' /\
    r_lastChecked row' = at_ jan10.
Proof.
  split; [vm_compute; reflexivity|]. split; [reflexivity|].
  apply (upsert_keeps_stored_lastChecked nzdt someCategories 1 withStoredRow
           (Normal AlreadyUpToDate)
           (snd (upsertProductToMySQL nzdt someCategories 1 withStoredRow))
           "282750"%string storedRow).
  - vm_compute. reflexivity.
  - reflexivity.
Defined.

Lemma frappe_returns_Updated_witness :
  exists w',
    upsertProductToFrappe 1 frappeUp = (Normal Updated, w') /\
    ~ In Updated decisions /\
    forall c, failedCount (count Updated c) = S (failedCount c).
Proof.
  apply (frappe_returns_Updated 1 frappeUp
           (iceCream (Some ["frozen"%string]) 4 1 (at_ jan15) (at_ jan15)) []).
  - reflexivity.
  - reflexivity.
Defined.

End Instances.
(* ------------------------------------------------------------------ *)
(** ** More facts about the string operations *)

Section MoreStringFacts.
Import JsString UrlVocabulary.

Lemma has_char_append (c : ascii) (a b : string) :
  has_char c (a +:+ b) = has_char c a || has_char c b.
Proof.
  induction a as [|x a IH]; [reflexivity|].
  rewrite append_cons. cbn [has_char]. rewrite IH. apply orb_assoc.
Qed.

Lemma prefix_single_cons (c d : ascii) (t : string) :
  String.prefix (String c "") (String d t) = Ascii.eqb c d.
Proof.
  cbn [String.prefix].
  destruct (ascii_dec c d) as [->|Hne].
  - rewrite Ascii.eqb_refl. apply prefix_empty.
  - symmetry. now apply Ascii.eqb_neq.
Qed.

Lemma includes_single (c : ascii) (s : string) :
  includes s (String c "") = has_char c s.
Proof.
  induction s as [|d t IH]; [reflexivity|].
  cbn [includes has_char]. now rewrite prefix_single_cons, IH.
Qed.

Lemma prefix_has_char (c : ascii) (w s : string) :
  String.prefix w s = true -> has_char c w = true -> has_char c s = true.
Proof.
  revert s. induction w as [|x w IH]; intros s Hp Hc; [discriminate|].
  destruct s as [|y s]; [discriminate|].
  apply prefix_cons in Hp as [-> Hp]. cbn [has_char] in *.
  apply orb_true_iff in Hc as [Hc|Hc]; apply orb_true_iff; [now left|right].
  now apply IH.
Qed.

Lemma includes_has_char (c : ascii) (w s : string) :
  includes s w = true -> has_char c w = true -> has_char c s = true.
Proof.
  intros Hi Hc. induction s as [|y s IH]; cbn [includes] in Hi.
  - rewrite orb_false_r in Hi. now apply (prefix_has_char c w "").
  - apply orb_true_iff in Hi as [Hp|Hi].
    + now apply (prefix_has_char c w).
    + cbn [has_char]. rewrite IH by assumption. apply orb_true_r.
Qed.

(** The sections [split] cuts at a separator of one code unit do not
    contain it. *)
Lemma split_go_free (c : ascii) (s cur : string) :
  has_char c cur = false ->
  Forall (fun sec => has_char c sec = false) (split_go (String c "") 0 cur s).
Proof.
  revert cur. induction s as [|d t IH]; intros cur Hcur; cbn [split_go].
  - now constructor.
  - rewrite prefix_single_cons. destruct (Ascii.eqb c d) eqn:E.
    + constructor; [assumption|]. cbn [String.length Nat.sub]. now apply IH.
    + apply IH. rewrite has_char_append, Hcur. cbn [has_char]. now rewrite E.
Qed.

Lemma split_free (c : ascii) (s : string) :
  Forall (fun sec => has_char c sec = false) (split s (String c "")).
Proof. now apply split_go_free. Qed.

(** A string without the separator is its own single section. *)
Lemma split_go_whole (c : ascii) (s cur : string) :
  has_char c s = false -> split_go (String c "") 0 cur s = [cur +:+ s].
Proof.
  revert cur. induction s as [|d t IH]; intros cur H; cbn [split_go].
  - now rewrite append_empty_r.
  - cbn [has_char] in H. apply orb_false_iff in H as [E H].
    rewrite prefix_single_cons, E, IH by assumption.
    now rewrite append_assoc.
Qed.

Lemma split_whole (c : ascii) (s : string) :
  has_char c s = false -> split s (String c "") = [s].
Proof. intros H. unfold split. now rewrite split_go_whole. Qed.

(** The first section is what stands before the first separator. *)
Lemma split_go_first (c : ascii) (a b cur : string) :
  has_char c a = false ->
  hd "" (split_go (String c "") 0 cur (a +:+ String c b)) = cur +:+ a.
Proof.
  revert cur. induction a as [|d t IH]; intros cur H.
  - rewrite append_nil_l, append_empty_r. cbn [split_go].
    now rewrite prefix_single_cons, Ascii.eqb_refl.
  - cbn [has_char] in H. apply orb_false_iff in H as [E H].
    rewrite append_cons. cbn [split_go].
    rewrite prefix_single_cons, E, IH by assumption.
    now rewrite append_assoc.
Qed.

Lemma upTo_free (c : ascii) (s : string) : has_char c (upTo c s) = false.
Proof.
  induction s as [|d t IH]; [reflexivity|]. cbn [upTo].
  destruct (Ascii.eqb c d) eqn:E; [reflexivity|].
  cbn [has_char]. now rewrite E, IH.
Qed.

Lemma indexOf_single (c : ascii) (s : string) :
  indexOf s (String c "") =
    if has_char c s then Z.of_nat (String.length (upTo c s)) else -1.
Proof.
  induction s as [|d t IH]; [reflexivity|].
  cbn [indexOf has_char upTo]. rewrite prefix_single_cons.
  destruct (Ascii.eqb c d); [reflexivity|]. cbn [orb].
  rewrite IH. destruct (has_char c t).
  - cbn [String.length]. 
    destruct (Z.ltb_spec (Z.of_nat (String.length (upTo c t))) 0); lia.
  - reflexivity.
Qed.

Lemma substring_upTo (c : ascii) (s : string) :
  String.substring 0 (String.length (upTo c s)) s = upTo c s.
Proof.
  induction s as [|d t IH]; [reflexivity|]. cbn [upTo].
  destruct (Ascii.eqb c d); [reflexivity|].
  cbn [String.length String.substring]. now rewrite IH.
Qed.

Lemma length_upTo (c : ascii) (s : string) :
  (String.length (upTo c s) <= String.length s)%nat.
Proof.
  induction s as [|d t IH]; [reflexivity|]. cbn [upTo].
  destruct (Ascii.eqb c d); cbn [String.length]; lia.
Qed.

Lemma substring_zero (s : string) : String.substring 0 0 s = "".
Proof. destruct s; reflexivity. Qed.

(** [line.substring(0, line.indexOf(c))] *)
Lemma substring_indexOf (c : ascii) (s : string) :
  substring s 0 (indexOf s (String c "")) =
    if has_char c s then upTo c s else "".
Proof.
  unfold substring, clamp. rewrite indexOf_single.
  pose proof (length_upTo c s) as Hlen.
  destruct (has_char c s).
  - replace (Z.max 0 (Z.min 0 _)) with 0 by lia.
    replace (Z.max 0 (Z.min (Z.of_nat (String.length (upTo c s))) _))
      with (Z.of_nat (String.length (upTo c s))) by lia.
    rewrite Z.min_l, Z.max_r, Z.sub_0_r, Nat2Z.id by lia.
    apply substring_upTo.
  - replace (Z.max 0 (Z.min 0 _)) with 0 by lia.
    replace (Z.max 0 (Z.min (-1) _)) with 0 by lia.
    apply substring_zero.
Qed.

Lemma prefix_app (w a b : string) :
  String.prefix w a = true -> String.prefix w (a +:+ b) = true.
Proof.
  revert a. induction w as [|x w IH]; intros a H; [apply prefix_empty|].
  destruct a as [|y a]; [discriminate|].
  apply prefix_cons in H as [-> H]. rewrite append_cons.
  apply prefix_cons. split; [reflexivity|now apply IH].
Qed.

Lemma drop_app (w a b : string) :
  String.prefix w a = true ->
  drop (String.length w) (a +:+ b) = drop (String.length w) a +:+ b.
Proof.
  revert a. induction w as [|x w IH]; intros a H; [reflexivity|].
  destruct a as [|y a]; [discriminate|].
  apply prefix_cons in H as [-> H]. rewrite append_cons.
  cbn [String.length drop]. now apply IH.
Qed.

(** A pattern that does not contain [ch] and does not occur after it
    is replaced before it, or not at all. *)
Lemma replace_before (ch : ascii) (pat rep a b : string) :
  has_char ch pat = false -> pat <> "" ->
  replace b pat rep = b ->
  replace (a +:+ String ch b) pat rep = replace a pat rep +:+ String ch b.
Proof.
  intros Hch Hpat Hb. induction a as [|y a IH].
  - rewrite append_nil_l. cbn [replace].
    destruct pat as [|x w]; [contradiction|].
    cbn [has_char] in Hch. apply orb_false_iff in Hch as [Hx _].
    assert (String.prefix (String x w) (String ch b) = false) as ->.
    { destruct (String.prefix (String x w) (String ch b)) eqn:E; [|reflexivity].
      apply prefix_cons in E as [-> _]. now rewrite Ascii.eqb_refl in Hx. }
    assert (String.prefix (String x w) "" = false) as -> by reflexivity.
    now rewrite Hb.
  - rewrite append_cons. cbn [replace].
    destruct (String.prefix pat (String y a)) eqn:E.
    + rewrite <- append_cons, (prefix_app _ _ _ E), (drop_app _ _ _ E).
      now rewrite append_assoc.
    + destruct (String.prefix pat (String y (a +:+ String ch b))) eqn:E'.
      * rewrite <- append_cons in E'.
        apply (prefix_stops_at ch) in E'; [congruence|assumption].
      * now rewrite IH, append_cons.
Qed.

Lemma drop_has_char (c : ascii) (n : nat) (s : string) :
  has_char c s = false -> has_char c (drop n s) = false.
Proof.
  revert s. induction n as [|n IH]; intros s H; [assumption|].
  destruct s as [|d t]; [reflexivity|]. cbn [drop]. apply IH.
  cbn [has_char] in H. now apply orb_false_iff in H as [_ H].
Qed.

Lemma replace_has_char (c : ascii) (s pat : string) :
  has_char c s = false -> has_char c (replace s pat "") = false.
Proof.
  induction s as [|d t IH]; intros H; cbn [replace].
  - destruct (String.prefix pat ""); [|reflexivity].
    rewrite append_nil_l. now apply drop_has_char.
  - destruct (String.prefix pat (String d t)).
    + rewrite append_nil_l. now apply drop_has_char.
    + cbn [has_char] in *. apply orb_false_iff in H as [-> H]. now apply IH.
Qed.

Lemma drop_all (s : string) : drop (String.length s) s = "".
Proof. induction s as [|c s IH]; [reflexivity|exact IH]. Qed.

Lemma prefix_refl (s : string) : String.prefix s s = true.
Proof.
  induction s as [|c s IH]; [reflexivity|].
  apply prefix_cons. now split.
Qed.

(** Removing a suffix that starts with a code unit the rest does not
    contain. *)
Lemma replace_suffix (ch : ascii) (a q : string) :
  has_char ch a = false ->
  replace (a +:+ String ch q) (String ch q) "" = a.
Proof.
  intros H. induction a as [|y a IH].
  - rewrite append_nil_l. cbn [replace].
    rewrite prefix_refl, append_nil_l. apply drop_all.
  - cbn [has_char] in H. apply orb_false_iff in H as [Hy H].
    rewrite append_cons. cbn [replace].
    assert (String.prefix (String ch q) (String y (a +:+ String ch q)) = false) as ->.
    { destruct (String.prefix _ _) eqn:E; [|reflexivity].
      apply prefix_cons in E as [-> _]. now rewrite Ascii.eqb_refl in Hy. }
    now rewrite IH.
Qed.

End MoreStringFacts.

(* ------------------------------------------------------------------ *)
(** ** [parseAndCategoriseURL]: categories and query *)

Section MoreParseFacts.
Import JsString UrlVocabulary.
Variable line : string.

Lemma parseSection_site_queried (cu : CategorisedUrl) (sec : string) :
  includes sec siteMarker = true ->
  queried (url (parseSection line cu sec)).
Proof.
  intros H. unfold parseSection. rewrite H. cbn [url].
  eexists. split; [reflexivity|].
  rewrite includes_single.
  destruct (has_char "?" (if startsWith sec "http" then sec else "https://" +:+ sec)) eqn:E;
    [|exact E].
  rewrite (substring_indexOf "?" line).
  destruct (has_char "?" line); [apply upTo_free|reflexivity].
Qed.

Lemma fold_parseSection_queried (l : list string) (cu : CategorisedUrl) :
  queried (url cu) \/ (exists sec, In sec l /\ includes sec siteMarker = true) ->
  queried (url (fold_left (parseSection line) l cu)).
Proof.
  revert cu. induction l as [|sec l IH]; intros cu H; cbn [fold_left].
  - destruct H as [H|(sec & [] & _)]. exact H.
  - apply IH. destruct (includes sec siteMarker) eqn:Hs.
    + left. now apply parseSection_site_queried.
    + destruct H as [H|(sec' & [<-|Hin] & Hsec')].
      * left. now rewrite parseSection_other_url.
      * congruence.
      * right. eauto.
Qed.

Lemma parseSection_one_category (cu : CategorisedUrl) (sec : string) :
  has_char " " sec = false ->
  (length (categories cu) <= 1)%nat ->
  (length (categories (parseSection line cu sec)) <= 1)%nat.
Proof.
  intros Hsec Hcu. unfold parseSection.
  destruct (includes sec siteMarker); [exact Hcu|].
  destruct (startsWith sec "categories="); [|exact Hcu].
  destruct (includes sec ", ") eqn:E; [|cbn; lia].
  apply (includes_has_char " ") in E; [congruence|reflexivity].
Qed.

Lemma fold_parseSection_one_category (l : list string) (cu : CategorisedUrl) :
  Forall (fun sec => has_char " " sec = false) l ->
  (length (categories cu) <= 1)%nat ->
  (length (categories (fold_left (parseSection line) l cu)) <= 1)%nat.
Proof.
  intros Hl. revert cu. induction Hl as [|sec l Hsec _ IH]; intros cu H; cbn [fold_left].
  - exact H.
  - apply IH. now apply parseSection_one_category.
Qed.

End MoreParseFacts.

(** X1.  [parseAndCategoriseURL] never returns more or fewer than one
    category.  The line is split at spaces before a section is looked
    at, so a section never contains the [', '] at which the code would
    split a list of categories: of [categories=a, b] only [a,] is
    kept, and [categories=a,b] is the single category [a,b]. *)
Theorem parseAndCategoriseURL_one_category (line : string) (cu : CategorisedUrl) :
  parseAndCategoriseURL line = Some cu -> length (categories cu) = 1%nat.
Proof.
  unfold parseAndCategoriseURL.
  destruct (JsString.includes line siteMarker); cbn [negb]; [|discriminate].
  intros [= <-].
  set (cu0 := fold_left (parseSection line) (JsString.split line " ") _).
  assert (H : (length (categories cu0) <= 1)%nat).
  { apply fold_parseSection_one_category; [apply (split_free " ")|cbn; lia]. }
  destruct (Nat.eqb_spec (length (categories cu0)) 0) as [E|E]; [reflexivity|lia].
Qed.

(** X2.  The url of every defined result is a text without [?]
    followed by the optimised query: it has exactly one [?], however
    many the line had. *)
Theorem parseAndCategoriseURL_single_query (line : string) (cu : CategorisedUrl) :
  parseAndCategoriseURL line = Some cu ->
  exists base,
    url cu = base +:+ optimisedQuery /\ JsString.has_char "?" base = false.
Proof.
  unfold parseAndCategoriseURL.
  destruct (JsString.includes line siteMarker) eqn:Hinc; cbn [negb]; [|discriminate].
  intros [= <-].
  set (cu0 := fold_left (parseSection line) (JsString.split line " ") _).
  assert (H : UrlVocabulary.queried (url cu0)).
  { apply fold_parseSection_queried. right. now apply includes_split_space. }
  destruct (length (categories cu0) =? 0)%nat; exact H.
Qed.

(** X3.  A line that is one word containing ['countdown.co.nz'], in
    closed form.  Without [?] the url is the line, with ['https://']
    put before it unless it starts with ['http'], and the optimised
    query after it.  With [?] the url is the line up to its first [?]
    and the optimised query: the scheme that was put before the section
    is lost again, because the text is cut from [line] and not from
    the url.  The category is the last [/]-section of the url before
    the query. *)
Theorem parseAndCategoriseURL_single_section (line : string) :
  JsString.has_char " " line = false ->
  JsString.includes line siteMarker = true ->
  let base :=
    if JsString.has_char "?" line then UrlVocabulary.upTo "?" line
    else if JsString.startsWith line "http" then line
    else "https://" +:+ line in
  parseAndCategoriseURL line =
    Some (mkCategorisedUrl (base +:+ optimisedQuery)
                           [List.last (JsString.split base "/") ""]).
Proof.
  intros Hsp Hinc base. unfold parseAndCategoriseURL. rewrite Hinc. cbn [negb].
  rewrite (split_whole " ") by assumption. cbn [fold_left].
  unfold parseSection. rewrite Hinc. cbn [categories url length Nat.eqb].
  rewrite includes_single.
  assert (Hu : JsString.has_char "?"
                 (if JsString.startsWith line "http" then line else "https://" +:+ line)
               = JsString.has_char "?" line).
  { destruct (JsString.startsWith line "http"); [reflexivity|].
    now rewrite has_char_append. }
  rewrite Hu, (substring_indexOf "?" line).
  fold base.
  assert (Hb : (if JsString.has_char "?" line
                then if JsString.has_char "?" line then UrlVocabulary.upTo "?" line else ""
                else if JsString.startsWith line "http" then line else "https://" +:+ line)
               = base).
  { subst base. destruct (JsString.has_char "?" line); reflexivity. }
  rewrite Hb.
  assert (Hfree : JsString.has_char "?" base = false).
  { subst base. destruct (JsString.has_char "?" line) eqn:E; [apply upTo_free|].
    now rewrite <- Hu in E. }
  unfold JsString.split at 2.
  change optimisedQuery with (String "?" "page=1&size=48&inStockProductsOnly=true").
  rewrite (split_go_first "?") by assumption.
  now rewrite append_nil_l.
Qed.

(** X4.  The progress line of the scrape loop shows the url of a parsed
    line without its query: the second [replace] removes exactly the
    optimised query that [parseAndCategoriseURL] appended, and the
    label has no [?] left. *)
Theorem scrapingLabel_strips_query (line : string) (cu : CategorisedUrl) :
  parseAndCategoriseURL line = Some cu ->
  scraper.scrapingLabel (url cu) +:+ optimisedQuery
    = JsString.replace (url cu) "https://www." "" /\
  JsString.has_char "?" (scraper.scrapingLabel (url cu)) = false.
Proof.
  unfold parseAndCategoriseURL.
  destruct (JsString.includes line siteMarker) eqn:Hinc; cbn [negb]; [|discriminate].
  intros [= <-].
  set (cu0 := fold_left (parseSection line) (JsString.split line " ") _).
  assert (H : UrlVocabulary.queried (url cu0)).
  { apply fold_parseSection_queried. right. now apply includes_split_space. }
  assert (Hu : UrlVocabulary.queried (url (if (length (categories cu0) =? 0)%nat
                             then mkCategorisedUrl (url cu0)
                                    [List.last (JsString.split
                                       (hd "" (JsString.split (url cu0) "?")) "/") ""]
                             else cu0))).
  { destruct (length (categories cu0) =? 0)%nat; exact H. }
  destruct Hu as (base & -> & Hfree).
  unfold scraper.scrapingLabel.
  change "?page=1&size=48&inStockProductsOnly=true"%string with optimisedQuery.
  change optimisedQuery with (String "?" "page=1&size=48&inStockProductsOnly=true").
  rewrite (replace_before "?") by (reflexivity || discriminate).
  rewrite replace_suffix by now apply replace_has_char.
  split; [reflexivity|]. now apply replace_has_char.
Qed.
(* ------------------------------------------------------------------ *)
(** ** More about numbers *)

Section MoreFloatFacts.

Lemma SFcompare_antisym (x y : spec_float) :
  SFcompare y x = option_map CompOpp (SFcompare x y).
Proof.
  destruct x as [sx|sx| |sx mx ex], y as [sy|sy| |sy my ey]; cbn [SFcompare option_map];
    try (destruct sx); try (destruct sy); try reflexivity.
  all: rewrite (Z.compare_antisym ex ey); destruct (ex ?= ey)%Z; cbn [CompOpp];
    try reflexivity.
  all: change (Pos.compare_cont Eq mx my) with (mx ?= my)%positive;
    change (Pos.compare_cont Eq my mx) with (my ?= mx)%positive;
    rewrite (Pos.compare_antisym mx my); destruct (mx ?= my)%positive; reflexivity.
Qed.

Lemma SFcompare_refl (x : spec_float) :
  x <> S754_nan -> SFcompare x x = Some Eq.
Proof.
  destruct x as [s|s| |s m e]; cbn [SFcompare]; try (destruct s); try reflexivity;
    try contradiction; intros _.
  all: rewrite Z.compare_refl;
    change (Pos.compare_cont Eq m m) with (m ?= m)%positive;
    now rewrite Pos.compare_refl.
Qed.





Lemma is_nan_false (x : float) :
  PrimFloat.is_nan x = false <-> Prim2SF x <> S754_nan.
Proof.
  unfold PrimFloat.is_nan. rewrite FloatAxioms.eqb_spec. unfold SFeqb. split.
  - intros H E. rewrite E in H. discriminate.
  - intros H. now rewrite (SFcompare_refl _ H).
Qed.

(** [0 < x] is what is left of [x] when it is a number and not [x <= 0]. *)
Lemma positive_iff (x : float) :
  (0 <? x)%float = true <->
  (x <=? 0)%float = false /\ PrimFloat.is_nan x = false.
Proof.
  rewrite is_nan_false, ltb_spec, leb_spec. unfold SFltb, SFleb.
  rewrite (SFcompare_antisym (Prim2SF x) (Prim2SF 0)).
  change (Prim2SF 0) with (S754_zero false).
  destruct (Prim2SF x) as [s|s| |s m e]; cbn [SFcompare option_map CompOpp];
    try (destruct s); cbn; intuition congruence.
Qed.

(** [x <= c] is what is left of a number [x] when it is not [c < x]. *)
Lemma at_most_iff (x c : float) :
  PrimFloat.is_nan x = false -> PrimFloat.is_nan c = false ->
  ((x <=? c)%float = true <-> (c <? x)%float = false).
Proof.
  rewrite !is_nan_false, ltb_spec, leb_spec. unfold SFltb, SFleb.
  rewrite (SFcompare_antisym (Prim2SF x) (Prim2SF c)).
  intros Hx Hc.
  destruct (SFcompare (Prim2SF x) (Prim2SF c)) as [[]|] eqn:E; cbn; try intuition congruence.
  exfalso.
  destruct (Prim2SF x) as [s|s| |s m e], (Prim2SF c) as [s'|s'| |s' m' e'];
    cbn [SFcompare] in E; try discriminate; contradiction.
Qed.

End MoreFloatFacts.

(* ------------------------------------------------------------------ *)
(** ** index.ts: [validateProduct] and what it lets through *)

Section Validation.
Import typings Runtime index ProductVocabulary.

Lemma price_in_range (x : float) :
  (x <=? 0)%float || PrimFloat.is_nan x || (999 <? x)%float = false <->
  (0 <? x)%float = true /\ (x <=? 999)%float = true.
Proof.
  rewrite !orb_false_iff, positive_iff. split.
  - intros [[H1 H2] H3]. split; [auto|]. now apply at_most_iff.
  - intros [[H1 H2] H3]. split; [auto|]. now apply at_most_iff.
Qed.

(** X5.  [validateProduct] accepts a product exactly when its name has
    4 to 100 code units, it has an id of 2 to 20, and its price is a
    number above 0 and not above 999.  NaN fails the first comparison
    of the code and the explicit test both; a product without id is
    refused through the [catch]. *)
Theorem validateProduct_iff (p : Product) :
  validateProduct p = true <->
  (4 <= String.length (name p) <= 100)%nat /\
  (exists i, id p = Some i /\ (2 <= String.length i <= 20)%nat) /\
  (0 <? currentPrice p)%float = true /\
  (currentPrice p <=? 999)%float = true.
Proof.
  unfold validateProduct.
  destruct (Nat.ltb_spec (String.length (name p)) 4) as [H1|H1];
    [cbn [orb]; split; [discriminate|lia]|].
  destruct (Nat.ltb_spec 100 (String.length (name p))) as [H2|H2];
    [cbn [orb]; split; [discriminate|lia]|].
  cbn [orb].
  destruct (id p) as [i|].
  2: { split; [discriminate|]. intros (_&(i&?&_)&_). discriminate. }
  destruct (Nat.ltb_spec (String.length i) 2) as [H3|H3].
  { cbn [orb]. split; [discriminate|]. intros (_&(j&[= <-]&?)&_). lia. }
  destruct (Nat.ltb_spec 20 (String.length i)) as [H4|H4].
  { cbn [orb]. split; [discriminate|]. intros (_&(j&[= <-]&?)&_). lia. }
  cbn [orb].
  destruct (_ || _ || _) eqn:E.
  - split; [discriminate|]. intros (_&_&Hp).
    apply price_in_range in Hp. congruence.
  - apply price_in_range in E. split; [intros _|reflexivity].
    split; [lia|]. split; [|exact E]. exists i. split; [reflexivity|lia].
Qed.


Variable startCase : string -> string.
Variable Number : string -> float.


End Validation.
(* ------------------------------------------------------------------ *)
(** ** mysql.ts: what an upsert does to the table *)

Section UpsertTable.
Import typings Runtime mysql Vocabulary StoreVocabulary.
Variable env : JsDate.Locale.
Variable validCategories : list string.

(** A reference taken with [fresh] is not in use. *)
Lemma fresh_obj_unused (w : World) : objs w !! fresh (dom (objs w)) = None.
Proof. apply not_elem_of_dom, is_fresh. Qed.

Lemma fresh_arr_unused (w : World) : arrs w !! fresh (dom (arrs w)) = None.
Proof. apply not_elem_of_dom, is_fresh. Qed.

(** A reconciliation leaves the id of the scraped product alone. *)
Lemma buildUpdatedProduct_keeps_id sp dp w resp w' s :
  buildUpdatedProduct env validCategories sp dp w = (Normal resp, w') ->
  objs w !! sp = Some s -> dp <> sp ->
  exists s', objs w' !! sp = Some s' /\ id s' = id s.
Proof.
  intros H Hs Hne.
  apply buildUpdatedProduct_cases in H as (d&s0&?&?&Hd&Hs0&_&_&H).
  cbn zeta in H. simplify_eq.
  destruct H as [(_&?&?&?&_&_&_&_&->)|[(_&?&_&_&_&_&->)|(_&?&_&_&_&->)]];
    world_simpl.
  - rewrite lookup_insert_eq. eauto.
  - rewrite lookup_insert_eq. eauto.
  - rewrite lookup_insert_ne by assumption. eauto.
Qed.

(** The [if] branch of [upsertProductToMySQL], taken apart: unless the
    answer is [Failed], the row became an object [dp] with its own
    array, the reconciliation returned, and the UPDATE wrote the
    product it returned. *)
Lemma upsert_existing sp w c w' s i row :
  upsertProductToMySQL env validCategories sp w = (c, w') ->
  objs w !! sp = Some s -> id s = Some i -> table w !! i = Some row ->
  (c = Normal Failed /\ table w' = table w) \/
  exists w2 w3 dp resp p,
    objs w !! dp = None /\
    objs w2 = <[dp := storedProduct row ((fun _ => fresh (dom (arrs w))) <$> r_priceHistory row)]> (objs w) /\
    arrs w2 = match r_priceHistory row with
              | Some h => <[fresh (dom (arrs w)) := h]> (arrs w)
              | None => arrs w
              end /\
    buildUpdatedProduct env validCategories sp dp w2 = (Normal resp, w3) /\
    c = Normal (upsertType resp) /\
    objs w3 !! product resp = Some p /\
    table w' = alter (fun old => updatedRow old p (historyOf w3 p)) i (table w).
Proof.
  intros H Hs Hid Hrow. upsert_unfold.
  rewrite Hs, Hid in H. world_simpl.
  repeat (case_match; simplify_eq; world_simpl).
  all: try (left; split; reflexivity).
  all: try (left; split; [reflexivity|];
            match goal with
            | H : buildUpdatedProduct _ _ _ _ _ = _ |- _ =>
                apply buildUpdatedProduct_frame in H; world_simpl;
                destruct H as [H _]; now rewrite H
            end).
  all: right.
  all: match goal with
       | Hs0 : objs ?w0 !! ?sp0 = Some _,
         H : buildUpdatedProduct _ _ ?sp0 (fresh (dom (objs ?w0))) _ = _ |- _ =>
           assert (Hfresh : fresh (dom (objs w0)) <> sp0)
             by (intros E; pose proof (fresh_obj_unused w0) as F;
                 rewrite E in F; congruence)
       end.
  all: match goal with
       | H : buildUpdatedProduct _ _ _ ?dp ?w2 = (Normal ?resp, ?w3),
         Hp : objs ?w3 !! product ?resp = Some ?p,
         Hs0 : objs _ !! _ = Some ?s0 |- _ =>
           exists w2, w3, dp, resp, p;
           destruct (buildUpdatedProduct_keeps_id _ _ _ _ _ s0 H) as (s'&Hs'&Hid');
           [ world_simpl; rewrite lookup_insert_ne by assumption; assumption
           | assumption | ]
       end.
  all: simplify_eq; world_simpl.
  all: match goal with
       | H1 : id ?a = Some ?x, H2 : id ?a = id _, H3 : id _ = Some _ |- _ =>
           rewrite H2, H3 in H1; simplify_eq
       end.
  all: unfold historyOf.
  all: repeat match goal with
       | H : priceHistory _ = _ |- _ => rewrite H
       end; cbn [mbind option_bind].
  all: repeat match goal with
       | H : arrs _ !! _ = _ |- _ => rewrite H
       end.
  all: repeat match goal with
       | H : r_priceHistory _ = _ |- _ => rewrite H
       end.
  all: repeat (split; [first [apply fresh_obj_unused | reflexivity | eassumption]|]).
  all: match goal with
       | H : buildUpdatedProduct _ _ _ _ _ = _ |- _ =>
           destruct (buildUpdatedProduct_frame _ _ _ _ _ _ _ H) as [Ht _];
           world_simpl; rewrite Ht
       end.
  all: reflexivity.
Qed.

(** The ways an upsert can end, by what the table held. *)
Lemma upsert_table_cases sp w c w' :
  upsertProductToMySQL env validCategories sp w = (c, w') ->
  (c = Normal Failed /\ table w' = table w) \/
  exists s i,
    objs w !! sp = Some s /\ id s = Some i /\
    ((table w !! i = None /\ c = Normal NewProduct /\
      table w' = <[i := insertedRow i s (historyOf w s)]> (table w)) \/
     is_Some (table w !! i)).
Proof.
  intros H. upsert_unfold.
  repeat (case_match; simplify_eq; world_simpl).
  all: try (left; split; reflexivity).
  all: try (left; split; [reflexivity|];
            match goal with
            | H : buildUpdatedProduct _ _ _ _ _ = _ |- _ =>
                apply buildUpdatedProduct_frame in H; world_simpl;
                destruct H as [H _]; now rewrite H
            end).
  all: right; do 2 eexists; split; [first [eassumption|reflexivity]|];
         split; [eassumption|].
  all: try (right; eexists; first [eassumption|reflexivity]).
  all: left; split; [first [assumption|reflexivity]|]; split; [reflexivity|].
  all: unfold historyOf.
  all: repeat match goal with
       | H : priceHistory _ = _ |- _ => rewrite H
       end; cbn [mbind option_bind].
  all: repeat match goal with
       | H : arrs _ !! _ = _ |- _ => rewrite H
       end.
  all: reflexivity.
Qed.

(** X7.  An upsert that answers [Failed] has written nothing: whatever
    went wrong (a scraped product without id, a statement the driver
    refused, a reconciliation that threw, a duplicate key), the table
    is the one it was. *)
Theorem failed_upsert_writes_nothing sp w w' :
  upsertProductToMySQL env validCategories sp w = (Normal Failed, w') ->
  table w' = table w.
Proof.
  intros H.
  destruct (upsert_table_cases _ _ _ _ H)
    as [[_ ?]|(s&i&Hs&Hid&[(_&?&_)|[row Hrow]])]; [assumption|discriminate|].
  destruct (upsert_existing _ _ _ _ _ _ _ H Hs Hid Hrow)
    as [[_ ?]|(w2&w3&dp&resp&p&_&_&_&Hb&Hc&_)]; [assumption|].
  apply buildUpdatedProduct_decisions in Hb. simplify_eq.
  destruct Hb as [Hb|[Hb|Hb]]; congruence.
Qed.

(** X8.  What a decision says about the table.  When the answer is
    not [Failed], the scraped product has an id; the answer is
    [NewProduct] exactly when the table had no row for that id; and
    afterwards the table has one. *)
Theorem decision_tells_presence sp w d w' :
  upsertProductToMySQL env validCategories sp w = (Normal d, w') ->
  d <> Failed ->
  exists s i,
    objs w !! sp = Some s /\ id s = Some i /\
    (d = NewProduct <-> table w !! i = None) /\
    is_Some (table w' !! i).
Proof.
  intros H Hd.
  destruct (upsert_table_cases _ _ _ _ H)
    as [[? _]|(s&i&Hs&Hid&[(Hnone&?&Ht)|[row Hrow]])]; [congruence| |].
  - exists s, i. simplify_eq. repeat split; auto.
    rewrite Ht, lookup_insert_eq. eauto.
  - exists s, i. split; [assumption|]. split; [assumption|].
    destruct (upsert_existing _ _ _ _ _ _ _ H Hs Hid Hrow)
      as [[? _]|(w2&w3&dp&resp&p&_&_&_&Hb&Hc&_&Ht)]; [congruence|].
    apply buildUpdatedProduct_decisions in Hb. simplify_eq.
    split.
    + split; [|congruence].
      intros E. destruct Hb as [Hb|[Hb|Hb]]; congruence.
    + rewrite Ht, lookup_alter_eq, Hrow. cbn. eauto.
Qed.


(** X10.  When every row is stored under its own id, it still is
    after an upsert: the INSERT writes the id it was keyed with, and
    the UPDATE does not set the column. *)
Theorem upsert_keeps_rows_keyed sp w c w' :
  upsertProductToMySQL env validCategories sp w = (c, w') ->
  keyed (table w) -> keyed (table w').
Proof.
  intros H Hk k row'.
  destruct (upsert_table_cases _ _ _ _ H)
    as [[_ ->]|(s&i&Hs&Hid&[(Hnone&?&Ht)|[row Hrow]])]; [apply Hk| |].
  - rewrite Ht. destruct (decide (i = k)) as [->|Hne].
    + rewrite lookup_insert_eq. now intros [= <-].
    + rewrite lookup_insert_ne by assumption. apply Hk.
  - destruct (upsert_existing _ _ _ _ _ _ _ H Hs Hid Hrow)
      as [[_ ->]|(w2&w3&dp&resp&p&_&_&_&_&_&_&Ht)]; [apply Hk|].
    rewrite Ht. destruct (decide (i = k)) as [->|Hne].
    + rewrite lookup_alter_eq, Hrow. cbn. intros [= <-]. cbn. now apply Hk.
    + rewrite lookup_alter_ne by assumption. apply Hk.
Qed.

(** The three updates, row by row: what the UPDATE statement writes
    after each decision of [buildUpdatedProduct]. *)
Lemma upsert_existing_row sp w c w' s i row :
  upsertProductToMySQL env validCategories sp w = (c, w') ->
  objs w !! sp = Some s -> id s = Some i -> table w !! i = Some row ->
  (c = Normal Failed /\ table w' = table w) \/
  (c = Normal PriceChanged /\
   exists h sh,
     r_priceHistory row = Some h /\
     (historyOf w s = Some sh \/ historyOf w s = None /\ sh = h) /\
     table w' = <[i := updatedRow row s (Some (h ++ [mjoin (sh !! 0%nat)]))]> (table w)) \/
  (c = Normal InfoChanged /\
   table w' = <[i := updatedRow row (with_lastUpdated (r_lastUpdated row) s)
                                (r_priceHistory row)]> (table w)) \/
  (c = Normal AlreadyUpToDate /\ table w' = table w).
Proof.
  intros H Hs Hid Hrow.
  destruct (upsert_existing _ _ _ _ _ _ _ H Hs Hid Hrow)
    as [?|(w2&w3&dp&resp&p&Hdp&Ho2&Ha2&Hb&->&Hp&Ht)]; [auto|].
  right.
  assert (Hne : dp <> sp) by congruence.
  apply buildUpdatedProduct_cases in Hb as (d&s0&?&?&Hd&Hs0&_&_&Hb).
  cbn zeta in Hb.
  rewrite Ho2, lookup_insert_eq in Hd.
  rewrite Ho2, lookup_insert_ne, Hs in Hs0 by assumption.
  simplify_eq.
  assert (Halter : forall row', alter (fun _ => row') i (table w) = <[i := row']> (table w)).
  { intros row'. apply map_eq. intros k. destruct (decide (i = k)) as [->|].
    - now rewrite lookup_alter_eq, lookup_insert_eq, Hrow.
    - now rewrite lookup_alter_ne, lookup_insert_ne by assumption. }
  destruct Hb as [(_&r&hist&sh&Hr&Hhist&Hsh&->&->)
                 |[(_&cats&_&_&_&->&->)|(_&cats&_&_&->&->)]];
    world_simpl; rewrite lookup_insert_eq in Hp; simplify_eq.
  - left. split; [reflexivity|].
    cbn [storedProduct priceHistory] in Hr.
    destruct (r_priceHistory row) as [h|] eqn:Hh; [|discriminate].
    cbn in Hr. simplify_eq.
    rewrite Ha2, lookup_insert_eq in Hhist. simplify_eq.
    exists hist, sh. split; [reflexivity|].
    split.
    { unfold historyOf in *. destruct (priceHistory s0) as [rs|]; [|discriminate].
      cbn in *. rewrite Ha2 in Hsh.
      destruct (decide (fresh (dom (arrs w)) = rs)) as [<-|Hn].
      - rewrite lookup_insert_eq in Hsh. simplify_eq.
        right. split; [apply fresh_arr_unused|reflexivity].
      - rewrite lookup_insert_ne in Hsh by assumption. now left. }
    rewrite Ht. unfold historyOf. cbn [priceHistory with_priceHistory mbind option_bind].
    world_simpl. rewrite lookup_insert_eq.
    rewrite <- Halter. apply map_eq. intros k.
    destruct (decide (i = k)) as [->|].
    + rewrite !lookup_alter_eq, Hrow. reflexivity.
    + now rewrite !lookup_alter_ne by assumption.
  - right; left. split; [reflexivity|].
    rewrite Ht. unfold historyOf.
    cbn [priceHistory with_priceHistory with_lastUpdated storedProduct].
    rewrite <- Halter. apply map_eq. intros k.
    destruct (decide (i = k)) as [->|]; [|now rewrite !lookup_alter_ne by assumption].
    rewrite !lookup_alter_eq, Hrow. cbn [fmap option_fmap option_map].
    f_equal. unfold updatedRow; cbn. f_equal.
    rewrite Ha2. destruct (r_priceHistory row); cbn; [now rewrite lookup_insert_eq|reflexivity].
  - right; right. split; [reflexivity|].
    rewrite Ht. apply map_eq. intros k.
    destruct (decide (i = k)) as [->|]; [|now rewrite !lookup_alter_ne by assumption].
    rewrite lookup_alter_eq, Hrow. cbn [fmap option_fmap option_map].
    f_equal. unfold historyOf.
    cbn [priceHistory with_lastChecked storedProduct]. world_simpl.
    rewrite Ha2. destruct row as [? ? ? ? ? ? ? ? ? [h|] ? ?]; cbn.
    + now rewrite lookup_insert_eq.
    + reflexivity.
Qed.

(** X11.  The stored ledger only grows.  Whatever an upsert decides,
    a row that was in the table is still there, and its price history
    is the one it had or that one with a single entry added at the
    end; a [NULL] history stays [NULL]. *)
Theorem stored_ledger_only_grows sp w c w' j row :
  upsertProductToMySQL env validCategories sp w = (c, w') ->
  table w !! j = Some row ->
  exists row',
    table w' !! j = Some row' /\
    continues (r_priceHistory row) (r_priceHistory row').
Proof.
  intros H Hrow.
  assert (Hsame : table w' !! j = table w !! j ->
                  exists row', table w' !! j = Some row' /\
                    continues (r_priceHistory row) (r_priceHistory row')).
  { intros ->. exists row. split; [assumption|]. now left. }
  destruct (upsert_table_cases _ _ _ _ H)
    as [[_ Ht]|(s&i&Hs&Hid&[(Hnone&?&Ht)|[row0 Hrow0]])].
  - apply Hsame. now rewrite Ht.
  - apply Hsame. rewrite Ht, lookup_insert_ne; congruence.
  - destruct (upsert_existing_row _ _ _ _ _ _ _ H Hs Hid Hrow0)
      as [(_&Ht)|[(_&h&sh&Hh&_&Ht)|[(_&Ht)|(_&Ht)]]].
    + apply Hsame. now rewrite Ht.
    + destruct (decide (i = j)) as [->|Hne].
      * simplify_eq. rewrite Ht, lookup_insert_eq. eexists. split; [reflexivity|].
        right. cbn. eauto.
      * apply Hsame. now rewrite Ht, lookup_insert_ne.
    + destruct (decide (i = j)) as [->|Hne].
      * simplify_eq. rewrite Ht, lookup_insert_eq. eexists. split; [reflexivity|].
        now left.
      * apply Hsame. now rewrite Ht, lookup_insert_ne.
    + apply Hsame. now rewrite Ht.
Qed.

(** X12.  An upsert that answers [AlreadyUpToDate] leaves the table as
    it was: the UPDATE it runs writes back the values it read, and the
    [lastChecked] the reconciliation put on the object is not among
    the columns it sets. *)
Theorem up_to_date_upsert_is_noop sp w w' :
  upsertProductToMySQL env validCategories sp w = (Normal AlreadyUpToDate, w') ->
  table w' = table w.
Proof.
  intros H.
  destruct (upsert_table_cases _ _ _ _ H)
    as [[? _]|(s&i&Hs&Hid&[(_&?&_)|[row Hrow]])]; [discriminate..|].
  destruct (upsert_existing_row _ _ _ _ _ _ _ H Hs Hid Hrow)
    as [(?&_)|[(?&_)|[(?&_)|(_&Ht)]]]; try discriminate.
  assumption.
Qed.

(** X13.  What [PriceChanged] writes.  The row of the product keeps
    its id and its [lastChecked]; every other column is the scraped
    product's, and the price history is the stored one followed by the
    first entry of the scraped one. *)
Theorem price_change_is_written sp w w' s i sh :
  upsertProductToMySQL env validCategories sp w = (Normal PriceChanged, w') ->
  objs w !! sp = Some s -> id s = Some i ->
  historyOf w s = Some sh ->
  exists row h,
    table w !! i = Some row /\
    r_priceHistory row = Some h /\
    table w' !! i =
      Some (mkRow (r_id row) (name s) (category s) (sourceSite s) (size s)
                  (unitPrice s) (unitName s) (originalUnitQuantity s)
                  (currentPrice s) (Some (h ++ [mjoin (sh !! 0%nat)]))
                  (lastUpdated s) (r_lastChecked row)).
Proof.
  intros H Hs Hid Hsh.
  destruct (upsert_table_cases _ _ _ _ H)
    as [[? _]|(s0&i0&Hs0&Hid0&[(_&?&_)|[row Hrow]])]; [discriminate..|].
  simplify_eq.
  destruct (upsert_existing_row _ _ _ _ _ _ _ H Hs Hid Hrow)
    as [(?&_)|[(_&h&sh'&Hh&Hsh'&Ht)|[(?&_)|(?&_)]]]; try discriminate.
  destruct Hsh' as [Hsh'|[Hsh' _]]; [|congruence].
  simplify_eq.
  exists row, h. split; [assumption|]. split; [assumption|].
  rewrite Ht, lookup_insert_eq. reflexivity.
Qed.

(** X14.  What [InfoChanged] writes.  The descriptive columns and the
    price are the scraped product's; the price history, [lastUpdated]
    and [lastChecked] are the ones the row had.  A price that moved by
    five cents or less, or on the same day, is so written without a
    ledger entry. *)
Theorem info_change_is_written sp w w' s i :
  upsertProductToMySQL env validCategories sp w = (Normal InfoChanged, w') ->
  objs w !! sp = Some s -> id s = Some i ->
  exists row,
    table w !! i = Some row /\
    table w' !! i =
      Some (mkRow (r_id row) (name s) (category s) (sourceSite s) (size s)
                  (unitPrice s) (unitName s) (originalUnitQuantity s)
                  (currentPrice s) (r_priceHistory row)
                  (r_lastUpdated row) (r_lastChecked row)).
Proof.
  intros H Hs Hid.
  destruct (upsert_table_cases _ _ _ _ H)
    as [[? _]|(s0&i0&Hs0&Hid0&[(_&?&_)|[row Hrow]])]; [discriminate..|].
  simplify_eq.
  destruct (upsert_existing_row _ _ _ _ _ _ _ H Hs Hid Hrow)
    as [(?&_)|[(?&_)|[(_&Ht)|(?&_)]]]; try discriminate.
  exists row. split; [assumption|].
  rewrite Ht, lookup_insert_eq. reflexivity.
Qed.

End UpsertTable.
(* ------------------------------------------------------------------ *)
(** ** frappe.ts: requests and answers *)

Section FrappeProtocol.
Import typings Runtime frappe.


End FrappeProtocol.
(* ------------------------------------------------------------------ *)
(** ** index.ts: the pages to scrape *)

Section Arguments.
Import scraper.

Lemma fold_loadUrls (lines : list string) (urls : list CategorisedUrl) :
  fold_left
    (fun urls line =>
       match parseAndCategoriseURL line with
       | Some categorisedUrl => urls ++ [categorisedUrl]
       | None => urls
       end) lines urls
  = urls ++ omap parseAndCategoriseURL lines.
Proof.
  revert urls. induction lines as [|line lines IH]; intros urls; cbn [fold_left omap list_omap].
  - now rewrite app_nil_r.
  - rewrite IH. destruct (parseAndCategoriseURL line); [|reflexivity].
    now rewrite <- app_assoc.
Qed.

Lemma parse_None (line : string) :
  parseAndCategoriseURL line = None <-> JsString.includes line siteMarker = false.
Proof.
  unfold parseAndCategoriseURL.
  destruct (JsString.includes line siteMarker); cbn [negb]; split; congruence.
Qed.

(** X16.  The pages to scrape are the lines of urls.txt that parse, in
    the order of the file; a line without ['countdown.co.nz'] is
    passed over, and no other line is. *)
Theorem loadUrls_keeps_order (lines : list string) :
  loadUrls lines = omap parseAndCategoriseURL lines /\
  length (loadUrls lines)
    = length (filter (fun line => JsString.includes line siteMarker = true) lines).
Proof.
  unfold loadUrls. rewrite fold_loadUrls, app_nil_l. split; [reflexivity|].
  induction lines as [|line lines IH]; [reflexivity|].
  cbn [omap list_omap]. rewrite filter_cons.
  destruct (parseAndCategoriseURL line) eqn:E.
  - destruct (decide (JsString.includes line siteMarker = true)) as [_|Hn].
    + cbn [length]. now rewrite IH.
    + apply not_true_is_false, parse_None in Hn. congruence.
  - apply parse_None in E.
    destruct (decide (JsString.includes line siteMarker = true)); [congruence|exact IH].
Qed.

Lemma handleArgument_raises (s : Settings) (arg : string) (r : Raised) :
  handleArgument s arg = Raise r <->
  JsString.includes arg ".co.nz" = true /\
  JsString.includes arg siteMarker = false /\
  r = RaisedText ("URL invalid: " +:+ arg).
Proof.
  unfold handleArgument.
  destruct (String.eqb arg "dry-run-mode") eqn:E.
  { apply String.eqb_eq in E as ->. split; [discriminate|].
    intros (H&_). vm_compute in H. discriminate. }
  destruct (JsString.includes arg ".co.nz") eqn:Hnz.
  - destruct (parseAndCategoriseURL arg) eqn:Hp.
    + split; [discriminate|]. intros (_&H&_). apply parse_None in H. congruence.
    + apply parse_None in Hp. split.
      * intros [= <-]. auto.
      * intros (_&_&->). reflexivity.
  - split; [|intros (?&_); discriminate].
    destruct (String.eqb arg "reverse"); discriminate.
Qed.

Lemma skipn_nonempty_length {A : Type} (l : list A) (n : nat) :
  List.skipn n l <> [] -> (n <? length l)%nat = true.
Proof.
  intros H. apply Nat.ltb_lt. destruct (Nat.lt_ge_cases n (length l)) as [|Hge]; [assumption|].
  exfalso. apply H. now apply List.skipn_all2.
Qed.

Lemma forEachArgument_snoc (l : list string) (a : string) (s : Settings) :
  forEachArgument (l ++ [a]) s =
    match forEachArgument l s with
    | Done s' => handleArgument s' a
    | Raise r => Raise r
    end.
Proof.
  revert s. induction l as [|b l IH]; intros s; cbn [app forEachArgument].
  - destruct (handleArgument s a); reflexivity.
  - destruct (handleArgument s b); [apply IH|reflexivity].
Qed.

(** X17.  [handleArguments] throws exactly when a user argument
    contains ['.co.nz'] but not ['countdown.co.nz'], and what it throws
    is the text ['URL invalid: '] followed by such an argument.  The
    first two entries of [argv] are never looked at. *)
Theorem handleArguments_raises_iff (argv : list string) (s : Settings) :
  (forall r, handleArguments argv s = Raise r ->
     exists arg,
       In arg (List.skipn 2 argv) /\
       JsString.includes arg ".co.nz" = true /\
       JsString.includes arg siteMarker = false /\
       r = RaisedText ("URL invalid: " +:+ arg)) /\
  ((exists arg,
      In arg (List.skipn 2 argv) /\
      JsString.includes arg ".co.nz" = true /\
      JsString.includes arg siteMarker = false) ->
   exists r, handleArguments argv s = Raise r).
Proof.
  unfold handleArguments. split.
  - intros r. destruct (2 <? length argv)%nat; [|discriminate].
    generalize (List.skipn 2 argv) as userArgs. intros userArgs. revert s.
    induction userArgs as [|arg rest IH]; intros s; cbn [forEachArgument]; [discriminate|].
    destruct (handleArgument s arg) as [s'|r'] eqn:E.
    + intros H. destruct (IH _ H) as (a&Hin&?). exists a. split; [now right|assumption].
    + intros [= ->]. apply handleArgument_raises in E. exists arg. split; [now left|assumption].
  - intros (arg&Hin&Hnz&Hsite).
    rewrite skipn_nonempty_length by (intros E; rewrite E in Hin; destruct Hin).
    revert Hin. generalize (List.skipn 2 argv) as userArgs. intros userArgs. revert s.
    induction userArgs as [|a rest IH]; intros s; [intros []|].
    cbn [forEachArgument]. intros [->|Hin].
    + assert (E : handleArgument s arg = Raise (RaisedText ("URL invalid: " +:+ arg)))
        by now apply handleArgument_raises.
      rewrite E. eauto.
    + destruct (handleArgument s a); [now apply IH|eauto].
Qed.

Lemma handleArgument_plain (s : Settings) (arg : string) :
  JsString.includes arg ".co.nz" = false ->
  handleArgument s arg =
    Done (mkSettings (dryRunMode s || String.eqb arg "dry-run-mode")
                     (if String.eqb arg "reverse"
                      then rev (categorisedUrls s) else categorisedUrls s)).
Proof.
  intros H. unfold handleArgument. rewrite H.
  destruct (String.eqb arg "dry-run-mode") eqn:E.
  - apply String.eqb_eq in E as ->. cbn [String.eqb Ascii.eqb]. now rewrite orb_true_r.
  - rewrite orb_false_r. destruct s. destruct (String.eqb arg "reverse"); reflexivity.
Qed.

(** X18.  Without a url among the user arguments, [handleArguments]
    returns; dry-run mode is on when it was on or ['dry-run-mode'] is
    among them, and the pages are in reverse order when ['reverse']
    occurs an odd number of times, in the order they were otherwise:
    two ['reverse'] undo each other.  Any other argument is ignored. *)
Theorem handleArguments_flags (argv : list string) (s : Settings) :
  Forall (fun arg => JsString.includes arg ".co.nz" = false) (List.skipn 2 argv) ->
  handleArguments argv s =
    Done (mkSettings
            (dryRunMode s || existsb (fun arg => String.eqb arg "dry-run-mode")
                                     (List.skipn 2 argv))
            (if Nat.odd (length (filter (fun arg => arg = "reverse"%string)
                                        (List.skipn 2 argv)))
             then rev (categorisedUrls s) else categorisedUrls s)).
Proof.
  unfold handleArguments. intros Hall.
  destruct (2 <? length argv)%nat eqn:Hlen.
  2: { apply Nat.ltb_ge in Hlen. rewrite List.skipn_all2 by assumption.
       cbn. rewrite orb_false_r. now destruct s. }
  revert Hall. generalize (List.skipn 2 argv) as userArgs. intros userArgs Hall. revert s.
  induction Hall as [|arg rest Harg _ IH]; intros s.
  - cbn. rewrite orb_false_r. now destruct s.
  - cbn [forEachArgument]. rewrite handleArgument_plain by assumption.
    rewrite IH. cbn [dryRunMode categorisedUrls existsb].
    rewrite orb_assoc. f_equal. rewrite filter_cons.
    destruct (String.eqb arg "reverse") eqn:E.
    + apply String.eqb_eq in E. rewrite decide_True by assumption.
      cbn [length]. rewrite Nat.odd_succ, <- Nat.negb_odd.
      destruct (Nat.odd _); cbn [negb]; [now rewrite rev_involutive|reflexivity].
    + apply String.eqb_neq in E. now rewrite decide_False by assumption.
Qed.

(** X19.  When [handleArguments] returns and there is a url among the
    user arguments, the pages to scrape are the single page parsed
    from the last of them; the pages of urls.txt and any ['reverse']
    play no part. *)
Theorem handleArguments_url_override (argv : list string) (s s' : Settings) (arg : string) :
  handleArguments argv s = Done s' ->
  last (filter (fun arg => JsString.includes arg ".co.nz" = true) (List.skipn 2 argv))
    = Some arg ->
  exists parsedUrl,
    parseAndCategoriseURL arg = Some parsedUrl /\
    categorisedUrls s' = [parsedUrl].
Proof.
  unfold handleArguments.
  destruct (2 <? length argv)%nat eqn:Hlen.
  2: { apply Nat.ltb_ge in Hlen. rewrite List.skipn_all2 by assumption. discriminate. }
  generalize (List.skipn 2 argv) as userArgs. intros userArgs. revert s'.
  induction userArgs as [|a l IH] using rev_ind; intros s'; [discriminate|].
  rewrite forEachArgument_snoc, filter_app, filter_cons, filter_nil.
  destruct (forEachArgument l s) as [s1|] eqn:E1; [|discriminate].
  destruct (decide (JsString.includes a ".co.nz" = true)) as [Hnz|Hnz].
  - rewrite last_snoc. intros H [= <-]. revert H.
    unfold handleArgument. rewrite Hnz.
    destruct (String.eqb a "dry-run-mode") eqn:E.
    { apply String.eqb_eq in E as ->. vm_compute in Hnz. discriminate. }
    destruct (parseAndCategoriseURL a); [|discriminate].
    intros [= <-]. eauto.
  - rewrite app_nil_r. intros H Hlast.
    destruct (IH s1 eq_refl Hlast) as (cu&Hcu&Hs1).
    exists cu. split; [assumption|].
    apply not_true_is_false in Hnz.
    rewrite handleArgument_plain in H by assumption.
    injection H as <-. cbn [categorisedUrls]. rewrite Hs1.
    destruct (String.eqb a "reverse"); reflexivity.
Qed.

End Arguments.

(* ------------------------------------------------------------------ *)
(** ** index.ts: the scrape loop *)

Section Loop.
Import scraper LoopVocabulary.
Variable page : nat -> PageResult.

Lemma visits_snoc (total : nat) (pre : list CategorisedUrl) (cu : CategorisedUrl) :
  visits page total (pre ++ [cu]) =
    visits page total pre ++ visit page total (length pre) cu.
Proof.
  unfold visits. rewrite imap_app, concat_app. cbn [imap concat].
  now rewrite app_nil_r, Nat.add_0_r.
Qed.

(** While pages are left and none has crashed, every callback ends with
    the delay. *)
Lemma scrapePage_prefix (total : nat) (pre : list CategorisedUrl) :
  (forall n, (n <= length pre)%nat -> page n <> Crashed) ->
  (length pre < total)%nat ->
  fold_left (scrapePage page total) pre (mkChain 1 [] false) =
    mkChain (S (length pre)) (visits page total pre) false.
Proof.
  induction pre as [|cu pre IH] using rev_ind; intros Hok Hlt; [reflexivity|].
  rewrite length_app in *. cbn [length] in *.
  rewrite fold_left_app, IH by (intros; try apply Hok; lia).
  cbn [fold_left]. unfold scrapePage. cbn [rejected pagesScrapedCount events].
  rewrite visits_snoc. unfold visit.
  assert (Hp : page (S (length pre)) <> Crashed) by (apply Hok; lia).
  assert ((S (length pre) =? total)%nat = false) as -> by (apply Nat.eqb_neq; lia).
  replace (length pre + 1)%nat with (S (length pre)) by lia.
  destruct (page (S (length pre))); [| |contradiction];
    rewrite <- ?app_assoc; reflexivity.
Qed.

Lemma scrapePage_rejected (total : nat) (urls : list CategorisedUrl) (c : Chain) :
  rejected c = true -> fold_left (scrapePage page total) urls c = c.
Proof.
  intros H. induction urls as [|cu urls IH]; [reflexivity|].
  cbn [fold_left]. unfold scrapePage at 2. now rewrite H.
Qed.

(** X20.  The scrape loop when no page crashes.  The pages are
    announced in order, numbered from 1; after each page but the last
    the chain waits 11000 ms; after the last one, and only then, the
    browser is closed, and the counter ends one above the number of
    pages.  A page that timed out is logged as such and otherwise
    treated like any other. *)
Theorem scrapeAll_closes_after_last_page (pre : list CategorisedUrl) (cu : CategorisedUrl) :
  (forall n, page n <> Crashed) ->
  let total := S (length pre) in
  scrapeAll page (pre ++ [cu]) =
    mkChain (S total)
            (visits page total pre ++
             [Scraping total total (scrapingLabel (url cu))] ++
             match page total with
             | TimedOut => [PageTimeout]
             | _ => []
             end ++
             [CloseBrowser])
            false.
Proof.
  intros Hok total. unfold scrapeAll.
  rewrite length_app. cbn [length].
  replace (length pre + 1)%nat with total by (subst total; lia).
  rewrite fold_left_app, scrapePage_prefix by (intros; try apply Hok; subst total; lia).
  cbn [fold_left]. unfold scrapePage. cbn [rejected pagesScrapedCount events].
  fold total. rewrite Nat.eqb_refl.
  specialize (Hok total).
  destruct (page total); [| |contradiction]; rewrite <- ?app_assoc; reflexivity.
Qed.

(** X21.  The scrape loop when a page crashes, that is, when something
    outside its [try] throws.  The pages before it are scraped as
    usual; the chain is rejected at that page, no later page is
    announced, and the browser is not closed. *)
Theorem scrapeAll_stops_at_crash (pre post : list CategorisedUrl) (cu : CategorisedUrl) :
  (forall n, (n <= length pre)%nat -> page n <> Crashed) ->
  page (S (length pre)) = Crashed ->
  let total := length (pre ++ cu :: post) in
  scrapeAll page (pre ++ cu :: post) =
    mkChain (S (length pre))
            (visits page total pre ++
             [Scraping (S (length pre)) total (scrapingLabel (url cu))])
            true.
Proof.
  intros Hok Hcrash total. unfold scrapeAll. fold total.
  assert (Hlt : (length pre < total)%nat).
  { subst total. rewrite length_app. cbn [length]. lia. }
  rewrite fold_left_app, scrapePage_prefix by assumption.
  cbn [fold_left]. unfold scrapePage at 2. cbn [rejected pagesScrapedCount events].
  rewrite Hcrash. now apply scrapePage_rejected.
Qed.

End Loop.

Section Page.
Import typings index scraper PageVocabulary.

Lemma occurrences_cons (r x : UpsertResponse) (l : list UpsertResponse) :
  occurrences r (x :: l) = ((if decide (x = r) then 1 else 0) + occurrences r l)%nat.
Proof.
  unfold occurrences. rewrite filter_cons. destruct (decide (x = r)); reflexivity.
Qed.

(** X22.  The counters of a page account for every response exactly
    once.  Each of the four named decisions has its own counter; the
    fifth counts [Failed] and, through [default], [Updated].  The
    counters depend on how often each response occurred and not on the
    order in which the upserts completed, and together they grow by
    the number of responses. *)
Theorem tally_counts_each_response_once (responses : list UpsertResponse) (c : Counters) :
  let c' := tally responses c in
  newProductsCount c' = (newProductsCount c + occurrences NewProduct responses)%nat /\
  priceChangedCount c' = (priceChangedCount c + occurrences PriceChanged responses)%nat /\
  infoUpdatedCount c' = (infoUpdatedCount c + occurrences InfoChanged responses)%nat /\
  alreadyUpToDateCount c' =
    (alreadyUpToDateCount c + occurrences AlreadyUpToDate responses)%nat /\
  failedCount c' =
    (failedCount c + occurrences Failed responses + occurrences Updated responses)%nat /\
  total c' = (total c + length responses)%nat.
Proof.
  revert c. induction responses as [|r responses IH]; intros c; cbn zeta.
  - unfold tally, occurrences. cbn [fold_left]. rewrite !filter_nil. cbn [length].
    repeat split; lia.
  - unfold tally. cbn [fold_left]. fold (tally responses (count r c)).
    specialize (IH (count r c)). cbn zeta in IH.
    destruct IH as (H1&H2&H3&H4&H5&H6).
    rewrite H1, H2, H3, H4, H5, H6, !occurrences_cons.
    unfold total. destruct r; cbn; repeat case_decide; try congruence;
      repeat split; lia.
Qed.

End Page.

(* ------------------------------------------------------------------ *)
(** ** index.ts: [uploadImageRestAPI] *)

Section Upload.
Import typings utilities scraper.
Variable funcUrl : option string.
Variable cdnCheckUrlBase : option string.
Variable fetch : string -> option string.

Lemma includes_prefix (s w : string) :
  String.prefix w s = true -> JsString.includes s w = true.
Proof. intros H. destruct s; cbn [JsString.includes]; now rewrite H. Qed.

Lemma imageUrl_has_scheme (product : Product) :
  JsString.includes (imageUrl product) "http" = true.
Proof.
  apply includes_prefix. unfold imageUrl. now apply prefix_app.
Qed.

(** X23.  [uploadImageRestAPI] as the loop calls it, with the image url
    it makes up from the product's id.  That url contains ['http'], so
    the call never returns [false].  Without an [AZURE_FUNC_URL] that
    contains ['http'] it throws the configuration error for every
    product, before any request and without a line on the console;
    with one, it returns [true] when the request is answered and
    passes on what the host throws when it is not. *)
Theorem uploadImageRestAPI_of_scraped_product (product : Product) (t : Terminal) :
  let result := uploadImageRestAPI funcUrl cdnCheckUrlBase fetch
                                   (Some (imageUrl product)) product t in
  fst result <> Done false /\
  match funcUrl with
  | Some f =>
      if JsString.includes f "http" then
        match fetch (restUrl f (imageUrl product) product) with
        | Some _ => fst result = Done true
        | None => result = (Raise RaisedByHost, t)
        end
      else result = (Raise (RaisedError invalidFuncUrl), t)
  | None => result = (Raise (RaisedError invalidFuncUrl), t)
  end.
Proof.
  cbn zeta. unfold uploadImageRestAPI.
  rewrite imageUrl_has_scheme. cbn [negb].
  destruct funcUrl as [f|]; [|split; [discriminate|reflexivity]].
  destruct (JsString.includes f "http"); cbn [negb];
    [|split; [discriminate|reflexivity]].
  destruct (fetch _); split; (discriminate || reflexivity).
Qed.

End Upload.

(* ------------------------------------------------------------------ *)
(** ** index.ts: [routePlaywrightExclusions] *)

Section Routing.
Import scraper.

Lemma fold_flag {A : Type} (P : A -> bool) (l : list A) (flag : bool) :
  fold_left (fun flag x => if P x then true else flag) l flag = flag || existsb P l.
Proof.
  revert flag. induction l as [|x l IH]; intros flag; cbn [fold_left existsb].
  - now rewrite orb_false_r.
  - rewrite IH. destruct (P x), flag; reflexivity.
Qed.

(** X24.  The request handler aborts a request exactly when its
    resource type is one of the five excluded types or its url
    contains one of the nine excluded fragments; every other request
    continues. *)
Theorem route_aborts_iff (requestUrl resourceType : string) :
  route requestUrl resourceType = Abort <->
  In resourceType typeExclusions \/
  exists excludedURL,
    In excludedURL urlExclusions /\ JsString.includes requestUrl excludedURL = true.
Proof.
  unfold route. rewrite !fold_flag. cbn [orb].
  destruct (existsb _ urlExclusions || existsb _ typeExclusions) eqn:E.
  - split; [intros _|reflexivity].
    apply orb_true_iff in E as [E|E]; apply existsb_exists in E as (x&Hin&Hx).
    + right. eauto.
    + left. apply String.eqb_eq in Hx. now subst.
  - split; [discriminate|]. intros H. exfalso.
    apply orb_false_iff in E as [E1 E2].
    destruct H as [H|(x&Hin&Hx)].
    + assert (existsb (String.eqb resourceType) typeExclusions = true); [|congruence].
      apply existsb_exists. exists resourceType. split; [assumption|apply String.eqb_refl].
    + assert (existsb (JsString.includes requestUrl) urlExclusions = true); [|congruence].
      apply existsb_exists. eauto.
Qed.

End Routing.
(* ------------------------------------------------------------------ *)
(** ** utilities.ts: the dry-run table *)

Section TextFacts.
Import JsText.

Lemma length_append (a b : string) :
  String.length (a +:+ b) = (String.length a + String.length b)%nat.
Proof.
  induction a as [|c a IH]; [reflexivity|].
  rewrite append_cons. cbn [String.length]. now rewrite IH.
Qed.

Lemma length_filler (c : ascii) (n : nat) : String.length (filler c n) = n.
Proof.
  induction n as [|n IH]; [reflexivity|].
  cbn [filler String.length]. now rewrite IH.
Qed.

Lemma length_padEnd (s : string) (n : nat) (c : ascii) :
  String.length (padEnd s n c) = Nat.max n (String.length s).
Proof. unfold padEnd. rewrite length_append, length_filler. lia. Qed.

Lemma length_padStart (s : string) (n : nat) (c : ascii) :
  String.length (padStart s n c) = Nat.max n (String.length s).
Proof. unfold padStart. rewrite length_append, length_filler. lia. Qed.

Lemma length_slice0 (s : string) (n : nat) :
  String.length (JsString.slice0 s n) = Nat.min n (String.length s).
Proof.
  unfold JsString.slice0. revert s. induction n as [|n IH]; intros s.
  - destruct s; reflexivity.
  - destruct s as [|c s]; [reflexivity|].
    cbn [String.substring String.length]. now rewrite IH.
Qed.

(** A column cut to [n] and padded to [n] is [n] wide. *)
Lemma length_column (s : string) (n : nat) (c : ascii) :
  String.length (padEnd (JsString.slice0 s n) n c) = n.
Proof. rewrite length_padEnd, length_slice0. lia. Qed.

Lemma append_nine (a b c d e f g h i z : string) :
  a +:+ b +:+ c +:+ d +:+ e +:+ f +:+ g +:+ h +:+ i +:+ z =
  (a +:+ b +:+ c +:+ d +:+ e +:+ f +:+ g +:+ h +:+ i) +:+ z.
Proof. now rewrite !append_assoc. Qed.

Lemma length_nine (a b c d e f g h i : string) :
  String.length (a +:+ b +:+ c +:+ d +:+ e +:+ f +:+ g +:+ h +:+ i) =
  (String.length a + String.length b + String.length c + String.length d +
   String.length e + String.length f + String.length g + String.length h +
   String.length i)%nat.
Proof. rewrite !length_append. lia. Qed.

End TextFacts.

Section Rows.
Import typings Runtime JsText utilities.
Variable numberToString : float -> string.

(** X25.  The rows of the dry-run table line up with the header.  For
    a product with an id of at most six code units, a size, and a
    price that prints in at most four, the categories start in column
    90 of the row, which is where the header has its ['Categories'];
    the name and size columns are cut and padded to 50 and 16.  The
    header is followed by a rule of 120 dashes. *)
Theorem productRow_lines_up_with_header (p : Product) (i z : string) (t : Terminal) :
  id p = Some i -> size p = Some z ->
  (String.length i <= 6)%nat ->
  (String.length (numberToString (currentPrice p)) <= 4)%nat ->
  exists columns headings rule,
    productRow numberToString p
      = Normal (columns +:+ match category p with
                            | Some c => join ", " c
                            | None => EmptyString
                            end) /\
    printed (logTableHeader t) = printed t ++ [headings +:+ "Categories"; rule] /\
    String.length columns = 90%nat /\
    String.length headings = 90%nat /\
    rule = filler "-" 120.
Proof.
  intros Hid Hsize Hi Hprice. unfold productRow. rewrite Hid, Hsize.
  unfold show, default.
  cbn [fmap option_fmap option_map from_option Datatypes.id].
  eexists (_ +:+ " | " +:+ _ +:+ " | " +:+ _ +:+ " | " +:+ "$ " +:+ _ +:+ " | "),
          (String.substring 0 90 tableHeader), (filler "-" 120).
  split; [now rewrite append_nine|].
  split.
  { assert (E : tableHeader = String.substring 0 90 tableHeader +:+ "Categories")
      by (vm_compute; reflexivity).
    rewrite <- E. unfold logTableHeader, console_log. cbn [printed].
    now rewrite <- app_assoc. }
  split; [|split; [vm_compute; reflexivity|reflexivity]].
  rewrite length_nine, !length_column, length_padEnd, !length_padStart.
  cbn [String.length]. lia.
Qed.

(** X26.  Two rows logged one after the other differ in colour, cyan
    first when the flag was off, and leave the flag as it was; each
    line is the colour code, the text of the row and the code that
    clears the colour. *)
Theorem consecutive_rows_alternate (p q : Product) (t t1 t2 : Terminal) :
  logProductRow numberToString p t = (Normal tt, t1) ->
  logProductRow numberToString q t1 = (Normal tt, t2) ->
  exists first second textp textq,
    productRow numberToString p = Normal textp /\
    productRow numberToString q = Normal textq /\
    printed t2 = printed t ++ [code first +:+ textp +:+ clear;
                               code second +:+ textq +:+ clear] /\
    (first, second) = (if alternatingRowColour t then (white, cyan) else (cyan, white)) /\
    alternatingRowColour t2 = alternatingRowColour t.
Proof.
  unfold logProductRow, getAlternatingRowColour, log, console_log.
  destruct (productRow numberToString p) as [textp|]; [|discriminate].
  destruct (productRow numberToString q) as [textq|]; [|discriminate].
  intros [= <-] [= <-]. cbn [printed alternatingRowColour].
  destruct (alternatingRowColour t); cbn [negb].
  - exists white, cyan, textp, textq. rewrite <- app_assoc. auto.
  - exists cyan, white, textp, textq. rewrite <- app_assoc. auto.
Qed.

End Rows.

(* ------------------------------------------------------------------ *)
(** ** mysql.ts: [logPriceChange] *)

Section PriceLog.
Import typings Runtime JsText utilities mysql mysql_log.
Variable numberToString : float -> string.


End PriceLog.
(* ------------------------------------------------------------------ *)
(** ** The further properties on concrete inputs *)

Section MoreInstances.
Import JsDate typings Runtime mysql frappe index Vocabulary Scenario.
Import utilities scraper StoreVocabulary MoreScenarios.

(** Three cents apart: [InfoChanged], for the stored category. *)
Lemma small_difference_never_PriceChanged_witness :
  buildUpdatedProduct nzdt someCategories 1 2 categoryDrift =
    (Normal (mkProductResponse InfoChanged 1),
     snd (buildUpdatedProduct nzdt someCategories 1 2 categoryDrift)) /\
  upsertType (mkProductResponse InfoChanged 1) <> PriceChanged.
Proof.
  assert (E : buildUpdatedProduct nzdt someCategories 1 2 categoryDrift =
                (Normal (mkProductResponse InfoChanged 1),
                 snd (buildUpdatedProduct nzdt someCategories 1 2 categoryDrift)))
    by (vm_compute; reflexivity).
  split; [exact E|].
  apply (small_difference_never_PriceChanged nzdt someCategories 1 2 categoryDrift
           (mkProductResponse InfoChanged 1)
           (snd (buildUpdatedProduct nzdt someCategories 1 2 categoryDrift))
           (iceCream (Some ["frozen"%string]) 4.03 1 (at_ jan15) (at_ jan15))
           (iceCream (Some ["bogus"%string]) 4 2 (at_ jan10)
                     (DateText "2024-01-10T09:00:00.000Z"))).
  - reflexivity.
  - reflexivity.
  - vm_compute. reflexivity.
  - exact E.
Defined.

(** Half a dollar apart on the day the store names: [AlreadyUpToDate]. *)
Lemma same_day_text_never_PriceChanged_witness :
  buildUpdatedProduct nzdt someCategories 1 2 sameDayText =
    (Normal (mkProductResponse AlreadyUpToDate 2),
     snd (buildUpdatedProduct nzdt someCategories 1 2 sameDayText)) /\
  upsertType (mkProductResponse AlreadyUpToDate 2) <> PriceChanged.
Proof.
  assert (E : buildUpdatedProduct nzdt someCategories 1 2 sameDayText =
                (Normal (mkProductResponse AlreadyUpToDate 2),
                 snd (buildUpdatedProduct nzdt someCategories 1 2 sameDayText)))
    by (vm_compute; reflexivity).
  split; [exact E|].
  apply (same_day_text_never_PriceChanged nzdt someCategories 1 2 sameDayText
           (mkProductResponse AlreadyUpToDate 2)
           (snd (buildUpdatedProduct nzdt someCategories 1 2 sameDayText))
           (iceCream (Some ["frozen"%string]) 4.5 1 (at_ jan15) (at_ jan15))
           (iceCream (Some ["frozen"%string]) 4 2 (at_ jan10) (DateText "2024-01-15"))
           "2024-01-15" "2024-01-15T09:00:00.000Z").
  - reflexivity.
  - reflexivity.
  - reflexivity.
  - vm_compute. reflexivity.
  - reflexivity.
  - exact E.
Defined.

(** Of [categories=pantry, eggs] the one category [pantry,] is kept. *)
Lemma parseAndCategoriseURL_one_category_witness :
  parseAndCategoriseURL pantryLine = Some pantryUrl /\
  length (categories pantryUrl) = 1%nat.
Proof.
  assert (E : parseAndCategoriseURL pantryLine = Some pantryUrl)
    by (vm_compute; reflexivity).
  split; [exact E|].
  exact (parseAndCategoriseURL_one_category pantryLine pantryUrl E).
Defined.

Lemma parseAndCategoriseURL_single_query_witness :
  exists base,
    url eggsUrl = base +:+ optimisedQuery /\ JsString.has_char "?" base = false.
Proof.
  apply (parseAndCategoriseURL_single_query eggsLine eggsUrl).
  vm_compute. reflexivity.
Defined.

(** The line had a query and no scheme: the url has none either. *)
Lemma parseAndCategoriseURL_single_section_witness :
  JsString.has_char " " eggsLine = false /\
  JsString.includes eggsLine siteMarker = true /\
  parseAndCategoriseURL eggsLine = Some eggsUrl.
Proof.
  split; [reflexivity|]. split; [reflexivity|].
  exact (parseAndCategoriseURL_single_section eggsLine eq_refl eq_refl).
Defined.

Lemma scrapingLabel_strips_query_witness :
  scrapingLabel (url iceCreamUrl) +:+ optimisedQuery
    = JsString.replace (url iceCreamUrl) "https://www." "" /\
  JsString.has_char "?" (scrapingLabel (url iceCreamUrl)) = false.
Proof.
  apply (scrapingLabel_strips_query tubsLine iceCreamUrl).
  vm_compute. reflexivity.
Defined.


Lemma failed_upsert_writes_nothing_witness :
  table (snd (upsertProductToMySQL nzdt someCategories 1 selectFails))
    = table selectFails.
Proof.
  apply (failed_upsert_writes_nothing nzdt someCategories 1 selectFails).
  vm_compute. reflexivity.
Defined.

Lemma decision_tells_presence_witness :
  exists s i,
    objs withStoredRow !! 1%positive = Some s /\ id s = Some i /\
    (AlreadyUpToDate = NewProduct <-> table withStoredRow !! i = None) /\
    is_Some (table (snd (upsertProductToMySQL nzdt someCategories 1 withStoredRow))
               !! i).
Proof.
  apply (decision_tells_presence nzdt someCategories 1 withStoredRow).
  - vm_compute. reflexivity.
  - discriminate.
Defined.


Lemma upsert_keeps_rows_keyed_witness :
  keyed (table priceRose) /\
  keyed (table (snd (upsertProductToMySQL nzdt someCategories 1 priceRose))).
Proof.
  assert (K : keyed (table priceRose)).
  { intros k row H. cbn [table priceRose] in H.
    apply lookup_singleton_Some in H as [<- <-]. reflexivity. }
  split; [exact K|].
  apply (upsert_keeps_rows_keyed nzdt someCategories 1 priceRose
           (fst (upsertProductToMySQL nzdt someCategories 1 priceRose))).
  - vm_compute. reflexivity.
  - exact K.
Defined.

Lemma stored_ledger_only_grows_witness :
  exists row',
    table (snd (upsertProductToMySQL nzdt someCategories 1 priceRose))
      !! "282750"%string = Some row' /\
    continues (r_priceHistory storedRow) (r_priceHistory row').
Proof.
  apply (stored_ledger_only_grows nzdt someCategories 1 priceRose
           (fst (upsertProductToMySQL nzdt someCategories 1 priceRose))).
  - vm_compute. reflexivity.
  - reflexivity.
Defined.

Lemma up_to_date_upsert_is_noop_witness :
  table (snd (upsertProductToMySQL nzdt someCategories 1 withStoredRow))
    = table withStoredRow.
Proof.
  apply (up_to_date_upsert_is_noop nzdt someCategories 1 withStoredRow).
  vm_compute. reflexivity.
Defined.

Lemma price_change_is_written_witness :
  exists row h,
    table priceRose !! "282750"%string = Some row /\
    r_priceHistory row = Some h /\
    table (snd (upsertProductToMySQL nzdt someCategories 1 priceRose))
      !! "282750"%string =
      Some (mkRow (r_id row) (name scrapedIceCream) (category scrapedIceCream)
                  (sourceSite scrapedIceCream) (size scrapedIceCream)
                  (unitPrice scrapedIceCream) (unitName scrapedIceCream)
                  (originalUnitQuantity scrapedIceCream)
                  (currentPrice scrapedIceCream)
                  (Some (h ++ [mjoin ([Some (mkDatedPrice (at_ jan15) 4.5)] !! 0%nat)]))
                  (lastUpdated scrapedIceCream) (r_lastChecked row)).
Proof.
  apply (price_change_is_written nzdt someCategories 1 priceRose
           (snd (upsertProductToMySQL nzdt someCategories 1 priceRose))
           scrapedIceCream "282750"%string
           [Some (mkDatedPrice (at_ jan15) 4.5)]).
  - vm_compute. reflexivity.
  - reflexivity.
  - reflexivity.
  - reflexivity.
Defined.

Lemma info_change_is_written_witness :
  exists row,
    table withDriftedRow !! "282750"%string = Some row /\
    table (snd (upsertProductToMySQL nzdt someCategories 1 withDriftedRow))
      !! "282750"%string =
      Some (mkRow (r_id row) "Vanilla Ice Cream Tub" (Some ["frozen"%string])
                  "countdown.co.nz" (Some "2L"%string) None None None 4
                  (r_priceHistory row) (r_lastUpdated row) (r_lastChecked row)).
Proof.
  apply (info_change_is_written nzdt someCategories 1 withDriftedRow
           (snd (upsertProductToMySQL nzdt someCategories 1 withDriftedRow))
           (iceCream (Some ["frozen"%string]) 4 1 (at_ jan15) (at_ jan15))
           "282750"%string).
  - vm_compute. reflexivity.
  - reflexivity.
  - reflexivity.
Defined.


(** [reverse], [dry-run-mode], [reverse]: dry run, original order. *)
Lemma handleArguments_flags_witness :
  handleArguments ["node"; "index.js"; "reverse"; "dry-run-mode"; "reverse"]%string
                  (mkSettings false [eggsUrl; iceCreamUrl])
  = Done (mkSettings true [eggsUrl; iceCreamUrl]).
Proof.
  apply (handleArguments_flags
           ["node"; "index.js"; "reverse"; "dry-run-mode"; "reverse"]%string
           (mkSettings false [eggsUrl; iceCreamUrl])).
  repeat constructor.
Defined.

Lemma handleArguments_url_override_witness :
  exists parsedUrl,
    parseAndCategoriseURL tubsLine = Some parsedUrl /\
    categorisedUrls (mkSettings false [iceCreamUrl]) = [parsedUrl].
Proof.
  apply (handleArguments_url_override
           ["node"; "index.js"; eggsLine; tubsLine; "reverse"]%string
           (mkSettings false [eggsUrl; eggsUrl])
           (mkSettings false [iceCreamUrl]) tubsLine).
  - vm_compute. reflexivity.
  - vm_compute. reflexivity.
Defined.

Lemma scrapeAll_closes_after_last_page_witness :
  scrapeAll allScraped [eggsUrl; iceCreamUrl] =
    mkChain 3
      [Scraping 1 2 "countdown.co.nz/shop/browse/pantry/eggs"; Wait 11000;
       Scraping 2 2 "countdown.co.nz/shop/browse/frozen/ice-cream-sorbet/tubs";
       CloseBrowser]
      false.
Proof.
  apply (scrapeAll_closes_after_last_page allScraped [eggsUrl] iceCreamUrl).
  intros n. discriminate.
Defined.

Lemma scrapeAll_stops_at_crash_witness :
  scrapeAll secondCrashes [eggsUrl; iceCreamUrl; tubsUrl] =
    mkChain 2
      [Scraping 1 3 "countdown.co.nz/shop/browse/pantry/eggs"; Wait 11000;
       Scraping 2 3 "countdown.co.nz/shop/browse/frozen/ice-cream-sorbet/tubs"]
      true.
Proof.
  apply (scrapeAll_stops_at_crash secondCrashes [eggsUrl] [tubsUrl] iceCreamUrl).
  - intros n Hn. cbn [length] in Hn.
    destruct n as [|[|n]]; [discriminate|discriminate|lia].
  - reflexivity.
Defined.

Lemma productRow_lines_up_with_header_witness :
  exists columns headings rule,
    productRow showNumber scrapedIceCream
      = Normal (columns +:+ JsText.join ", " ["frozen"%string]) /\
    printed (logTableHeader freshTerminal)
      = printed freshTerminal ++ [headings +:+ "Categories"; rule] /\
    String.length columns = 90%nat /\
    String.length headings = 90%nat /\
    rule = JsText.filler "-" 120.
Proof.
  apply (productRow_lines_up_with_header showNumber scrapedIceCream
           "282750" "2L" freshTerminal).
  - reflexivity.
  - reflexivity.
  - vm_compute. lia.
  - vm_compute. lia.
Defined.

Lemma consecutive_rows_alternate_witness :
  exists first second textp textq,
    productRow showNumber scrapedIceCream = Normal textp /\
    productRow showNumber storedIceCream = Normal textq /\
    printed (snd (logProductRow showNumber storedIceCream
                    (snd (logProductRow showNumber scrapedIceCream freshTerminal))))
      = printed freshTerminal ++ [code first +:+ textp +:+ clear;
                                  code second +:+ textq +:+ clear] /\
    (first, second) = (cyan, white) /\
    alternatingRowColour
      (snd (logProductRow showNumber storedIceCream
              (snd (logProductRow showNumber scrapedIceCream freshTerminal))))
    = alternatingRowColour freshTerminal.
Proof.
  apply (consecutive_rows_alternate showNumber scrapedIceCream storedIceCream
           freshTerminal
           (snd (logProductRow showNumber scrapedIceCream freshTerminal))).
  - vm_compute. reflexivity.
  - vm_compute. reflexivity.
Defined.


End MoreInstances.
